(** * vanilla-router: route resolution and navigation lifecycle

    A shallow embedding of the routers of the repository:

      - [src/lib/router2.ts]: segment matcher, activation guards, resolvers,
        redirect to [redirectTo] as written (module [Router2]);
      - the first router of [src/lib/router.ts]: the same matcher and
        parser, no guards (module [Router1]);
      - the second router of [src/lib/router.ts], the Angular router:
        regular-expression matcher, activation, load and deactivation
        guards, resolvers, redirect with parameter substitution, wildcard
        check in the constructor (module [RouterNg]);
      - the click handlers of the three routers (module [Dom]).

    Strings are byte strings (the UTF-8 view of the JavaScript string; every
    delimiter the code looks at is ASCII).  A [Record<string, string>] made
    by [{}] is the finite map of its own properties: an assignment to
    [__proto__] adds none ([Js.setProperty]), and a lookup that finds no own
    property sees what [Object.prototype] provides ([Js.inherited]).  The
    regular expressions of the Angular router are modelled for route paths
    without characters that have a meaning of their own in a pattern
    ([RouterNg.plainPath]); for other paths [new RegExp] may throw or match
    otherwise, and the properties below that rest on a result of that
    matcher say so.  A guard answers a boolean and a resolver a value or a
    failure; a guard that throws is outside the model.  Asynchronous code
    is modelled by one attempt running to completion: every call to a
    guard, resolver, loader, the history API, the host element or the event
    bus is recorded, in order, in an effect trace, and [console] output is
    left out. *)

From Stdlib Require Import String Ascii List NArith Bool Lia.
From stdpp Require Import base option gmap strings list.
Import ListNotations.

Local Open Scope string_scope.
Local Open Scope list_scope.

Set Warnings "-register-all".

(** ** JavaScript string primitives used by the routers *)

Module Js.

(** [s.split(sep)] for a one-character separator: never empty. *)
Fixpoint split (sep : ascii) (s : string) : list string :=
  match s with
  | EmptyString => [EmptyString]
  | String c s' =>
      if Ascii.eqb c sep then EmptyString :: split sep s'
      else match split sep s' with
           | [] => [String c EmptyString]
           | h :: t => String c h :: t
           end
  end.

(** Truthiness of a string: non-empty. *)
Definition truthy (s : string) : bool :=
  match s with EmptyString => false | String _ _ => true end.

(** [xs.filter(Boolean)] on an array of strings. *)
Definition filterBoolean (xs : list string) : list string :=
  List.filter truthy xs.

(** [s.startsWith(":")]. *)
Definition startsWithColon (s : string) : bool :=
  match s with String c _ => Ascii.eqb c ":" | EmptyString => false end.

(** [s.slice(1)]. *)
Definition slice1 (s : string) : string :=
  match s with String _ r => r | EmptyString => EmptyString end.

(** [xs.join("/")]. *)
Fixpoint join (xs : list string) : string :=
  match xs with
  | [] => EmptyString
  | [x] => x
  | x :: rest => x +:+ "/" +:+ join rest
  end.

(** [xs[0]] and [xs[1]] of an array destructuring [const [a, b] = xs]. *)
Definition item0 (xs : list string) : string :=
  match xs with x :: _ => x | [] => EmptyString end.

Definition item1 (xs : list string) : option string :=
  match xs with _ :: y :: _ => Some y | _ => None end.

(** *** Properties of an object created by [{}]

    [o[key] = value]: the key [__proto__] goes to the setter [o] inherits
    from [Object.prototype], which creates no property (a string, a number
    or a boolean is ignored, [null] only removes the prototype); every other
    key becomes an own property of [o]. *)
Definition setProperty {V : Type} (key : string) (value : V)
    (o : gmap string V) : gmap string V :=
  if String.eqb key "__proto__" then o else <[key := value]> o.

(** The text of a built-in function [name], as [String(f)] gives it (the
    layout is that of V8). *)
Definition nativeCode (name : string) : string :=
  "function " +:+ name +:+ "() { [native code] }".

(** [String(o[key])] for a key that is no own property of [o] and that [o]
    inherits from [Object.prototype]: the built-in methods, [constructor]
    (the function [Object]) and [__proto__] (the prototype itself); [None]
    for a key that is not inherited, where [o[key]] is [undefined].  All the
    inherited values are truthy. *)
Definition objectPrototype : list string :=
  ["constructor"; "__proto__"; "hasOwnProperty"; "isPrototypeOf";
   "propertyIsEnumerable"; "toLocaleString"; "toString"; "valueOf";
   "__defineGetter__"; "__defineSetter__"; "__lookupGetter__";
   "__lookupSetter__"].

Definition inherited (key : string) : option string :=
  if List.existsb (String.eqb key) objectPrototype
  then Some (if String.eqb key "constructor" then nativeCode "Object"
             else if String.eqb key "__proto__" then "[object Object]"
             else nativeCode key)
  else None.

(** *** [decodeURIComponent]

    The ECMAScript [Decode] operation with an empty preserved set: a [%]
    must be followed by two hexadecimal digits; an octet below 0x80 is the
    character itself, an octet with [n] leading one bits starts a sequence of
    [n] escaped octets that has to be a well-formed UTF-8 encoding.  [None]
    stands for the [URIError] that is thrown otherwise. *)

Definition hexDigit (c : ascii) : option N :=
  let n := N_of_ascii c in
  if ((48 <=? n) && (n <=? 57))%N then Some (n - 48)%N
  else if ((65 <=? n) && (n <=? 70))%N then Some (n - 55)%N
  else if ((97 <=? n) && (n <=? 102))%N then Some (n - 87)%N
  else None.

(** One escape [%XX] at the head of [s]: the octet and the rest. *)
Definition escape (s : string) : option (N * string) :=
  match s with
  | String "%" (String h (String l rest)) =>
      match hexDigit h, hexDigit l with
      | Some a, Some b => Some (16 * a + b, rest)%N
      | _, _ => None
      end
  | _ => None
  end.

(** [n] further escapes. *)
Fixpoint escapes (n : nat) (s : string) : option (list N * string) :=
  match n with
  | O => Some ([], s)
  | S n' =>
      match escape s with
      | Some (b, rest) =>
          match escapes n' rest with
          | Some (bs, rest') => Some (b :: bs, rest')
          | None => None
          end
      | None => None
      end
  end.

Definition inRange (lo hi b : N) : bool := ((lo <=? b) && (b <=? hi))%N.

(** Well-formed UTF-8 byte sequences of length 2 to 4 (Unicode table 3-7). *)
Definition validUtf8 (bs : list N) : bool :=
  match bs with
  | [b0; b1] => inRange 194 223 b0 && inRange 128 191 b1
  | [b0; b1; b2] =>
      ((N.eqb b0 224 && inRange 160 191 b1)
       || (inRange 225 236 b0 && inRange 128 191 b1)
       || (N.eqb b0 237 && inRange 128 159 b1)
       || (inRange 238 239 b0 && inRange 128 191 b1))
      && inRange 128 191 b2
  | [b0; b1; b2; b3] =>
      ((N.eqb b0 240 && inRange 144 191 b1)
       || (inRange 241 243 b0 && inRange 128 191 b1)
       || (N.eqb b0 244 && inRange 128 143 b1))
      && inRange 128 191 b2 && inRange 128 191 b3
  | _ => false
  end.

(** Number of leading one bits of an octet. *)
Definition leadingOnes (b : N) : nat :=
  if (b <? 128)%N then 0
  else if (b <? 192)%N then 1
  else if (b <? 224)%N then 2
  else if (b <? 240)%N then 3
  else if (b <? 248)%N then 4
  else 5.

Definition bytesToString (bs : list N) : string :=
  List.fold_right (fun b acc => String (ascii_of_N b) acc) EmptyString bs.

Fixpoint decodeLoop (fuel : nat) (s : string) : option string :=
  match fuel with
  | O => match s with EmptyString => Some EmptyString | _ => None end
  | S fuel' =>
      match s with
      | EmptyString => Some EmptyString
      | String c rest =>
          if Ascii.eqb c "%" then
            match escape s with
            | None => None
            | Some (b, rest1) =>
                match leadingOnes b with
                | 0 => option_map (String (ascii_of_N b)) (decodeLoop fuel' rest1)
                | 1 => None
                | S (S (S (S (S _)))) => None
                | S k =>
                    match escapes k rest1 with
                    | None => None
                    | Some (bs, rest2) =>
                        if validUtf8 (b :: bs)
                        then option_map (fun r => bytesToString (b :: bs) +:+ r)
                                        (decodeLoop fuel' rest2)
                        else None
                    end
                end
            end
          else option_map (String c) (decodeLoop fuel' rest)
      end
  end.

Definition decodeURIComponent (s : string) : option string :=
  decodeLoop (String.length s) s.

End Js.

(** ** Data shared by the routers *)

(** Values of [Record<string, any>]. *)
Inductive JsVal : Type :=
| VStr (s : string)
| VNum (n : N)
| VBool (b : bool)
| VNull.

(** [interface ActivatedRoute]. *)
Record ActivatedRoute : Type := mkActivatedRoute {
  params : gmap string string;
  queryParams : gmap string string;
  path : string;
  data : option (gmap string JsVal)
}.

(** [interface CanActivate]: the guard answers (or resolves to) a boolean.
    The name only identifies the guard in the effect trace. *)
Record CanActivate : Type := mkCanActivate {
  ca_name : string;
  canActivate : ActivatedRoute -> bool
}.

(** [interface CanDeactivate]. *)
Record CanDeactivate : Type := mkCanDeactivate {
  cd_name : string;
  canDeactivate : ActivatedRoute -> bool
}.

(** [interface CanLoad]: [canLoad(route)] is always called with the route
    that declares the guard, so the model keeps its answer for that route. *)
Record CanLoad : Type := mkCanLoad {
  cl_name : string;
  canLoad : bool
}.

(** [interface Resolve<T>]: [None] is a rejected promise (or a throw). *)
Record Resolve : Type := mkResolve {
  resolve : ActivatedRoute -> option JsVal
}.

(** What a lazy loader's promise settles to. *)
Inductive Loaded (A : Type) : Type :=
| Fulfilled (a : A)
| Failed.
Arguments Fulfilled {A} a.
Arguments Failed {A}.

(** A mountable unit is known by its name. *)
Definition Component : Type := string.

(** Observable actions of one router, in the order they happen.  [Mount] is
    [rootElement.appendChild(component(activatedRoute))] of [router2.ts] and
    of the first router of [router.ts]; [CreateComponent] and
    [AssignRouteData] are [createComponent(component, ...)] and
    [instance.routeData = activatedRoute] of the Angular router. *)
Inductive Effect : Type :=
| HistoryState (replace : bool) (url : string)
| CallCanActivate (guard : string) (route : ActivatedRoute)
| CallCanLoad (guard : string) (routePath : string)
| CallCanDeactivate (guard : string) (route : ActivatedRoute)
| CallResolve (key : string) (route : ActivatedRoute)
| CallLoadChildren (routePath : string)
| CallLoadComponent (routePath : string)
| DestroyComponent (c : Component)
| DestroyModule (m : string)
| Mount (c : Component) (route : ActivatedRoute)
| CreateComponent (c : Component)
| AssignRouteData (c : Component) (route : ActivatedRoute)
| SetInnerHTML (html : string)
| DispatchRouteChange (path : string) (params query : gmap string string).

(** How one call of [_handleRouting] ends. *)
Inductive Outcome : Type :=
| Blocked                      (* a guard answered false: plain [return] *)
| Redirect (target : string)   (* [this.navigate(target, true); return] *)
| Settled                      (* ran to the end: the event was dispatched *)
| Rejected.                    (* the promise of [_handleRouting] rejects *)

Definition isDispatch (e : Effect) : bool :=
  match e with DispatchRouteChange _ _ _ => true | _ => false end.

Definition isCallCanActivate (e : Effect) : bool :=
  match e with CallCanActivate _ _ => true | _ => false end.

Definition isCallCanLoad (e : Effect) : bool :=
  match e with CallCanLoad _ _ => true | _ => false end.

Definition isCallCanDeactivate (e : Effect) : bool :=
  match e with CallCanDeactivate _ _ => true | _ => false end.

Definition isCallResolve (e : Effect) : bool :=
  match e with CallResolve _ _ => true | _ => false end.

Definition isLoaderCall (e : Effect) : bool :=
  match e with CallLoadChildren _ | CallLoadComponent _ => true | _ => false end.

(** Calls of guards and resolvers. *)
Definition guardEffect (e : Effect) : bool :=
  isCallCanActivate e || isCallCanLoad e || isCallCanDeactivate e
  || isCallResolve e.

(** [Promise.all(guards.map(g => g.canActivate(ar)))]: every guard is
    called, in order; the verdict is computed from all answers. *)
Definition callCanActivate (gs : list CanActivate) (ar : ActivatedRoute)
  : list bool * list Effect :=
  (List.map (fun g => canActivate g ar) gs,
   List.map (fun g => CallCanActivate (ca_name g) ar) gs).

Definition callCanDeactivate (gs : list CanDeactivate) (ar : ActivatedRoute)
  : list bool * list Effect :=
  (List.map (fun g => canDeactivate g ar) gs,
   List.map (fun g => CallCanDeactivate (cd_name g) ar) gs).

Definition callCanLoad (gs : list CanLoad) (routePath : string)
  : list bool * list Effect :=
  (List.map canLoad gs,
   List.map (fun g => CallCanLoad (cl_name g) routePath) gs).

(** [results.some(result => !result)]. *)
Definition someRejects (results : list bool) : bool :=
  List.existsb negb results.

(** [Promise.all(Object.entries(resolve).map(async ([key, r]) => ...))]:
    every resolver is called, in property order; each fulfilled one stores
    its value under its key (the keys of an object are distinct); one
    rejection rejects the whole. *)
Fixpoint callResolvers (rs : list (string * Resolve)) (ar : ActivatedRoute)
  : option (gmap string JsVal) * list Effect :=
  match rs with
  | [] => (Some ∅, [])
  | (key, r) :: rest =>
      let '(resolved, tr) := callResolvers rest ar in
      (match resolve r ar, resolved with
       | Some v, Some m => Some (Js.setProperty key v m)
       | _, _ => None
       end,
       CallResolve key ar :: tr)
  end.

(** [{ ...route.data, ...resolvedData }]. *)
Definition mergeData (routeData : option (gmap string JsVal))
    (resolved : gmap string JsVal) : gmap string JsVal :=
  resolved ∪ default ∅ routeData.

(** The query part of [_parsePath], the same text in both sources:
    [queryString.split('&').forEach(param => { const [key, value] =
    param.split('='); if (key) query[key] = value ?
    decodeURIComponent(value) : ''; })]. *)
Definition parseParam (query : option (gmap string string)) (param : string)
  : option (gmap string string) :=
  match query with
  | None => None
  | Some q =>
      let kv := Js.split "=" param in
      let key := Js.item0 kv in
      let value := Js.item1 kv in
      if Js.truthy key then
        match value with
        | Some v =>
            if Js.truthy v then
              match Js.decodeURIComponent v with
              | Some d => Some (Js.setProperty key d q)
              | None => None
              end
            else Some (Js.setProperty key "" q)
        | None => Some (Js.setProperty key "" q)
        end
      else Some q
  end.

Definition parseQuery (queryString : option string)
  : option (gmap string string) :=
  match queryString with
  | Some qs =>
      if Js.truthy qs
      then List.fold_left parseParam (Js.split "&" qs) (Some ∅)
      else Some ∅
  | None => Some ∅
  end.

(** ** [router2.ts]: segment matcher, activation guards, resolvers

    The first router of [router.ts] has the same [_findMatchingRoute] and
    [_parsePath], and a [_handleRouting] without guards and resolvers. *)

Module Router2.

(** [interface Route] ([pathMatch] is declared and never read). *)
Inductive Route : Type := mkRoute {
  r_path : string;
  loadComponent : option (Loaded Component);
  loadChildren : option (Loaded Component);
  redirectTo : option string;
  r_data : option (gmap string JsVal);
  children : option (list Route);
  r_canActivate : option (list CanActivate);
  r_resolve : option (list (string * Resolve))
}.

(** The mutable fields of [class Router]. *)
Record State : Type := mkState {
  currentParams : gmap string string;
  currentPath : string;
  currentQuery : gmap string string
}.

(** [config.routes] and whether a root element was found. *)
Record Config : Type := mkConfig {
  routes : list Route;
  rootElement : bool
}.

(** The inner [for] loop of [_findMatchingRoute] over the segments; [None]
    is [isMatch = false].  The lengths are equal when it is called. *)
Fixpoint matchSegments (routeSegments pathSegments : list string)
    (ps : gmap string string) : option (gmap string string) :=
  match routeSegments, pathSegments with
  | [], _ => Some ps
  | routeSegment :: rs, pathSegment :: qs =>
      if Js.startsWithColon routeSegment
      then matchSegments rs qs
             (Js.setProperty (Js.slice1 routeSegment) pathSegment ps)
      else if String.eqb routeSegment pathSegment
           then matchSegments rs qs ps
           else None
  | _ :: _, [] => None
  end.

Definition segments (s : string) : list string :=
  Js.filterBoolean (Js.split "/" s).

(** [for (const route of routes) body]: [body] answers [Some r] when the
    loop returns [r] at this route and [None] when it goes on. *)
Definition forRoutes {R : Type}
    (body : R -> gmap string string -> option (option R * gmap string string))
  : list R -> gmap string string -> option R * gmap string string :=
  fix loop (rs : list R) (cur : gmap string string) :=
    match rs with
    | [] => (None, cur)
    | route :: rest =>
        match body route cur with
        | Some result => result
        | None => loop rest cur
        end
    end.

(** The body of the loop of [_findMatchingRoute] for one route; [cur] is
    [this.currentParams], which a segment match overwrites. *)
Fixpoint tryRoute (pathname : string) (route : Route) (cur : gmap string string)
  {struct route} : option (option Route * gmap string string) :=
  if String.eqb (r_path route) pathname then Some (Some route, cur)
  else if String.eqb (r_path route) "*" then Some (Some route, cur)
  else
    let routeSegments := segments (r_path route) in
    let pathSegments := segments pathname in
    if negb (Nat.eqb (List.length routeSegments) (List.length pathSegments))
    then None
    else
      match matchSegments routeSegments pathSegments ∅ with
      | None => None
      | Some ps =>
          match children route with
          | Some cs =>
              match forRoutes (tryRoute pathname) cs ps with
              | (Some childRoute, cur') => Some (Some childRoute, cur')
              | (None, cur') => Some (Some route, cur')
              end
          | None => Some (Some route, ps)
          end
      end.

Definition findMatchingRoute (rs : list Route) (pathname : string)
    (cur : gmap string string) : option Route * gmap string string :=
  forRoutes (tryRoute pathname) rs cur.

(** [_parsePath]: [params] is [this.currentParams] as it is on entry;
    [None] is the [URIError] of [decodeURIComponent]. *)
Definition parsePath (st : State) (path : string)
  : option (string * gmap string string * gmap string string) :=
  let parts := Js.split "?" path in
  let pathname := Js.item0 parts in
  let queryString := Js.item1 parts in
  match parseQuery queryString with
  | Some query => Some (pathname, currentParams st, query)
  | None => None
  end.

Definition setInnerHTML (cfg : Config) (html : string) : list Effect :=
  if rootElement cfg then [SetInnerHTML html] else [].

Definition mount (cfg : Config) (c : Component) (ar : ActivatedRoute)
  : list Effect :=
  if rootElement cfg then [SetInnerHTML ""; Mount c ar] else [].

(** The two [try] blocks at the end of [_handleRouting]. *)
Definition load (cfg : Config) (route : Route) (ar : ActivatedRoute)
  : list Effect :=
  match loadChildren route with
  | Some l =>
      CallLoadChildren (r_path route) ::
      match l with
      | Fulfilled c => mount cfg c ar
      | Failed => setInnerHTML cfg "<h1>Module failed to load</h1>"
      end
  | None =>
      match loadComponent route with
      | Some l =>
          CallLoadComponent (r_path route) ::
          match l with
          | Fulfilled c => mount cfg c ar
          | Failed => setInnerHTML cfg "<h1>Component failed to load</h1>"
          end
      | None => []
      end
  end.

(** [if (route.canActivate) { ... Promise.all(...) ... }]: the answers of
    the guards and the calls made. *)
Definition activationStep (route : Route) (ar : ActivatedRoute)
  : list bool * list Effect :=
  match r_canActivate route with
  | Some gs => callCanActivate gs ar
  | None => ([], [])
  end.

(** [if (route.resolve) { await Promise.all(...) }]. *)
Definition resolveStep (route : Route) (ar : ActivatedRoute)
  : option (gmap string JsVal) * list Effect :=
  match r_resolve route with
  | Some rs => callResolvers rs ar
  | None => (Some ∅, [])
  end.

(** [route.redirectTo] when it is set and not the empty string. *)
Definition redirectTarget (route : Route) : option string :=
  match redirectTo route with
  | Some target => if Js.truthy target then Some target else None
  | None => None
  end.

(** One call of [_handleRouting], up to the point where it returns, calls
    [this.navigate(route.redirectTo, true)] or rejects. *)
Definition handleRouting (cfg : Config) (st : State) (path : string)
  : Outcome * State * list Effect :=
  match parsePath st path with
  | None => (Rejected, st, [])
  | Some (pathname, ps, query) =>
      let '(found, cur) := findMatchingRoute (routes cfg) pathname ps in
      let st1 := mkState cur pathname query in
      let event := DispatchRouteChange path ps query in
      match found with
      | None =>
          (Settled, st1,
           setInnerHTML cfg "<h1>404 - Page Not Found</h1>" ++ [event])
      | Some route =>
          let ar := mkActivatedRoute cur query pathname (r_data route) in
          (* Check route guards *)
          let '(activate, tr1) := activationStep route ar in
          if someRejects activate then (Blocked, st1, tr1)
          else
          (* Resolve data *)
          let '(resolved, tr2) := resolveStep route ar in
          match resolved with
          | None => (Rejected, st1, tr1 ++ tr2)
          | Some resolvedData =>
              let activatedRoute :=
                mkActivatedRoute cur query pathname
                  (Some (mergeData (r_data route) resolvedData)) in
              match redirectTarget route with
              | Some target => (Redirect target, st1, tr1 ++ tr2)
              | None =>
                  (Settled, st1,
                   tr1 ++ tr2 ++ load cfg route activatedRoute ++ [event])
              end
          end
      end
  end.

(** [_handleRouting] together with the navigations it starts: a redirect
    calls [this.navigate(target, true)], which replaces the history entry
    and handles the target.  [fuel] bounds the length of the redirect
    chain; [None] means the bound was reached. *)
Fixpoint routing (fuel : nat) (cfg : Config) (st : State) (path : string)
  : option (Outcome * State * list Effect) :=
  match fuel with
  | O => None
  | S fuel' =>
      let '(out, st1, tr) := handleRouting cfg st path in
      match out with
      | Redirect target =>
          match routing fuel' cfg st1 target with
          | Some (out', st2, tr') =>
              Some (out', st2, tr ++ HistoryState true target :: tr')
          | None => None
          end
      | _ => Some (out, st1, tr)
      end
  end.

(** [navigate(path, replace)]. *)
Definition navigate (fuel : nat) (cfg : Config) (st : State) (path : string)
    (replace : bool) : option (Outcome * State * list Effect) :=
  match routing fuel cfg st path with
  | Some (out, st', tr) => Some (out, st', HistoryState replace path :: tr)
  | None => None
  end.

Definition initialState : State := mkState ∅ "" ∅.

(** [new Router(config)] when the browser is at [location]: the route table
    is stored as it is, then [_bindEvents] and [_navigateToCurrentUrl]. *)
Definition constructor (fuel : nat) (cfg : Config) (location : string)
  : option (Outcome * State * list Effect) :=
  routing fuel cfg initialState location.

(** The segments of [route] match those of the pathname [p]: the bound
    parameters. *)
Definition segmentMatch (p : string) (route : Route)
  : option (gmap string string) :=
  if negb (Nat.eqb (List.length (segments (r_path route)))
                   (List.length (segments p)))
  then None
  else matchSegments (segments (r_path route)) (segments p) ∅.

(** The loop of [_findMatchingRoute] returns at [route]. *)
Definition hits (p : string) (route : Route) : bool :=
  String.eqb (r_path route) p || String.eqb (r_path route) "*"
  || match segmentMatch p route with Some _ => true | None => false end.

(** The lazy loader that [_handleRouting] would call fails. *)
Definition loaderFails (route : Route) : bool :=
  match loadChildren route with
  | Some Failed => true
  | Some (Fulfilled _) => false
  | None =>
      match loadComponent route with
      | Some Failed => true
      | _ => false
      end
  end.

(** Some route of the tree has exactly the path [p]. *)
Fixpoint exactIn (p : string) (route : Route) : bool :=
  String.eqb (r_path route) p
  || match children route with
     | Some cs => List.existsb (exactIn p) cs
     | None => false
     end.

(** The loop body does the same for [p] and [q] at [route], when neither is
    the path of a route of its tree. *)
Definition sameOutside (p q : string) (route : Route) : Prop :=
  exactIn p route = false -> exactIn q route = false ->
  forall cur, tryRoute p route cur = tryRoute q route cur.

End Router2.

(** ** [router.ts]: regular-expression matcher, the full guard pipeline *)

Module RouterNg.

(** What [loadChildren] resolves to: a module reference whose
    [instance.ngDoBootstrap()] may answer a component. *)
(** A component class as the router sees it: its name, and whether an
    instance just created by [createComponent] already has a truthy
    [routeData]. *)
Record ComponentType : Type := mkComponentType {
  ct_name : Component;
  ct_routeData : bool
}.

Record NgModule : Type := mkNgModule {
  m_name : string;
  ngDoBootstrap : option ComponentType
}.

(** [interface Route] ([pathMatch] is declared and never read). *)
Inductive Route : Type := mkRoute {
  r_path : string;
  loadComponent : option (Loaded ComponentType);
  loadChildren : option (Loaded NgModule);
  redirectTo : option string;
  r_data : option (gmap string JsVal);
  children : option (list Route);
  r_canActivate : option (list CanActivate);
  r_canDeactivate : option (list CanDeactivate);
  r_canLoad : option (list CanLoad);
  r_resolve : option (list (string * Resolve));
  errorComponent : option ComponentType
}.

(** The mutable fields of [class Router]. *)
Record State : Type := mkState {
  currentParams : gmap string string;
  currentPath : string;
  currentQuery : gmap string string;
  currentComponentRef : option Component;
  currentModuleRef : option string
}.

Record Config : Type := mkConfig {
  routes : list Route;
  rootElement : bool
}.

(** *** [_convertPathToRegex] and [String.prototype.match]

    The expression built from a route path is a sequence of literal
    characters, groups [([^/]+)] and wildcards [.*], between [^] and [$].
    This is what [new RegExp] builds for a path all of whose characters
    left literal stand for themselves ([plainPath]); a path with another
    character ([+], [|], [(], ...) is outside this model: there
    [new RegExp] may throw or the pattern may match otherwise. *)

Inductive Tok : Type :=
| Lit (c : ascii)      (* the character itself *)
| Group                (* ([^/]+) *)
| Any.                 (* .* *)

(** The text after [path.replace(/\/:([^/]+)/g, '/([^/]+)')]. *)
Inductive Item : Type :=
| Chr (c : ascii)
| GroupSrc.

(** The first [replace]: scanning from the left, a [/:] followed by at least
    one character other than [/] is replaced, together with all the
    characters up to the next [/], by [/([^/]+)].  [inName] says that the
    scan is inside such a name. *)
Fixpoint replaceParams (inName : bool) (s : string) : list Item :=
  match s with
  | EmptyString => []
  | String c r =>
      if inName && negb (Ascii.eqb c "/") then replaceParams true r
      else
        match r with
        | String c1 (String d r') =>
            if Ascii.eqb c "/" && Ascii.eqb c1 ":" && negb (Ascii.eqb d "/")
            then Chr "/" :: GroupSrc :: replaceParams true r'
            else Chr c :: replaceParams false r
        | _ => Chr c :: replaceParams false r
        end
  end.

(** The second [replace]: every [*] becomes [.*]. *)
Definition replaceStar (i : Item) : Tok :=
  match i with
  | Chr c => if Ascii.eqb c "*" then Any else Lit c
  | GroupSrc => Group
  end.

Definition convertPathToRegex (p : string) : list Tok :=
  List.map replaceStar (replaceParams false p).

(** Characters that stand for themselves in a regular expression. *)
Definition plainChar (c : ascii) : bool :=
  negb (List.existsb (Ascii.eqb c)
          ["\"; "^"; "$"; "."; "|"; "?"; "+"; "("; ")"; "["; "]"; "{"; "}"]%char).

Definition plainTok (t : Tok) : bool :=
  match t with Lit c => plainChar c | _ => true end.

Definition plainPath (p : string) : bool :=
  List.forallb plainTok (convertPathToRegex p).

(** Every path of the route tree is in the modelled fragment: each
    [new RegExp] of the matcher succeeds and matches as [matchesAll]
    says. *)
Fixpoint plainRoute (route : Route) : bool :=
  plainPath (r_path route)
  && match children route with
     | Some cs => List.forallb plainRoute cs
     | None => true
     end.

Definition plainRoutes (rs : list Route) : bool := List.forallb plainRoute rs.

(** [.] matches any character except a line terminator: LF, CR, U+2028 and
    U+2029 (in UTF-8: E2 80 A8 and E2 80 A9). *)
Definition lineTerminatorAt (s : string) : bool :=
  match s with
  | String c r =>
      let n := N_of_ascii c in
      (N.eqb n 10 || N.eqb n 13 ||
       match r with
       | String c1 (String c2 _) =>
           N.eqb n 226 && N.eqb (N_of_ascii c1) 128 &&
           (N.eqb (N_of_ascii c2) 168 || N.eqb (N_of_ascii c2) 169)
       | _ => false
       end)%bool
  | EmptyString => false
  end.

(** Does [^tokens$] match the whole of [s]? *)
Fixpoint matchesAll (ts : list Tok) (s : string) {struct ts} : bool :=
  match ts with
  | [] => negb (Js.truthy s)
  | Lit c :: ts' =>
      match s with
      | String d s' => Ascii.eqb c d && matchesAll ts' s'
      | EmptyString => false
      end
  | Group :: ts' =>
      match s with
      | String d s' =>
          negb (Ascii.eqb d "/") &&
          (fix plus (u : string) : bool :=
             matchesAll ts' u ||
             match u with
             | String e u' => negb (Ascii.eqb e "/") && plus u'
             | EmptyString => false
             end) s'
      | EmptyString => false
      end
  | Any :: ts' =>
      (fix star (u : string) : bool :=
         matchesAll ts' u ||
         match u with
         | String _ u' => negb (lineTerminatorAt u) && star u'
         | EmptyString => false
         end) s
  end.

(** [path.match(regex)]: the expression is anchored at both ends, so
    [match[0]] is the whole of [path] when there is a match. *)
Definition regexMatch (regex : list Tok) (p : string) : option string :=
  if matchesAll regex p then Some p else None.

(** The [for] loop of [_findMatchingRoute]. *)
Fixpoint bestMatchLoop (rs : list Route) (p : string)
    (bestMatch : option Route) (bestMatchLength : Z) : option Route :=
  match rs with
  | [] => bestMatch
  | route :: rest =>
      let regex := convertPathToRegex (r_path route) in
      match regexMatch regex p with
      | Some m0 =>
          let matchedLength := Z.of_nat (String.length m0) in
          if (matchedLength >? bestMatchLength)%Z
          then bestMatchLoop rest p (Some route) matchedLength
          else bestMatchLoop rest p bestMatch bestMatchLength
      | None => bestMatchLoop rest p bestMatch bestMatchLength
      end
  end.

(** [bestMatch ?? routes.find(r => r.path === '*') ?? null]. *)
Definition findMatchingRoute (rs : list Route) (p : string) : option Route :=
  match bestMatchLoop rs p None (-1)%Z with
  | Some route => Some route
  | None => List.find (fun r => String.eqb (r_path r) "*") rs
  end.

(** The pattern of [r] matches the pathname [p]. *)
Definition matches (p : string) (r : Route) : bool :=
  matchesAll (convertPathToRegex (r_path r)) p.

(** [r.path === '*']. *)
Definition isWildcard (r : Route) : bool := String.eqb (r_path r) "*".

Definition segments (s : string) : list string :=
  Js.filterBoolean (Js.split "/" s).

(** The [for] loop of [_extractRouteParams]. *)
Fixpoint bindSegments (routeSegments pathSegments : list string)
    (ps : gmap string string) : gmap string string :=
  match routeSegments, pathSegments with
  | routeSegment :: rs, pathSegment :: qs =>
      bindSegments rs qs
        (if Js.startsWithColon routeSegment
         then Js.setProperty (Js.slice1 routeSegment) pathSegment ps
         else ps)
  | _, _ => ps
  end.

(** Nesting depth of a route. *)
Fixpoint height (route : Route) : nat :=
  match children route with
  | Some cs => S (List.fold_right (fun c acc => Nat.max (height c) acc) 0 cs)
  | None => 0
  end.

(** [_extractRouteParams]; the recursion follows a child found by
    [_findMatchingRoute], [fuel] bounds its depth. *)
Fixpoint extractRouteParamsFuel (fuel : nat) (route : Route)
    (pathname : string) (ps : gmap string string) : gmap string string :=
  let routeSegments := segments (r_path route) in
  let pathSegments := segments pathname in
  let ps1 := bindSegments routeSegments pathSegments ps in
  match children route with
  | Some cs =>
      let remainingPath :=
        Js.join (List.skipn (List.length routeSegments) pathSegments) in
      match findMatchingRoute cs remainingPath with
      | Some childRoute =>
          match fuel with
          | S fuel' => extractRouteParamsFuel fuel' childRoute remainingPath ps1
          | O => ps1
          end
      | None => ps1
      end
  | None => ps1
  end.

Definition extractRouteParams (route : Route) (pathname : string)
    (ps : gmap string string) : gmap string string :=
  extractRouteParamsFuel (height route) route pathname ps.

(** [_parsePath]; [None] is the [URIError] of [decodeURIComponent]. *)
Definition parsePath (cfg : Config) (path : string)
  : option (string * gmap string string * gmap string string) :=
  let parts := Js.split "?" path in
  let pathname := Js.item0 parts in
  let queryString := Js.item1 parts in
  match parseQuery queryString with
  | Some query =>
      let ps :=
        match findMatchingRoute (routes cfg) pathname with
        | Some route => extractRouteParams route pathname ∅
        | None => ∅
        end in
      Some (pathname, ps, query)
  | None => None
  end.

(** *** [_handleRedirect]

    [redirectTo.replace(/:\w+/g, m => params[m.slice(1)] || m)]: scanning
    from the left, a [:] followed by at least one word character is
    replaced, together with all the word characters after it. *)

Definition wordChar (c : ascii) : bool :=
  let n := N_of_ascii c in
  (Js.inRange 48 57 n || Js.inRange 65 90 n || Js.inRange 97 122 n
   || N.eqb n 95)%bool.

Definition startsWithWord (s : string) : bool :=
  match s with String c _ => wordChar c | EmptyString => false end.

(** [params[paramName] || match] for the placeholder [:name]: an own
    property of [params] when there is one, otherwise what [params]
    inherits under that name, and the placeholder itself when the value is
    the empty string or [undefined]. *)
Definition placeholder (ps : gmap string string) (name : string) : string :=
  match ps !! name with
  | Some v => if Js.truthy v then v else ":" +:+ name
  | None =>
      match Js.inherited name with
      | Some text => text
      | None => ":" +:+ name
      end
  end.

(** [name] is the part of a placeholder's name read so far, if the scan is
    inside one. *)
Fixpoint substitute (ps : gmap string string) (name : option string)
    (s : string) : string :=
  match s with
  | EmptyString =>
      match name with Some n => placeholder ps n | None => EmptyString end
  | String c r =>
      let outside :=
        if Ascii.eqb c ":" && startsWithWord r
        then substitute ps (Some EmptyString) r
        else String c (substitute ps None r) in
      match name with
      | Some n =>
          if wordChar c
          then substitute ps (Some (n +:+ String c EmptyString)) r
          else placeholder ps n +:+ outside
      | None => outside
      end
  end.

Definition handleRedirect (target : string) (ps : gmap string string)
  : string :=
  substitute ps None target.

(** *** [_renderAngularComponent] and [_handleRouting] *)

Definition destroyComponent (st : State) : list Effect :=
  match currentComponentRef st with
  | Some c => [DestroyComponent c]
  | None => []
  end.

Definition destroyModule (st : State) : list Effect :=
  match currentModuleRef st with
  | Some m => [DestroyModule m]
  | None => []
  end.

(** [if (instance.routeData) instance.routeData = activatedRoute]. *)
Definition assignRouteData (c : ComponentType) (ar : ActivatedRoute)
  : list Effect :=
  if ct_routeData c then [AssignRouteData (ct_name c) ar] else [].

(** [_renderAngularComponent]: the previous component and module are
    destroyed, the component is created, the route is handed to its
    instance when that already has a truthy [routeData], and the root
    element is cleared for the new component's element. *)
Definition renderAngularComponent (cfg : Config) (st : State)
    (c : ComponentType) (ar : ActivatedRoute) : State * list Effect :=
  (mkState (currentParams st) (currentPath st) (currentQuery st)
     (Some (ct_name c)) None,
   destroyComponent st ++ destroyModule st ++ [CreateComponent (ct_name c)]
   ++ assignRouteData c ar
   ++ (if rootElement cfg then [SetInnerHTML ""] else [])).

(** The [catch] block. *)
Definition loadFailed (cfg : Config) (st : State) (route : Route)
    (ar : ActivatedRoute) : State * list Effect :=
  match errorComponent route with
  | Some c => renderAngularComponent cfg st c ar
  | None =>
      (st,
       if rootElement cfg
       then [SetInnerHTML "<h1>Failed to load component/module</h1>"]
       else [])
  end.

(** The [try] block with its [catch]. *)
Definition load (cfg : Config) (st : State) (route : Route)
    (ar : ActivatedRoute) : State * list Effect :=
  match loadChildren route with
  | Some l =>
      match l with
      | Fulfilled m =>
          let st1 := mkState (currentParams st) (currentPath st)
                       (currentQuery st) (currentComponentRef st)
                       (Some (m_name m)) in
          match ngDoBootstrap m with
          | Some c =>
              let '(st2, tr) := renderAngularComponent cfg st1 c ar in
              (st2, CallLoadChildren (r_path route) :: tr)
          | None => (st1, [CallLoadChildren (r_path route)])
          end
      | Failed =>
          let '(st1, tr) := loadFailed cfg st route ar in
          (st1, CallLoadChildren (r_path route) :: tr)
      end
  | None =>
      match loadComponent route with
      | Some l =>
          match l with
          | Fulfilled c =>
              let '(st1, tr) := renderAngularComponent cfg st c ar in
              (st1, CallLoadComponent (r_path route) :: tr)
          | Failed =>
              let '(st1, tr) := loadFailed cfg st route ar in
              (st1, CallLoadComponent (r_path route) :: tr)
          end
      | None => (st, [])
      end
  end.

Definition hasLoader (route : Route) : bool :=
  match loadChildren route, loadComponent route with
  | None, None => false
  | _, _ => true
  end.

(** [route.redirectTo] when it is set and not the empty string. *)
Definition redirectTarget (route : Route) : option string :=
  match redirectTo route with
  | Some target => if Js.truthy target then Some target else None
  | None => None
  end.

(** [if (route.canActivate) { ... }]: the answers of the guards and the
    calls made. *)
Definition activationStep (route : Route) (ar : ActivatedRoute)
  : list bool * list Effect :=
  match r_canActivate route with
  | Some gs => callCanActivate gs ar
  | None => ([], [])
  end.

(** [if (route.canLoad && (route.loadChildren || route.loadComponent))]. *)
Definition loadGuardStep (route : Route) : list bool * list Effect :=
  match r_canLoad route with
  | Some gs =>
      if hasLoader route then callCanLoad gs (r_path route) else ([], [])
  | None => ([], [])
  end.

(** [if (this.currentComponentRef && route.canDeactivate) { ... }]. *)
Definition deactivationStep (st : State) (route : Route) (ar : ActivatedRoute)
  : list bool * list Effect :=
  match currentComponentRef st, r_canDeactivate route with
  | Some _, Some gs => callCanDeactivate gs ar
  | _, _ => ([], [])
  end.

(** [if (route.resolve) { await Promise.all(...) }]. *)
Definition resolveStep (route : Route) (ar : ActivatedRoute)
  : option (gmap string JsVal) * list Effect :=
  match r_resolve route with
  | Some rs => callResolvers rs ar
  | None => (Some ∅, [])
  end.

(** One call of [_handleRouting], up to the point where it returns, calls
    [this.navigate(redirectPath, true)] or rejects. *)
Definition handleRouting (cfg : Config) (st : State) (path : string)
  : Outcome * State * list Effect :=
  match parsePath cfg path with
  | None => (Rejected, st, [])
  | Some (pathname, ps, query) =>
      let st1 := mkState ps pathname query
                   (currentComponentRef st) (currentModuleRef st) in
      let event := DispatchRouteChange path ps query in
      match findMatchingRoute (routes cfg) pathname with
      | None =>
          (Settled, st1,
           (if rootElement cfg
            then [SetInnerHTML "<h1>404 - Page Not Found</h1>"] else [])
           ++ [event])
      | Some route =>
          let ar := mkActivatedRoute ps query pathname (r_data route) in
          (* Check route guards *)
          let '(activate, tr1) := activationStep route ar in
          if someRejects activate then (Blocked, st1, tr1)
          else
          (* Check lazy loading guards *)
          let '(canload, tr2) := loadGuardStep route in
          if someRejects canload then (Blocked, st1, tr1 ++ tr2)
          else
          (* Check deactivation guards *)
          let '(deactivate, tr3) := deactivationStep st1 route ar in
          if someRejects deactivate then (Blocked, st1, tr1 ++ tr2 ++ tr3)
          else
          (* Resolve data *)
          let '(resolved, tr4) := resolveStep route ar in
          match resolved with
          | None => (Rejected, st1, tr1 ++ tr2 ++ tr3 ++ tr4)
          | Some resolvedData =>
              let activatedRoute :=
                mkActivatedRoute ps query pathname
                  (Some (mergeData (r_data route) resolvedData)) in
              match redirectTarget route with
              | Some target =>
                  (Redirect (handleRedirect target ps), st1,
                   tr1 ++ tr2 ++ tr3 ++ tr4)
              | None =>
                  let '(st2, tr5) := load cfg st1 route activatedRoute in
                  (Settled, st2, tr1 ++ tr2 ++ tr3 ++ tr4 ++ tr5 ++ [event])
              end
          end
      end
  end.

(** [_handleRouting] together with the navigations it starts; [fuel] bounds
    the length of the redirect chain, [None] means the bound was reached. *)
Fixpoint routing (fuel : nat) (cfg : Config) (st : State) (path : string)
  : option (Outcome * State * list Effect) :=
  match fuel with
  | O => None
  | S fuel' =>
      let '(out, st1, tr) := handleRouting cfg st path in
      match out with
      | Redirect target =>
          match routing fuel' cfg st1 target with
          | Some (out', st2, tr') =>
              Some (out', st2, tr ++ HistoryState true target :: tr')
          | None => None
          end
      | _ => Some (out, st1, tr)
      end
  end.

(** [navigate(path, replace)]. *)
Definition navigate (fuel : nat) (cfg : Config) (st : State) (path : string)
    (replace : bool) : option (Outcome * State * list Effect) :=
  match routing fuel cfg st path with
  | Some (out, st', tr) => Some (out, st', HistoryState replace path :: tr)
  | None => None
  end.

(** *** The constructor *)

(** [routes.findIndex(r => r.path === '*')]. *)
Fixpoint findWildcardIndex (rs : list Route) (i : Z) : Z :=
  match rs with
  | [] => (-1)%Z
  | r :: rest =>
      if String.eqb (r_path r) "*" then i
      else findWildcardIndex rest (i + 1)%Z
  end.

Definition initialState : State := mkState ∅ "" ∅ None None.

Inductive Constructed : Type :=
| ConfigError (message : string)
| Started (run : option (Outcome * State * list Effect)).

Definition quote : string := String (ascii_of_N 34) EmptyString.

Definition wildcardMessage : string :=
  "The wildcard route (path: " +:+ quote +:+ "*" +:+ quote
  +:+ ") must be the last route in the configuration.".

(** [new Router(config, ...)] when the browser is at [location]: the check
    throws before [_bindEvents] and [_navigateToCurrentUrl]. *)
Definition constructor (fuel : nat) (cfg : Config) (location : string)
  : Constructed :=
  let wildcardIndex := findWildcardIndex (routes cfg) 0 in
  if ((wildcardIndex >=? 0)
      && negb (wildcardIndex =? Z.of_nat (List.length (routes cfg)) - 1))%Z
  then ConfigError wildcardMessage
  else Started (routing fuel cfg initialState location).

(** The lazy loader that [_handleRouting] would call fails. *)
Definition loaderFails (route : Route) : bool :=
  match loadChildren route with
  | Some Failed => true
  | Some (Fulfilled _) => false
  | None =>
      match loadComponent route with
      | Some Failed => true
      | _ => false
      end
  end.

(** Every character of [s] is a word character. *)
Fixpoint allWord (s : string) : bool :=
  match s with
  | EmptyString => true
  | String c r => wordChar c && allWord r
  end.

(** [s] has no colon. *)
Fixpoint noColon (s : string) : bool :=
  match s with
  | EmptyString => true
  | String c r => negb (Ascii.eqb c ":") && noColon r
  end.

Definition isStarted (c : Constructed) : bool :=
  match c with Started _ => true | ConfigError _ => false end.

(** A sibling list breaks the wildcard rule: some wildcard route is not the
    last sibling, or there is more than one wildcard route. *)
Definition wildcardMisplaced (rs : list Route) : bool :=
  List.existsb isWildcard (List.removelast rs)
  || (2 <=? List.length (List.filter isWildcard rs))%nat.

End RouterNg.

(** ** The query parser as the specification words it *)

Module Spec.

(** [s] cut at the first [c]: the text before it and, when there is one,
    the text after it. *)
Fixpoint cut (c : ascii) (s : string) : string * option string :=
  match s with
  | EmptyString => (EmptyString, None)
  | String d r =>
      if Ascii.eqb d c then (EmptyString, Some r)
      else let '(a, b) := cut c r in (String d a, b)
  end.

(** The text of [s] before its first [c] (all of [s] when it has none). *)
Definition upTo (c : ascii) (s : string) : string := fst (cut c s).

(** A token cut at its first [=]: a token without a key is ignored, a
    missing value is the empty string.  [value] says how much of the text
    after the [=] is the value. *)
Definition keyValue (value : string -> string) (token : string)
  : option (string * string) :=
  let '(key, rest) := cut "=" token in
  if Js.truthy key then Some (key, value (default EmptyString rest)) else None.

(** The key/value pairs of the tokens that have a key, in order. *)
Fixpoint entries (value : string -> string) (tokens : list string)
  : list (string * string) :=
  match tokens with
  | [] => []
  | token :: rest =>
      match keyValue value token with
      | Some kv => kv :: entries value rest
      | None => entries value rest
      end
  end.

(** Percent-decoding of every value; [None] when one of them is malformed. *)
Fixpoint decodeAll (es : list (string * string))
  : option (list (string * string)) :=
  match es with
  | [] => Some []
  | (k, v) :: rest =>
      match Js.decodeURIComponent v, decodeAll rest with
      | Some d, Some rest' => Some ((k, d) :: rest')
      | _, _ => None
      end
  end.

(** Later entries overwrite earlier ones. *)
Definition insertAll (es : list (string * string)) (m : gmap string string)
  : gmap string string :=
  List.fold_left (fun acc kv => <[kv.1 := kv.2]> acc) es m.

Definition parseWith (queryOf value : string -> string) (rawPath : string)
  : option (string * gmap string string) :=
  let '(pathname, rest) := cut "?" rawPath in
  let tokens := Js.split "&" (queryOf (default EmptyString rest)) in
  match decodeAll (entries value tokens) with
  | Some es => Some (pathname, insertAll es ∅)
  | None => None
  end.

(** The parser of the specification: the raw path is split on its first
    [?], each token on its first [=]. *)
Definition parse : string -> option (string * gmap string string) :=
  parseWith id id.

(** The parser with what [const [a, b] = s.split(c)] keeps: the query
    string ends at a second [?], a value ends at a second [=]. *)
Definition parseTruncating : string -> option (string * gmap string string) :=
  parseWith (upTo "?") (upTo "=").

(** The tokens of the query string of [rawPath]. *)
Definition tokens (rawPath : string) : list string :=
  Js.split "&" (upTo "?" (default EmptyString (cut "?" rawPath).2)).

(** No token of the query string has the key [__proto__], the one key that
    an assignment does not make a property of the query object. *)
Definition ordinaryKeys (rawPath : string) : bool :=
  List.forallb (fun kv => negb (String.eqb kv.1 "__proto__"))
    (entries (upTo "=") (tokens rawPath)).

(** The pathname and the query of a result of [_parsePath]. *)
Definition pathnameAndQuery
    (r : option (string * gmap string string * gmap string string))
  : option (string * gmap string string) :=
  match r with
  | Some (pathname, _, query) => Some (pathname, query)
  | None => None
  end.

End Spec.

(** ** Route tables used in the examples *)

Module Samples.

Definition r2 (p : string) : Router2.Route :=
  Router2.mkRoute p None None None None None None None.

Definition r2Children (p : string) (cs : list Router2.Route) : Router2.Route :=
  Router2.mkRoute p None None None None (Some cs) None None.

Definition ng (p : string) : RouterNg.Route :=
  RouterNg.mkRoute p None None None None None None None None None None.

Definition ngChildren (p : string) (cs : list RouterNg.Route)
  : RouterNg.Route :=
  RouterNg.mkRoute p None None None None (Some cs) None None None None None.

(** A component class whose instances start without [routeData], and one
    whose instances start with a truthy [routeData]. *)
Definition component (name : string) : RouterNg.ComponentType :=
  RouterNg.mkComponentType name false.

Definition routedComponent (name : string) : RouterNg.ComponentType :=
  RouterNg.mkComponentType name true.

Definition accept (name : string) : CanActivate :=
  mkCanActivate name (fun _ => true).

Definition reject (name : string) : CanActivate :=
  mkCanActivate name (fun _ => false).

(** A route with a loader, an accepting activation guard and a rejecting
    load guard. *)
Definition adminRoute : RouterNg.Route :=
  RouterNg.mkRoute "/admin" (Some (Fulfilled (component "AdminComponent")))
    None None None None (Some [accept "auth"]) None (Some [mkCanLoad "role" false]) None None.

Definition adminConfig : RouterNg.Config := RouterNg.mkConfig [adminRoute] true.

(** [{ path: '/old/:id', redirectTo: '/new/:id' }], with guards. *)
Definition oldRoute (guards : option (list CanActivate)) : RouterNg.Route :=
  RouterNg.mkRoute "/old/:id" None None (Some "/new/:id") None None
    guards None None None None.

Definition oldConfig (guards : option (list CanActivate)) : RouterNg.Config :=
  RouterNg.mkConfig [oldRoute guards] true.

Definition oldRoute2 (guards : option (list CanActivate)) : Router2.Route :=
  Router2.mkRoute "/old/:id" None None (Some "/new/:id") None None guards None.

Definition oldConfig2 (guards : option (list CanActivate)) : Router2.Config :=
  Router2.mkConfig [oldRoute2 guards] true.

(** The redirecting route and the route it redirects to. *)
Definition oldNewConfig : RouterNg.Config :=
  RouterNg.mkConfig [oldRoute None; ng "/new/:id"] true.

(** The controller after a successful navigation to [/a]. *)
Definition atA : RouterNg.State :=
  RouterNg.mkState ∅ "/a" ∅ (Some "AComponent") None.

Definition atA2 : Router2.State := Router2.mkState ∅ "/a" ∅.

(** [/b] behind a rejecting activation guard. *)
Definition guardedB : RouterNg.Route :=
  RouterNg.mkRoute "/b" (Some (Fulfilled (component "BComponent")))
    None None None None
    (Some [reject "auth"]) None None None None.

Definition guardedB2 : Router2.Route :=
  Router2.mkRoute "/b" (Some (Fulfilled "BComponent")) None None None None
    (Some [reject "auth"]) None.

(** [/b] with a loader that fails. *)
Definition failingB : RouterNg.Route :=
  RouterNg.mkRoute "/b" (Some Failed) None None None None
    None None None None None.

Definition failingB2 : Router2.Route :=
  Router2.mkRoute "/b" (Some Failed) None None None None None None.

(** [/b] with a resolver that fails. *)
Definition unresolvedB : RouterNg.Route :=
  RouterNg.mkRoute "/b" (Some (Fulfilled (component "BComponent")))
    None None None None
    None None None (Some [("user", mkResolve (fun _ => None))]) None.

(** A deactivation guard that lets the user leave [/a] only. *)
Definition leaveA : CanDeactivate :=
  mkCanDeactivate "leaveA" (fun ar => String.eqb (path ar) "/a").

Definition leavingB : RouterNg.Route :=
  RouterNg.mkRoute "/b" (Some (Fulfilled (component "BComponent")))
    None None None None
    None (Some [leaveA]) None None None.

End Samples.

(** ** Predicates on texts *)

Module Text.

(** The character [c] does not occur in [s]. *)
Fixpoint lacks (c : ascii) (s : string) : bool :=
  match s with
  | EmptyString => true
  | String d r => negb (Ascii.eqb d c) && lacks c r
  end.

(** The loop body of the matcher of [router2.ts] returns, at [route] or
    below it, only routes with the property [Q]. *)
Definition returnsOnly (p : string) (Q : Router2.Route -> Prop)
    (route : Router2.Route) : Prop :=
  forall cur res r,
    Router2.tryRoute p route cur = Some res -> res.1 = Some r -> Q r.

End Text.

(** ** Shapes of route paths and of effects, for the properties below *)

Module Shape.

(** A path of [router.ts] that is matched literally: no [*], no [:], and
    no character with a meaning of its own in a regular expression. *)
Definition literal (r : RouterNg.Route) : bool :=
  Text.lacks "*" (RouterNg.r_path r) && Text.lacks ":" (RouterNg.r_path r)
  && RouterNg.plainPath (RouterNg.r_path r).

(** [rootElement.innerHTML = '<h1>404 - Page Not Found</h1>']. *)
Definition is404 (e : Effect) : bool :=
  match e with
  | SetInnerHTML html => String.eqb html "<h1>404 - Page Not Found</h1>"
  | _ => false
  end.

Definition isHistory (e : Effect) : bool :=
  match e with HistoryState _ _ => true | _ => false end.

(** [history.pushState]. *)
Definition isPush (e : Effect) : bool :=
  match e with HistoryState false _ => true | _ => false end.

Definition isSettled (out : Outcome) : bool :=
  match out with Settled => true | _ => false end.

Definition isRedirect (out : Outcome) : bool :=
  match out with Redirect _ => true | _ => false end.

(** What the loading step of [router.ts] may do: call a loader, destroy the
    previous component or module, create a component, clear the host
    element or write the failure text into it. *)
Definition isLoadEffect (e : Effect) : bool :=
  match e with
  | CallLoadChildren _ | CallLoadComponent _ | DestroyComponent _
  | DestroyModule _ | CreateComponent _ | AssignRouteData _ _ => true
  | SetInnerHTML html =>
      String.eqb html ""
      || String.eqb html "<h1>Failed to load component/module</h1>"
  | _ => false
  end.

(** The attempt of [router.ts] at a matched route gets as far as the
    loading step: no guard rejects, every resolver succeeds (with the data
    given) and the route has no [redirectTo]. *)
Definition reachesLoading (st1 : RouterNg.State) (route : RouterNg.Route)
    (ar : ActivatedRoute) : option (gmap string JsVal) :=
  if someRejects (RouterNg.activationStep route ar).1
     || someRejects (RouterNg.loadGuardStep route).1
     || someRejects (RouterNg.deactivationStep st1 route ar).1
  then None
  else match RouterNg.redirectTarget route with
       | Some _ => None
       | None => (RouterNg.resolveStep route ar).1
       end.

(** The calls of guards and resolvers of such an attempt. *)
Definition guardCalls (st1 : RouterNg.State) (route : RouterNg.Route)
    (ar : ActivatedRoute) : list Effect :=
  (RouterNg.activationStep route ar).2 ++ (RouterNg.loadGuardStep route).2
  ++ (RouterNg.deactivationStep st1 route ar).2
  ++ (RouterNg.resolveStep route ar).2.

(** Some resolver of the list fails for [ar]. *)
Definition someFails (rs : list (string * Resolve)) (ar : ActivatedRoute)
  : bool :=
  List.existsb
    (fun kr => match resolve kr.2 ar with Some _ => false | None => true end)
    rs.

(** Every value of the map is a non-empty string. *)
Definition allTruthy (ps : gmap string string) : Prop :=
  forall k v, ps !! k = Some v -> Js.truthy v = true.

End Shape.

(** ** More route tables for the examples *)

Module Samples2.

(** A route without loader whose load guard and deactivation guard would
    both reject. *)
Definition unloaded : RouterNg.Route :=
  RouterNg.mkRoute "/x" None None None None None None
    (Some [mkCanDeactivate "stay" (fun _ => false)])
    (Some [mkCanLoad "role" false]) None None.

(** Three activation guards, the first of which rejects. *)
Definition threeGuards : RouterNg.Route :=
  RouterNg.mkRoute "/g" (Some (Fulfilled (Samples.component "G")))
    None None None None
    (Some [Samples.reject "first"; Samples.accept "second";
           Samples.accept "third"])
    None None None None.

(** Two resolvers, the first of which fails. *)
Definition twoResolvers : RouterNg.Route :=
  RouterNg.mkRoute "/r" (Some (Fulfilled (Samples.component "R")))
    None None None None None None None
    (Some [("user", mkResolve (fun _ => None));
           ("team", mkResolve (fun _ => Some (VStr "core")))])
    None.

(** A component route with static data and a resolver for one of its
    keys. *)
Definition withData : RouterNg.Route :=
  RouterNg.mkRoute "/d" (Some (Fulfilled (Samples.routedComponent "D")))
    None None
    (Some (<["title" := VStr "static"]> (<["kind" := VStr "page"]> ∅)))
    None None None None
    (Some [("title", mkResolve (fun _ => Some (VStr "resolved")))])
    None.

(** A module route whose module bootstraps a component. *)
Definition moduleRoute : RouterNg.Route :=
  RouterNg.mkRoute "/m" None
    (Some (Fulfilled (RouterNg.mkNgModule "MModule"
                        (Some (Samples.component "MComponent")))))
    None None None None None None None None.

(** A route whose loader fails and which declares an error component. *)
Definition failingWithError : RouterNg.Route :=
  RouterNg.mkRoute "/f" (Some Failed) None None None None None None None None
    (Some (Samples.component "ErrorComponent")).

(** A route that redirects to itself. *)
Definition selfRedirect : RouterNg.Route :=
  RouterNg.mkRoute "/loop" None None (Some "/loop") None None None None None
    None None.

Definition selfRedirect2 : Router2.Route :=
  Router2.mkRoute "/loop" None None (Some "/loop") None None None None.

End Samples2.

(** ** The first router of [router.ts]: no guards, no resolvers *)

Module Router1.

(** [interface Route] ([pathMatch] is declared and never read). *)
Inductive Route : Type := mkRoute {
  r_path : string;
  loadComponent : option (Loaded Component);
  loadChildren : option (Loaded Component);
  redirectTo : option string;
  r_data : option (gmap string JsVal);
  children : option (list Route)
}.

Record State : Type := mkState {
  currentParams : gmap string string;
  currentPath : string;
  currentQuery : gmap string string
}.

Record Config : Type := mkConfig {
  routes : list Route;
  rootElement : bool
}.

(** The body of the loop of [_findMatchingRoute], the same text as in
    [router2.ts]. *)
Fixpoint tryRoute (pathname : string) (route : Route) (cur : gmap string string)
  {struct route} : option (option Route * gmap string string) :=
  if String.eqb (r_path route) pathname then Some (Some route, cur)
  else if String.eqb (r_path route) "*" then Some (Some route, cur)
  else
    let routeSegments := Router2.segments (r_path route) in
    let pathSegments := Router2.segments pathname in
    if negb (Nat.eqb (List.length routeSegments) (List.length pathSegments))
    then None
    else
      match Router2.matchSegments routeSegments pathSegments ∅ with
      | None => None
      | Some ps =>
          match children route with
          | Some cs =>
              match Router2.forRoutes (tryRoute pathname) cs ps with
              | (Some childRoute, cur') => Some (Some childRoute, cur')
              | (None, cur') => Some (Some route, cur')
              end
          | None => Some (Some route, ps)
          end
      end.

Definition findMatchingRoute (rs : list Route) (pathname : string)
    (cur : gmap string string) : option Route * gmap string string :=
  Router2.forRoutes (tryRoute pathname) rs cur.

(** [_parsePath]. *)
Definition parsePath (st : State) (path : string)
  : option (string * gmap string string * gmap string string) :=
  let parts := Js.split "?" path in
  let pathname := Js.item0 parts in
  let queryString := Js.item1 parts in
  match parseQuery queryString with
  | Some query => Some (pathname, currentParams st, query)
  | None => None
  end.

Definition setInnerHTML (cfg : Config) (html : string) : list Effect :=
  if rootElement cfg then [SetInnerHTML html] else [].

Definition mount (cfg : Config) (c : Component) (ar : ActivatedRoute)
  : list Effect :=
  if rootElement cfg then [SetInnerHTML ""; Mount c ar] else [].

(** The two [try] blocks of [_handleRouting]. *)
Definition load (cfg : Config) (route : Route) (ar : ActivatedRoute)
  : list Effect :=
  match loadChildren route with
  | Some l =>
      CallLoadChildren (r_path route) ::
      match l with
      | Fulfilled c => mount cfg c ar
      | Failed => setInnerHTML cfg "<h1>Module failed to load</h1>"
      end
  | None =>
      match loadComponent route with
      | Some l =>
          CallLoadComponent (r_path route) ::
          match l with
          | Fulfilled c => mount cfg c ar
          | Failed => setInnerHTML cfg "<h1>Component failed to load</h1>"
          end
      | None => []
      end
  end.

(** [route.redirectTo] when it is set and not the empty string. *)
Definition redirectTarget (route : Route) : option string :=
  match redirectTo route with
  | Some target => if Js.truthy target then Some target else None
  | None => None
  end.

(** One call of [_handleRouting], up to the point where it returns, calls
    [this.navigate(route.redirectTo, true)] or rejects. *)
Definition handleRouting (cfg : Config) (st : State) (path : string)
  : Outcome * State * list Effect :=
  match parsePath st path with
  | None => (Rejected, st, [])
  | Some (pathname, ps, query) =>
      let '(found, cur) := findMatchingRoute (routes cfg) pathname ps in
      let st1 := mkState cur pathname query in
      let event := DispatchRouteChange path ps query in
      match found with
      | None =>
          (Settled, st1,
           setInnerHTML cfg "<h1>404 - Page Not Found</h1>" ++ [event])
      | Some route =>
          let activatedRoute :=
            mkActivatedRoute cur query pathname (r_data route) in
          match redirectTarget route with
          | Some target => (Redirect target, st1, [])
          | None => (Settled, st1, load cfg route activatedRoute ++ [event])
          end
      end
  end.

(** [_handleRouting] together with the navigations it starts. *)
Fixpoint routing (fuel : nat) (cfg : Config) (st : State) (path : string)
  : option (Outcome * State * list Effect) :=
  match fuel with
  | O => None
  | S fuel' =>
      let '(out, st1, tr) := handleRouting cfg st path in
      match out with
      | Redirect target =>
          match routing fuel' cfg st1 target with
          | Some (out', st2, tr') =>
              Some (out', st2, tr ++ HistoryState true target :: tr')
          | None => None
          end
      | _ => Some (out, st1, tr)
      end
  end.

(** [navigate(path, replace)]. *)
Definition navigate (fuel : nat) (cfg : Config) (st : State) (path : string)
    (replace : bool) : option (Outcome * State * list Effect) :=
  match routing fuel cfg st path with
  | Some (out, st', tr) => Some (out, st', HistoryState replace path :: tr)
  | None => None
  end.

(** The same route in the interface of [router2.ts]: no guards, no
    resolvers. *)
Fixpoint toRouter2 (route : Route) : Router2.Route :=
  Router2.mkRoute (r_path route) (loadComponent route) (loadChildren route)
    (redirectTo route) (r_data route)
    (match children route with
     | Some cs => Some (List.map toRouter2 cs)
     | None => None
     end)
    None None.

(** What the loop body returns, in the interface of [router2.ts]. *)
Definition embedResult
    (r : option (option Route * gmap string string))
  : option (option Router2.Route * gmap string string) :=
  match r with
  | Some (found, cur) => Some (toRouter2 <$> found, cur)
  | None => None
  end.

End Router1.

(** ** Clicks on links: [_handleClick] and the listener of [createLink]
    (the same text in the three routers) *)

Module Dom.

(** [s.startsWith(prefix)]. *)
Fixpoint startsWith (prefix s : string) : bool :=
  match prefix, s with
  | EmptyString, _ => true
  | String a p, String b r => Ascii.eqb a b && startsWith p r
  | String _ _, EmptyString => false
  end.

(** [s.indexOf(sub) !== -1]. *)
Fixpoint includes (sub s : string) : bool :=
  startsWith sub s
  || match s with
     | String _ r => includes sub r
     | EmptyString => false
     end.

(** What the handlers read of an anchor element: its [target], whether it
    has a [download] attribute, its [href] property (the resolved URL) and
    its [href] attribute (the text as written). *)
Record Anchor : Type := mkAnchor {
  target : string;
  download : bool;
  href : string;
  hrefAttribute : option string
}.

(** What the handlers read of a click: the anchor closest to its target,
    the button and the modifier keys. *)
Record MouseEvent : Type := mkMouseEvent {
  closestAnchor : option Anchor;
  button : Z;
  ctrlKey : bool;
  metaKey : bool;
  shiftKey : bool;
  altKey : bool
}.

(** [_handleClick]: [Some href] when the handler calls [preventDefault] and
    [this.navigate(href)], [None] when it leaves the click to the
    browser. *)
Definition handleClick (e : MouseEvent) : option string :=
  match closestAnchor e with
  | None => None
  | Some link =>
      if String.eqb (target link) "_blank"
         || download link
         || startsWith "mailto:" (href link)
         || startsWith "tel:" (href link)
         || includes "://" (href link)
         || metaKey e || ctrlKey e || shiftKey e || altKey e
         || negb (Z.eqb (button e) 0)
      then None
      else
        match hrefAttribute link with
        | Some h =>
            if Js.truthy h && startsWith "/" h then Some h else None
        | None => None
        end
  end.

(** The listener [createLink(to, ...)] puts on its link: [Some to] when it
    calls [preventDefault] and [this.navigate(to)]. *)
Definition createdLinkClick (to : string) (e : MouseEvent) : option string :=
  if Z.eqb (button e) 0 && negb (ctrlKey e) && negb (metaKey e)
     && negb (shiftKey e) && negb (altKey e)
  then Some to
  else None.

End Dom.

(** ** Redirect targets *)

Module Target.

(** The text has a placeholder whose name begins with the name of a member
    of [Object.prototype]. *)
Definition inheritedPlaceholder (target : string) : bool :=
  List.existsb (fun name => Dom.includes (":" +:+ name) target)
    Js.objectPrototype.

End Target.

(** * Properties *)

(** ** Strings *)

Example split_query : Js.split "?" "/p?a=1&b=2" = ["/p"; "a=1&b=2"].
Proof. reflexivity. Qed.

Example split_slashes :
  Js.split "/" "//users//42" = [""; ""; "users"; ""; "42"].
Proof. reflexivity. Qed.

Example decode_space : Js.decodeURIComponent "%20" = Some " ".
Proof. reflexivity. Qed.

Example decode_truncated_escape : Js.decodeURIComponent "a%2" = None.
Proof. reflexivity. Qed.

Example decode_two_octets :
  Js.decodeURIComponent "%C3%A9x"
  = Some (String (ascii_of_N 195) (String (ascii_of_N 169) "x")).
Proof. reflexivity. Qed.

Example decode_missing_octet : Js.decodeURIComponent "%C3x" = None.
Proof. reflexivity. Qed.

Example convert_param :
  RouterNg.convertPathToRegex "/users/:id/*"
  = [RouterNg.Lit "/"; RouterNg.Lit "u"; RouterNg.Lit "s"; RouterNg.Lit "e";
     RouterNg.Lit "r"; RouterNg.Lit "s"; RouterNg.Lit "/"; RouterNg.Group;
     RouterNg.Lit "/"; RouterNg.Any]%char.
Proof. reflexivity. Qed.

(** The routes of the examples below are in the fragment of regular
    expressions that is modelled. *)
Example samples_plain :
  List.forallb RouterNg.plainPath
    ["/a/b"; "/a/:x"; "/old/:id"; "/new/:id"; "/admin"; "/b"; "*"; "/a"; "b"]
  = true.
Proof. reflexivity. Qed.

Lemma split_cons (c : ascii) (s : string) :
  exists h t, Js.split c s = h :: t.
Proof.
  induction s as [|d r IH]; simpl; [by eauto|].
  destruct (Ascii.eqb d c); [by eauto|].
  destruct IH as (h & t & ->). by eauto.
Qed.

Lemma item0_split (c : ascii) (s : string) :
  Js.item0 (Js.split c s) = Spec.upTo c s.
Proof.
  unfold Spec.upTo.
  induction s as [|d r IH]; simpl; [done|].
  destruct (Ascii.eqb d c); [done|].
  destruct (split_cons c r) as (h & t & E). rewrite E in IH |- *.
  simpl in *. destruct (Spec.cut c r) as [a b]. simpl in *. by subst.
Qed.

Lemma item1_split (c : ascii) (s : string) :
  Js.item1 (Js.split c s) = Spec.upTo c <$> snd (Spec.cut c s).
Proof.
  induction s as [|d r IH]; simpl; [done|].
  destruct (Ascii.eqb d c) eqn:E.
  - simpl. destruct (split_cons c r) as (h & t & Es).
    pose proof (item0_split c r) as H0. rewrite Es in H0 |- *.
    simpl in *. by rewrite H0.
  - destruct (split_cons c r) as (h & t & Es). rewrite Es in IH |- *.
    destruct (Spec.cut c r) as [a b]. simpl in *. done.
Qed.

Lemma decode_empty : Js.decodeURIComponent "" = Some "".
Proof. reflexivity. Qed.

(** One step of the [forEach] of [_parsePath]. *)
Lemma parseParam_keyValue (q : gmap string string) (token : string) :
  parseParam (Some q) token =
  match Spec.keyValue (Spec.upTo "=") token with
  | None => Some q
  | Some (k, v) =>
      match Js.decodeURIComponent v with
      | Some d => Some (Js.setProperty k d q)
      | None => None
      end
  end.
Proof.
  unfold parseParam, Spec.keyValue.
  rewrite item0_split, item1_split. unfold Spec.upTo.
  destruct (Spec.cut "=" token) as [key rest]. simpl.
  destruct (Js.truthy key); [|done].
  destruct rest as [v|]; simpl; [|done].
  destruct (Js.truthy (Spec.cut "=" v).1) eqn:E; [done|].
  destruct ((Spec.cut "=" v).1); [done|discriminate].
Qed.

Lemma parseParam_None (tokens : list string) :
  List.fold_left parseParam tokens None = None.
Proof. induction tokens; simpl; auto. Qed.

(** The [forEach] assigns the decoded entries in order. *)
Lemma fold_parseParam (tokens : list string) (q : gmap string string) :
  List.fold_left parseParam tokens (Some q) =
  match Spec.decodeAll (Spec.entries (Spec.upTo "=") tokens) with
  | Some es =>
      Some (List.fold_left (fun acc kv => Js.setProperty kv.1 kv.2 acc) es q)
  | None => None
  end.
Proof.
  revert q. induction tokens as [|t ts IH]; intros q; [done|].
  cbn [List.fold_left Spec.entries]. rewrite parseParam_keyValue.
  destruct (Spec.keyValue (Spec.upTo "=") t) as [[k v]|]; [|by rewrite IH].
  cbn [Spec.decodeAll].
  destruct (Js.decodeURIComponent v) as [d|]; [|by rewrite parseParam_None].
  rewrite IH.
  destruct (Spec.decodeAll _); done.
Qed.

(** Decoding the values leaves the keys as they are. *)
Lemma decodeAll_keys (P : string -> bool) (es ds : list (string * string)) :
  Spec.decodeAll es = Some ds ->
  List.forallb (fun kv => P kv.1) es = true ->
  List.forallb (fun kv => P kv.1) ds = true.
Proof.
  revert ds. induction es as [|[k v] es IH]; intros ds; simpl.
  - by intros [= <-].
  - destruct (Js.decodeURIComponent v); [|done].
    destruct (Spec.decodeAll es) as [ds'|]; [|done].
    intros [= <-] H. apply andb_true_iff in H as [Hk H]. simpl.
    by rewrite Hk, (IH ds').
Qed.

(** Assignments to keys other than [__proto__] are insertions. *)
Lemma assign_insertAll (es : list (string * string)) (q : gmap string string) :
  List.forallb (fun kv => negb (String.eqb kv.1 "__proto__")) es = true ->
  List.fold_left (fun acc kv => Js.setProperty kv.1 kv.2 acc) es q
  = Spec.insertAll es q.
Proof.
  unfold Spec.insertAll. revert q.
  induction es as [|[k v] es IH]; intros q H; [done|].
  simpl in H. apply andb_true_iff in H as [Hk H].
  cbn [List.fold_left fst snd]. unfold Js.setProperty at 2.
  apply negb_true_iff in Hk. rewrite Hk. by apply IH.
Qed.

Lemma parseQuery_assigns (s : string) :
  parseQuery (Js.item1 (Js.split "?" s)) =
  match Spec.decodeAll (Spec.entries (Spec.upTo "=") (Spec.tokens s)) with
  | Some es =>
      Some (List.fold_left (fun acc kv => Js.setProperty kv.1 kv.2 acc) es ∅)
  | None => None
  end.
Proof.
  unfold Spec.tokens. rewrite item1_split. unfold parseQuery.
  destruct ((Spec.cut "?" s).2) as [r|]; simpl; [|done].
  destruct (Js.truthy (Spec.upTo "?" r)) eqn:E.
  - apply fold_parseParam.
  - destruct (Spec.upTo "?" r); [done|discriminate].
Qed.

Lemma parseQuery_truncating (s : string) :
  Spec.ordinaryKeys s = true ->
  parseQuery (Js.item1 (Js.split "?" s)) =
  match Spec.decodeAll (Spec.entries (Spec.upTo "=") (Spec.tokens s)) with
  | Some es => Some (Spec.insertAll es ∅)
  | None => None
  end.
Proof.
  intros H. rewrite parseQuery_assigns.
  destruct (Spec.decodeAll _) as [es|] eqn:E; [|done].
  rewrite assign_insertAll; [done|].
  exact (decodeAll_keys (fun k => negb (String.eqb k "__proto__")) _ _ E H).
Qed.

(** ** C7: the query parser *)

Lemma router2_parsePath_truncating (st : Router2.State) (path : string) :
  Spec.ordinaryKeys path = true ->
  Spec.pathnameAndQuery (Router2.parsePath st path) = Spec.parseTruncating path.
Proof.
  intros H.
  unfold Router2.parsePath, Spec.parseTruncating, Spec.parseWith.
  rewrite (parseQuery_truncating _ H), item0_split. unfold Spec.tokens.
  change (Spec.upTo "?" path) with (Spec.cut "?" path).1.
  destruct (Spec.cut "?" path) as [pathname rest]. simpl.
  by destruct (Spec.decodeAll _).
Qed.

Lemma routerNg_parsePath_truncating (cfg : RouterNg.Config) (path : string) :
  Spec.ordinaryKeys path = true ->
  Spec.pathnameAndQuery (RouterNg.parsePath cfg path) = Spec.parseTruncating path.
Proof.
  intros H.
  unfold RouterNg.parsePath, Spec.parseTruncating, Spec.parseWith.
  rewrite (parseQuery_truncating _ H), item0_split. unfold Spec.tokens.
  change (Spec.upTo "?" path) with (Spec.cut "?" path).1.
  destruct (Spec.cut "?" path) as [pathname rest]. simpl.
  by destruct (Spec.decodeAll _).
Qed.

(** C7, as amended.  For a raw path none of whose query keys is
    [__proto__], [_parsePath] of [router2.ts], and [_parsePath] of the
    Angular router of [router.ts] when the paths of its route table are in
    the fragment of patterns modelled here, give the pathname and query of
    [Spec.parseTruncating]: the pathname is the text before the first [?];
    the query string is the text between the first and the second [?]; it is
    split on [&]; the key of a token is the text before its first [=], its
    value the percent-decoded text between its first and second [=]; a
    missing value is the empty string, a token without a key is ignored, a
    later entry overwrites an earlier one, and a malformed escape makes the
    whole parse fail.  The two examples of the specification hold. *)
Theorem parsePath_refines_truncating :
  (forall st path,
     Spec.ordinaryKeys path = true ->
     Spec.pathnameAndQuery (Router2.parsePath st path)
     = Spec.parseTruncating path)
  /\ (forall cfg path,
     Spec.ordinaryKeys path = true ->
     RouterNg.plainRoutes (RouterNg.routes cfg) = true ->
     Spec.pathnameAndQuery (RouterNg.parsePath cfg path)
     = Spec.parseTruncating path)
  /\ Spec.parseTruncating "/p?a=1&b=2"
     = Some ("/p", <["b" := "2"]> (<["a" := "1"]> ∅))
  /\ Spec.parseTruncating "/p?a=%20" = Some ("/p", <["a" := " "]> ∅)
  /\ Spec.parseTruncating "/p?a=1&a=2&=3&b" 
     = Some ("/p", <["b" := ""]> (<["a" := "2"]> ∅))
  /\ Spec.parseTruncating "/p?a=%" = None.
Proof.
  split; [exact router2_parsePath_truncating|].
  split; [intros cfg path H _; by apply routerNg_parsePath_truncating|].
  repeat split; vm_compute; reflexivity.
Qed.

Lemma parsePath_refines_truncating_witness :
  Spec.pathnameAndQuery (Router2.parsePath Router2.initialState "/p?a=1&b=2")
  = Spec.parseTruncating "/p?a=1&b=2"
  /\ Spec.pathnameAndQuery
       (RouterNg.parsePath Samples.oldNewConfig "/old/7?a=%20")
     = Spec.parseTruncating "/old/7?a=%20".
Proof.
  split.
  - exact (proj1 parsePath_refines_truncating Router2.initialState
             "/p?a=1&b=2" eq_refl).
  - exact (proj1 (proj2 parsePath_refines_truncating) Samples.oldNewConfig
             "/old/7?a=%20" eq_refl eq_refl).
Defined.

(** C7 as stated fails: the text after the first [=] of the token [a=1=2]
    is [1=2], which is what the parser of the specification binds [a] to;
    the code binds [a] to [1]. *)
Lemma parsePath_not_first_equals :
  Spec.pathnameAndQuery (Router2.parsePath Router2.initialState "/p?a=1=2")
  = Some ("/p", <["a" := "1"]> ∅)
  /\ Spec.pathnameAndQuery
       (RouterNg.parsePath (RouterNg.mkConfig [] true) "/p?a=1=2")
  = Some ("/p", <["a" := "1"]> ∅)
  /\ Spec.parse "/p?a=1=2" = Some ("/p", <["a" := "1=2"]> ∅).
Proof. repeat split; vm_compute; reflexivity. Qed.

(** ** C5: which of several matching siblings wins *)

Lemma regexMatch_whole (regex : list RouterNg.Tok) (p m : string) :
  RouterNg.regexMatch regex p = Some m -> m = p.
Proof. unfold RouterNg.regexMatch. destruct (RouterNg.matchesAll regex p); congruence. Qed.

(** Once a route has matched, no later route replaces it: every later match
    spans the whole pathname as well. *)
Lemma bestMatchLoop_kept (rs : list RouterNg.Route) (p : string)
    (best : RouterNg.Route) :
  RouterNg.bestMatchLoop rs p (Some best) (Z.of_nat (String.length p)) = Some best.
Proof.
  induction rs as [|r rs IH]; simpl; [done|].
  unfold RouterNg.regexMatch.
  destruct (RouterNg.matchesAll _ p); [|done].
  rewrite Z.gtb_ltb, Z.ltb_irrefl. exact IH.
Qed.

Lemma bestMatchLoop_first (rs : list RouterNg.Route) (p : string) :
  RouterNg.bestMatchLoop rs p None (-1)%Z = List.find (RouterNg.matches p) rs.
Proof.
  induction rs as [|r rs IH]; simpl; [done|].
  unfold RouterNg.regexMatch, RouterNg.matches at 1.
  destruct (RouterNg.matchesAll _ p); [|exact IH].
  replace (Z.of_nat (String.length p) >? -1)%Z with true
    by (symmetry; apply Z.gtb_lt; lia).
  apply bestMatchLoop_kept.
Qed.

Lemma findMatchingRoute_first (rs : list RouterNg.Route) (p : string) :
  RouterNg.findMatchingRoute rs p =
  match List.find (RouterNg.matches p) rs with
  | Some r => Some r
  | None => List.find RouterNg.isWildcard rs
  end.
Proof. unfold RouterNg.findMatchingRoute. by rewrite bestMatchLoop_first. Qed.

(** ** The segment matcher of [router2.ts] *)

Section Router2Induction.

Variable P : Router2.Route -> Prop.

Definition allChildren (ch : option (list Router2.Route)) : Prop :=
  match ch with Some l => Forall P l | None => True end.

Hypothesis step : forall route,
  allChildren (Router2.children route) -> P route.

Fixpoint router2_route_ind (route : Router2.Route) : P route :=
  step route
    (match route as r return allChildren (Router2.children r) with
     | Router2.mkRoute _ _ _ _ _ ch _ _ =>
         match ch as c return allChildren c with
         | Some l =>
             (fix all (l : list Router2.Route) : Forall P l :=
                match l with
                | [] => @List.Forall_nil _ P
                | c :: l' =>
                    @List.Forall_cons _ P c l' (router2_route_ind c) (all l')
                end) l
         | None => I
         end
     end).

End Router2Induction.

Lemma tryRoute_eq (p : string) (route : Router2.Route) (cur : gmap string string) :
  Router2.tryRoute p route cur =
  if String.eqb (Router2.r_path route) p then Some (Some route, cur)
  else if String.eqb (Router2.r_path route) "*" then Some (Some route, cur)
  else
    match Router2.segmentMatch p route with
    | None => None
    | Some ps =>
        match Router2.children route with
        | Some cs =>
            match Router2.findMatchingRoute cs p ps with
            | (Some childRoute, cur') => Some (Some childRoute, cur')
            | (None, cur') => Some (Some route, cur')
            end
        | None => Some (Some route, ps)
        end
    end.
Proof.
  destruct route. unfold Router2.segmentMatch. simpl.
  repeat (destruct (String.eqb _ _); [reflexivity|]).
  destruct (negb _); reflexivity.
Qed.

Lemma exactIn_eq (p : string) (route : Router2.Route) :
  Router2.exactIn p route =
  String.eqb (Router2.r_path route) p
  || match Router2.children route with
     | Some cs => List.existsb (Router2.exactIn p) cs
     | None => false
     end.
Proof. destruct route; reflexivity. Qed.

Lemma segmentMatch_segments (p q : string) (route : Router2.Route) :
  Router2.segments p = Router2.segments q ->
  Router2.segmentMatch p route = Router2.segmentMatch q route.
Proof. unfold Router2.segmentMatch. by intros ->. Qed.

Lemma forRoutes_sameOutside (p q : string) (rs : list Router2.Route) :
  Forall (Router2.sameOutside p q) rs ->
  List.existsb (Router2.exactIn p) rs = false ->
  List.existsb (Router2.exactIn q) rs = false ->
  forall cur,
    Router2.findMatchingRoute rs p cur = Router2.findMatchingRoute rs q cur.
Proof.
  unfold Router2.findMatchingRoute.
  induction 1 as [|r rs Hr _ IH]; intros Hp Hq cur; [done|].
  simpl in Hp, Hq. apply orb_false_iff in Hp as [Hp1 Hp2].
  apply orb_false_iff in Hq as [Hq1 Hq2].
  simpl. rewrite (Hr Hp1 Hq1 cur).
  destruct (Router2.tryRoute q r cur); [done|]. by apply IH.
Qed.

Lemma tryRoute_sameOutside (p q : string) :
  Router2.segments p = Router2.segments q ->
  forall route, Router2.sameOutside p q route.
Proof.
  intros Hseg. apply router2_route_ind. intros route IH Hp Hq cur.
  rewrite exactIn_eq in Hp, Hq.
  apply orb_false_iff in Hp as [Hp1 Hp2].
  apply orb_false_iff in Hq as [Hq1 Hq2].
  rewrite !tryRoute_eq, Hp1, Hq1.
  destruct (String.eqb (Router2.r_path route) "*"); [done|].
  rewrite (segmentMatch_segments p q route Hseg).
  destruct (Router2.segmentMatch q route) as [ps|]; [|done].
  destruct (Router2.children route) as [cs|]; [|done].
  simpl in IH. by rewrite (forRoutes_sameOutside p q cs IH Hp2 Hq2 ps).
Qed.

(** ** C10: separators in the pathname *)

(** C10, as amended.  In the segment matcher, two pathnames with the same
    sequence of non-empty segments get the same route and the same bound
    parameters, provided neither pathname is, character for character, the
    path of a route of the table, at any depth.  So [/users/42/] and
    [//users//42] match [/users/:id] with [id = 42]; [/users/42] does too
    ([findMatchingRoute_users_42]). *)
Theorem findMatchingRoute_separators
    (rs : list Router2.Route) (p q : string) (cur : gmap string string)
    (Hseg : Router2.segments p = Router2.segments q)
    (Hp : List.existsb (Router2.exactIn p) rs = false)
    (Hq : List.existsb (Router2.exactIn q) rs = false) :
  Router2.findMatchingRoute rs p cur = Router2.findMatchingRoute rs q cur.
Proof.
  apply forRoutes_sameOutside; [|done..].
  apply Forall_forall. intros r _. by apply tryRoute_sameOutside.
Qed.

Lemma findMatchingRoute_separators_witness :
  Router2.findMatchingRoute [Samples.r2 "/users/:id"] "/users/42/" ∅
  = Router2.findMatchingRoute [Samples.r2 "/users/:id"] "//users//42" ∅.
Proof. apply findMatchingRoute_separators; reflexivity. Defined.

(** The example of C10, evaluated. *)
Lemma findMatchingRoute_users_42 :
  let expected := (Some (Samples.r2 "/users/:id"), <["id" := "42"]> ∅) in
  Router2.findMatchingRoute [Samples.r2 "/users/:id"] "/users/42" ∅ = expected
  /\ Router2.findMatchingRoute [Samples.r2 "/users/:id"] "/users/42/" ∅ = expected
  /\ Router2.findMatchingRoute [Samples.r2 "/users/:id"] "//users//42" ∅ = expected.
Proof. repeat split; vm_compute; reflexivity. Qed.

(** C10 as stated fails: [/a] and [/a/] have the same segments, but [/a] is
    the path of the parent route, which is returned at once, while [/a/]
    goes through the segments and ends at the child. *)
Lemma findMatchingRoute_separator_changes_route :
  let rs := [Samples.r2Children "/a" [Samples.r2 "a"]] in
  Router2.segments "/a" = Router2.segments "/a/"
  /\ Router2.r_path <$> (Router2.findMatchingRoute rs "/a" ∅).1 = Some "/a"
  /\ Router2.r_path <$> (Router2.findMatchingRoute rs "/a/" ∅).1 = Some "a".
Proof. repeat split; vm_compute; reflexivity. Qed.

(** ** C5, continued *)

(** The loop either goes on at a route or returns a route there. *)
Lemma tryRoute_hits (p : string) (route : Router2.Route)
    (cur : gmap string string) :
  match Router2.tryRoute p route cur with
  | Some (Some _, _) => Router2.hits p route = true
  | Some (None, _) => False
  | None => Router2.hits p route = false
  end.
Proof.
  rewrite tryRoute_eq. unfold Router2.hits.
  destruct (String.eqb (Router2.r_path route) p); [done|].
  destruct (String.eqb (Router2.r_path route) "*"); [done|].
  destruct (Router2.segmentMatch p route) as [ps|]; [|done].
  destruct (Router2.children route) as [cs|]; [|done].
  by destruct (Router2.findMatchingRoute cs p ps) as [[c|] cur'].
Qed.

Lemma findMatchingRoute_cons (r : Router2.Route) (rs : list Router2.Route)
    (p : string) (cur : gmap string string) :
  Router2.findMatchingRoute (r :: rs) p cur
  = match Router2.tryRoute p r cur with
    | Some result => result
    | None => Router2.findMatchingRoute rs p cur
    end.
Proof. reflexivity. Qed.

(** The loop returns what its body returns at the first route that
    answers. *)
Lemma findMatchingRoute_first_hit (rs : list Router2.Route) (p : string)
    (cur : gmap string string) :
  match List.find (Router2.hits p) rs with
  | Some r => Router2.tryRoute p r cur
              = Some (Router2.findMatchingRoute rs p cur)
  | None => Router2.findMatchingRoute rs p cur = (None, cur)
  end.
Proof.
  induction rs as [|r rs IH]; [done|]. cbn [List.find].
  rewrite findMatchingRoute_cons.
  pose proof (tryRoute_hits p r cur) as H.
  destruct (Router2.tryRoute p r cur) as [[[x|] c]|] eqn:E.
  - by rewrite H, E.
  - done.
  - by rewrite H.
Qed.

(** C5, as amended.  In the segment matcher of [router2.ts], among the
    routes of a sibling list that answer for a pathname (the path is equal
    to the pathname, is [*], or matches it segment by segment) the first
    declared one decides, whatever is declared after it: when its path is
    the pathname or [*] it is returned at once; when it matched segment by
    segment, the result is that of the same search in its list of children,
    and the route itself when it has no children or none of them answers.
    When no route of the list answers, none is returned.  With [/a/b]
    declared before [/a/:x], the pathname [/a/b] matches the literal route;
    with [/a/:x] declared first, it matches the parameterized route. *)
Theorem findMatchingRoute_first_declared :
  (forall rs p cur r,
     List.find (Router2.hits p) rs = Some r ->
     if String.eqb (Router2.r_path r) p || String.eqb (Router2.r_path r) "*"
     then Router2.findMatchingRoute rs p cur = (Some r, cur)
     else
       exists ps,
         Router2.segmentMatch p r = Some ps
         /\ Router2.findMatchingRoute rs p cur
            = match Router2.children r with
              | Some cs =>
                  match Router2.findMatchingRoute cs p ps with
                  | (Some childRoute, cur') => (Some childRoute, cur')
                  | (None, cur') => (Some r, cur')
                  end
              | None => (Some r, ps)
              end)
  /\ (forall rs p cur,
     List.find (Router2.hits p) rs = None ->
     Router2.findMatchingRoute rs p cur = (None, cur))
  /\ (Router2.findMatchingRoute [Samples.r2 "/a/b"; Samples.r2 "/a/:x"] "/a/b" ∅).1
     = Some (Samples.r2 "/a/b")
  /\ (Router2.findMatchingRoute [Samples.r2 "/a/:x"; Samples.r2 "/a/b"] "/a/b" ∅).1
     = Some (Samples.r2 "/a/:x").
Proof.
  split; [|split; [|split; vm_compute; reflexivity]].
  - intros rs p cur r Hfind.
    pose proof (findMatchingRoute_first_hit rs p cur) as H.
    rewrite Hfind in H. apply List.find_some in Hfind as [_ Hhit].
    rewrite tryRoute_eq in H. unfold Router2.hits in Hhit.
    destruct (String.eqb (Router2.r_path r) p); [by injection H as <-|].
    destruct (String.eqb (Router2.r_path r) "*"); [by injection H as <-|].
    simpl in Hhit |- *.
    destruct (Router2.segmentMatch p r) as [ps|]; [|done].
    exists ps. split; [done|].
    destruct (Router2.children r) as [cs|]; [|by injection H as <-].
    destruct (Router2.findMatchingRoute cs p ps) as [[c|] cur'];
      by injection H as <-.
  - intros rs p cur Hfind.
    pose proof (findMatchingRoute_first_hit rs p cur) as H.
    by rewrite Hfind in H.
Qed.

Lemma findMatchingRoute_first_declared_witness :
  exists ps,
    Router2.segmentMatch "/a/b" (Samples.r2Children "/a/:x" [Samples.r2 "b"])
    = Some ps
    /\ Router2.findMatchingRoute
         [Samples.r2Children "/a/:x" [Samples.r2 "b"]; Samples.r2 "/a/b"]
         "/a/b" ∅
       = match Router2.children (Samples.r2Children "/a/:x" [Samples.r2 "b"])
         with
         | Some cs =>
             match Router2.findMatchingRoute cs "/a/b" ps with
             | (Some childRoute, cur') => (Some childRoute, cur')
             | (None, cur') =>
                 (Some (Samples.r2Children "/a/:x" [Samples.r2 "b"]), cur')
             end
         | None => (Some (Samples.r2Children "/a/:x" [Samples.r2 "b"]), ps)
         end.
Proof.
  exact (proj1 findMatchingRoute_first_declared
           [Samples.r2Children "/a/:x" [Samples.r2 "b"]; Samples.r2 "/a/b"]
           "/a/b" ∅ (Samples.r2Children "/a/:x" [Samples.r2 "b"]) eq_refl).
Defined.

(** C5 as stated fails: with the parameterized sibling declared first, the
    pathname [/a/b] does not match the literal route [/a/b]. *)
Lemma findMatchingRoute_parameter_before_literal :
  Router2.r_path <$>
    (Router2.findMatchingRoute [Samples.r2 "/a/:x"; Samples.r2 "/a/b"] "/a/b" ∅).1
  = Some "/a/:x"
  /\ (Router2.findMatchingRoute [Samples.r2 "/a/:x"; Samples.r2 "/a/b"] "/a/b" ∅).2
     = <["x" := "b"]> ∅.
Proof. split; vm_compute; reflexivity. Qed.

(** ** Effect traces of the pipeline steps *)

Lemma existsb_map_false {A B : Type} (f : B -> bool) (g : A -> B) (l : list A) :
  (forall x, f (g x) = false) -> List.existsb f (List.map g l) = false.
Proof. intros H. induction l as [|x l IH]; simpl; [done|]. by rewrite H, IH. Qed.

Lemma callResolvers_trace (rs : list (string * Resolve)) (ar : ActivatedRoute) :
  (callResolvers rs ar).2 = List.map (fun kr => CallResolve kr.1 ar) rs.
Proof.
  induction rs as [|[k r] rs IH]; simpl; [done|].
  destruct (callResolvers rs ar) as [m tr]. simpl in *. by rewrite IH.
Qed.

Lemma forallb_map_true {A B : Type} (f : B -> bool) (g : A -> B) (l : list A) :
  (forall x, f (g x) = true) -> List.forallb f (List.map g l) = true.
Proof. intros H. induction l as [|x l IH]; simpl; [done|]. by rewrite H, IH. Qed.

Lemma guardEffect_no_dispatch (tr : list Effect) :
  List.forallb guardEffect tr = true -> List.filter isDispatch tr = [].
Proof.
  induction tr as [|e tr IH]; simpl; [done|].
  intros H. apply andb_true_iff in H as [He H].
  destruct e; try discriminate; simpl; auto.
Qed.

Lemma guardEffect_no_loader (tr : list Effect) :
  List.forallb guardEffect tr = true -> List.filter isLoaderCall tr = [].
Proof.
  induction tr as [|e tr IH]; simpl; [done|].
  intros H. apply andb_true_iff in H as [He H].
  destruct e; try discriminate; simpl; auto.
Qed.

Lemma renderAngularComponent_location (cfg : RouterNg.Config)
    (st : RouterNg.State) (c : RouterNg.ComponentType) (ar : ActivatedRoute) :
  let r := RouterNg.renderAngularComponent cfg st c ar in
  RouterNg.currentPath r.1 = RouterNg.currentPath st
  /\ RouterNg.currentParams r.1 = RouterNg.currentParams st
  /\ RouterNg.currentQuery r.1 = RouterNg.currentQuery st
  /\ List.filter isDispatch r.2 = [].
Proof.
  simpl. repeat split.
  unfold RouterNg.destroyComponent, RouterNg.destroyModule,
    RouterNg.assignRouteData.
  destruct (RouterNg.currentComponentRef st), (RouterNg.currentModuleRef st),
    (RouterNg.ct_routeData c), (RouterNg.rootElement cfg); reflexivity.
Qed.

Lemma load_location (cfg : RouterNg.Config) (st : RouterNg.State)
    (route : RouterNg.Route) (ar : ActivatedRoute) :
  let r := RouterNg.load cfg st route ar in
  (RouterNg.currentPath r.1 = RouterNg.currentPath st
   /\ RouterNg.currentParams r.1 = RouterNg.currentParams st
   /\ RouterNg.currentQuery r.1 = RouterNg.currentQuery st)
  /\ List.filter isDispatch r.2 = [].
Proof.
  unfold RouterNg.load, RouterNg.loadFailed.
  destruct (RouterNg.loadChildren route) as [[m|]|].
  - destruct (RouterNg.ngDoBootstrap m) as [c|]; [|done].
    pose proof (renderAngularComponent_location cfg
      (RouterNg.mkState (RouterNg.currentParams st) (RouterNg.currentPath st)
         (RouterNg.currentQuery st) (RouterNg.currentComponentRef st)
         (Some (RouterNg.m_name m))) c ar) as H.
    destruct (RouterNg.renderAngularComponent _ _ _ _). simpl in *. tauto.
  - destruct (RouterNg.errorComponent route) as [c|].
    + pose proof (renderAngularComponent_location cfg st c ar) as H.
      destruct (RouterNg.renderAngularComponent _ _ _ _). simpl in *. tauto.
    + simpl. by destruct (RouterNg.rootElement cfg).
  - destruct (RouterNg.loadComponent route) as [[c|]|]; [| |done].
    + pose proof (renderAngularComponent_location cfg st c ar) as H.
      destruct (RouterNg.renderAngularComponent _ _ _ _). simpl in *. tauto.
    + destruct (RouterNg.errorComponent route) as [c|].
      * pose proof (renderAngularComponent_location cfg st c ar) as H.
        destruct (RouterNg.renderAngularComponent _ _ _ _). simpl in *. tauto.
      * simpl. by destruct (RouterNg.rootElement cfg).
Qed.

Lemma load_keeps_location (cfg : RouterNg.Config) (ps query : gmap string string)
    (pathname : string) (c : option Component) (m : option string)
    (route : RouterNg.Route) (ar : ActivatedRoute) :
  let st' := (RouterNg.load cfg (RouterNg.mkState ps pathname query c m)
                route ar).1 in
  RouterNg.currentPath st' = pathname
  /\ RouterNg.currentParams st' = ps
  /\ RouterNg.currentQuery st' = query.
Proof.
  exact (proj1 (load_location cfg (RouterNg.mkState ps pathname query c m)
                  route ar)).
Qed.

(** ** C4: a rejecting load guard *)

(** C4, as amended.  When the matched route has a lazy loader and declares
    load guards, no activation guard rejects and some load guard rejects,
    the outcome is [Blocked] and the calls made are exactly those of all
    activation guards followed by those of all load guards: the activation
    guards are evaluated before the load guards, and no deactivation guard,
    resolver or loader is called and no event is dispatched. *)
Theorem load_guard_rejection
    (cfg : RouterNg.Config) (st : RouterNg.State) (path pathname : string)
    (ps query : gmap string string) (route : RouterNg.Route)
    (gs : list CanLoad)
    (Hparse : RouterNg.parsePath cfg path = Some (pathname, ps, query))
    (Hfind : RouterNg.findMatchingRoute (RouterNg.routes cfg) pathname
             = Some route)
    (Hloader : RouterNg.hasLoader route = true)
    (Hguards : RouterNg.r_canLoad route = Some gs)
    (Hactivate :
       someRejects
         (RouterNg.activationStep route
            (mkActivatedRoute ps query pathname (RouterNg.r_data route))).1
       = false)
    (Hreject : someRejects (List.map canLoad gs) = true) :
  RouterNg.handleRouting cfg st path =
  (Blocked,
   RouterNg.mkState ps pathname query
     (RouterNg.currentComponentRef st) (RouterNg.currentModuleRef st),
   (RouterNg.activationStep route
      (mkActivatedRoute ps query pathname (RouterNg.r_data route))).2
   ++ List.map (fun g => CallCanLoad (cl_name g) (RouterNg.r_path route)) gs).
Proof.
  unfold RouterNg.handleRouting. rewrite Hparse, Hfind.
  destruct (RouterNg.activationStep route _) as [activate tr1].
  simpl in Hactivate |- *. rewrite Hactivate.
  unfold RouterNg.loadGuardStep. rewrite Hguards, Hloader.
  unfold callCanLoad. by rewrite Hreject.
Qed.

Lemma load_guard_rejection_witness :
  RouterNg.handleRouting Samples.adminConfig RouterNg.initialState "/admin" =
  (Blocked,
   RouterNg.mkState ∅ "/admin" ∅ None None,
   [CallCanActivate "auth" (mkActivatedRoute ∅ ∅ "/admin" None);
    CallCanLoad "role" "/admin"]).
Proof.
  exact (load_guard_rejection Samples.adminConfig RouterNg.initialState
           "/admin" "/admin" ∅ ∅ Samples.adminRoute [mkCanLoad "role" false]
           eq_refl eq_refl eq_refl eq_refl eq_refl eq_refl).
Defined.

(** C4 as stated fails: the load guard of [/admin] rejects, and the
    activation guard [auth] has been evaluated all the same. *)
Lemma load_guard_after_activation_guard :
  (RouterNg.handleRouting Samples.adminConfig RouterNg.initialState "/admin").1.1
  = Blocked
  /\ List.existsb isCallCanLoad
       (RouterNg.handleRouting Samples.adminConfig RouterNg.initialState
          "/admin").2 = true
  /\ List.existsb isCallCanActivate
       (RouterNg.handleRouting Samples.adminConfig RouterNg.initialState
          "/admin").2 = true.
Proof. repeat split; vm_compute; reflexivity. Qed.

(** ** C8: the wildcard check of the constructor *)

Lemma findWildcardIndex_cons (r : RouterNg.Route) (rs : list RouterNg.Route)
    (i : Z) :
  RouterNg.findWildcardIndex (r :: rs) i =
  if String.eqb (RouterNg.r_path r) "*" then i
  else RouterNg.findWildcardIndex rs (i + 1)%Z.
Proof. reflexivity. Qed.

Lemma findWildcardIndex_not_last (rs : list RouterNg.Route) (i : Z) :
  List.existsb RouterNg.isWildcard (List.removelast rs) = true ->
  (i <= RouterNg.findWildcardIndex rs i < i + Z.of_nat (List.length rs) - 1)%Z.
Proof.
  revert i. induction rs as [|r rs IH]; intros i H; [discriminate|].
  destruct rs as [|r' rest]; [discriminate|].
  change (List.removelast (r :: r' :: rest))
    with (r :: List.removelast (r' :: rest)) in H.
  cbn [List.existsb] in H. rewrite findWildcardIndex_cons.
  unfold RouterNg.isWildcard in H at 1.
  destruct (String.eqb (RouterNg.r_path r) "*").
  - simpl length. clear. lia.
  - simpl in H. specialize (IH (i + 1)%Z H). clear H.
    simpl length in IH |- *. lia.
Qed.

Lemma findWildcardIndex_none_before (rs : list RouterNg.Route) (i : Z) :
  List.existsb RouterNg.isWildcard (List.removelast rs) = false ->
  RouterNg.findWildcardIndex rs i = (-1)%Z
  \/ RouterNg.findWildcardIndex rs i = (i + Z.of_nat (List.length rs) - 1)%Z.
Proof.
  revert i. induction rs as [|r rs IH]; intros i H; [by left|].
  destruct rs as [|r' rest].
  - simpl. destruct (String.eqb _ _); [right; lia | by left].
  - change (List.removelast (r :: r' :: rest))
      with (r :: List.removelast (r' :: rest)) in H.
    cbn [List.existsb] in H. apply orb_false_iff in H as [Hr H].
    rewrite findWildcardIndex_cons.
    unfold RouterNg.isWildcard in Hr. rewrite Hr.
    destruct (IH (i + 1)%Z H) as [E|E]; [by left|right].
    rewrite E. simpl length. lia.
Qed.

(** Two wildcards: the first of them is not the last sibling. *)
Lemma two_wildcards_not_last (rs : list RouterNg.Route) :
  (2 <= List.length (List.filter RouterNg.isWildcard rs))%nat ->
  List.existsb RouterNg.isWildcard (List.removelast rs) = true.
Proof.
  induction rs as [|r rs IH]; simpl; [lia|].
  destruct rs as [|r' rest].
  - simpl. destruct (RouterNg.isWildcard r); simpl; lia.
  - intros H. cbn [List.existsb].
    destruct (RouterNg.isWildcard r) eqn:Er; [done|].
    simpl. apply IH. exact H.
Qed.

Lemma wildcardMisplaced_not_last (rs : list RouterNg.Route) :
  RouterNg.wildcardMisplaced rs
  = List.existsb RouterNg.isWildcard (List.removelast rs).
Proof.
  unfold RouterNg.wildcardMisplaced.
  destruct (List.existsb _ (List.removelast rs)) eqn:E; [done|].
  rewrite orb_false_l. apply Nat.leb_gt.
  destruct (Nat.le_gt_cases 2 (List.length (List.filter RouterNg.isWildcard rs)))
    as [H|H]; [|lia].
  apply two_wildcards_not_last in H. congruence.
Qed.

(** C8, as amended.  When the top-level route list has a wildcard route that
    is not its last route, or more than one wildcard route, the constructor
    of [router.ts] raises its configuration error, whatever the location:
    nothing is matched, no state is written and nothing is started.  It
    raises no error otherwise: the sibling lists of child routes are not
    checked. *)
Theorem constructor_wildcard_check
    (fuel : nat) (cfg : RouterNg.Config) (location : string) :
  (RouterNg.wildcardMisplaced (RouterNg.routes cfg) = true ->
   RouterNg.constructor fuel cfg location
   = RouterNg.ConfigError RouterNg.wildcardMessage)
  /\ (RouterNg.wildcardMisplaced (RouterNg.routes cfg) = false ->
      RouterNg.constructor fuel cfg location
      = RouterNg.Started
          (RouterNg.routing fuel cfg RouterNg.initialState location)).
Proof.
  rewrite wildcardMisplaced_not_last. unfold RouterNg.constructor.
  split; intros H.
  - pose proof (findWildcardIndex_not_last _ 0%Z H) as Hi.
    replace (_ >=? 0)%Z with true by (symmetry; apply Z.geb_le; lia).
    replace (_ =? _)%Z with false by (symmetry; apply Z.eqb_neq; lia).
    done.
  - destruct (findWildcardIndex_none_before _ 0%Z H) as [E|E]; rewrite E.
    + done.
    + rewrite Z.eqb_refl, andb_false_r. done.
Qed.

(** C8 as stated fails: the children of [/a] have a wildcard route before
    [b], and the constructor of [router.ts] starts the router; the
    constructor of [router2.ts] starts with a wildcard route before [/a],
    and [/a] then matches the wildcard route. *)
Lemma constructor_nested_wildcard_unchecked :
  RouterNg.wildcardMisplaced [Samples.ng "*"; Samples.ng "b"] = true
  /\ RouterNg.isStarted
       (RouterNg.constructor 1
          (RouterNg.mkConfig
             [Samples.ngChildren "/a" [Samples.ng "*"; Samples.ng "b"]] true)
          "/a") = true
  /\ (Router2.constructor 1
        (Router2.mkConfig [Samples.r2 "*"; Samples.r2 "/a"] true) "/a")
     = Some (Settled, Router2.mkState ∅ "/a" ∅,
             [DispatchRouteChange "/a" ∅ ∅])
  /\ (Router2.findMatchingRoute [Samples.r2 "*"; Samples.r2 "/a"] "/a" ∅).1
     = Some (Samples.r2 "*").
Proof. repeat split; vm_compute; reflexivity. Qed.

Lemma constructor_wildcard_check_witness :
  RouterNg.constructor 1
    (RouterNg.mkConfig [Samples.ng "*"; Samples.ng "/a"] true) "/a"
  = RouterNg.ConfigError RouterNg.wildcardMessage.
Proof.
  apply (proj1 (constructor_wildcard_check 1
                  (RouterNg.mkConfig [Samples.ng "*"; Samples.ng "/a"] true)
                  "/a")).
  reflexivity.
Defined.

(** ** The pipeline of [router.ts], step by step *)

Section NgPipeline.

Variables (cfg : RouterNg.Config) (st : RouterNg.State) (path pathname : string).
Variables (ps query : gmap string string) (route : RouterNg.Route).

Hypothesis Hparse : RouterNg.parsePath cfg path = Some (pathname, ps, query).
Hypothesis Hfind :
  RouterNg.findMatchingRoute (RouterNg.routes cfg) pathname = Some route.

(** The snapshot every guard and resolver of the attempt is called with. *)
Let ar : ActivatedRoute :=
  mkActivatedRoute ps query pathname (RouterNg.r_data route).

(** The state as written at the start of the attempt. *)
Let st1 : RouterNg.State :=
  RouterNg.mkState ps pathname query
    (RouterNg.currentComponentRef st) (RouterNg.currentModuleRef st).

Let act := RouterNg.activationStep route ar.
Let lod := RouterNg.loadGuardStep route.
Let dea := RouterNg.deactivationStep st1 route ar.
Let res := RouterNg.resolveStep route ar.

Lemma ng_handleRouting_matched :
  RouterNg.handleRouting cfg st path =
  if someRejects act.1 then (Blocked, st1, act.2)
  else if someRejects lod.1 then (Blocked, st1, act.2 ++ lod.2)
  else if someRejects dea.1 then (Blocked, st1, act.2 ++ lod.2 ++ dea.2)
  else
    match res.1 with
    | None => (Rejected, st1, act.2 ++ lod.2 ++ dea.2 ++ res.2)
    | Some resolvedData =>
        match RouterNg.redirectTarget route with
        | Some target =>
            (Redirect (RouterNg.handleRedirect target ps), st1,
             act.2 ++ lod.2 ++ dea.2 ++ res.2)
        | None =>
            let loaded :=
              RouterNg.load cfg st1 route
                (mkActivatedRoute ps query pathname
                   (Some (mergeData (RouterNg.r_data route) resolvedData))) in
            (Settled, loaded.1,
             act.2 ++ lod.2 ++ dea.2 ++ res.2 ++ loaded.2
             ++ [DispatchRouteChange path ps query])
        end
    end.
Proof.
  unfold RouterNg.handleRouting. rewrite Hparse, Hfind.
  subst act lod dea res st1 ar.
  destruct (RouterNg.activationStep _ _) as [a1 t1]; simpl.
  destruct (someRejects a1); [done|].
  destruct (RouterNg.loadGuardStep _) as [a2 t2]; simpl.
  destruct (someRejects a2); [done|].
  destruct (RouterNg.deactivationStep _ _ _) as [a3 t3]; simpl.
  destruct (someRejects a3); [done|].
  destruct (RouterNg.resolveStep _ _) as [[d|] t4]; simpl; [|done].
  destruct (RouterNg.redirectTarget route); [done|].
  by destruct (RouterNg.load _ _ _ _).
Qed.

Lemma ng_guards_only :
  List.forallb guardEffect (act.2 ++ lod.2 ++ dea.2 ++ res.2) = true.
Proof.
  rewrite !List.forallb_app. subst act lod dea res.
  unfold RouterNg.activationStep, RouterNg.loadGuardStep,
    RouterNg.deactivationStep, RouterNg.resolveStep.
  repeat (apply andb_true_iff; split).
  - destruct (RouterNg.r_canActivate route); [|done].
    by apply forallb_map_true.
  - destruct (RouterNg.r_canLoad route); [|done].
    destruct (RouterNg.hasLoader route); [|done].
    by apply forallb_map_true.
  - destruct (RouterNg.currentComponentRef st1); [|done].
    destruct (RouterNg.r_canDeactivate route); [|done].
    by apply forallb_map_true.
  - destruct (RouterNg.r_resolve route); [|done].
    rewrite callResolvers_trace. by apply forallb_map_true.
Qed.

(** Whatever the outcome, the attempted pathname, parameters and query are
    what the controller holds afterwards. *)
Lemma ng_state_written :
  let st' := (RouterNg.handleRouting cfg st path).1.2 in
  RouterNg.currentPath st' = pathname
  /\ RouterNg.currentParams st' = ps
  /\ RouterNg.currentQuery st' = query.
Proof.
  rewrite ng_handleRouting_matched.
  repeat (match goal with
          | |- context [if ?b then _ else _] => destruct b; [done|]
          end).
  destruct res.1; [|done].
  destruct (RouterNg.redirectTarget route); [done|].
  simpl. apply load_keeps_location.
Qed.

(** An attempt that does not run to the end only calls guards and
    resolvers, and leaves the state as written at its start. *)
Lemma ng_unsettled :
  (RouterNg.handleRouting cfg st path).1.1 <> Settled ->
  (RouterNg.handleRouting cfg st path).1.2 = st1
  /\ List.forallb guardEffect (RouterNg.handleRouting cfg st path).2 = true.
Proof.
  pose proof ng_guards_only as G. rewrite !List.forallb_app in G.
  apply andb_true_iff in G as [G1 G].
  apply andb_true_iff in G as [G2 G].
  apply andb_true_iff in G as [G3 G4].
  rewrite ng_handleRouting_matched.
  destruct (someRejects act.1); [by simpl; rewrite G1|].
  destruct (someRejects lod.1);
    [by simpl; rewrite List.forallb_app, G1, G2|].
  destruct (someRejects dea.1);
    [by simpl; rewrite !List.forallb_app, G1, G2, G3|].
  destruct res.1;
    [|by simpl; rewrite !List.forallb_app, G1, G2, G3, G4].
  destruct (RouterNg.redirectTarget route);
    [by simpl; rewrite !List.forallb_app, G1, G2, G3, G4|].
  simpl. done.
Qed.

(** A route with [redirectTo]: the guards and resolvers come first. *)
Lemma ng_redirect_after_guards (target : string) :
  RouterNg.redirectTarget route = Some target ->
  let r := RouterNg.handleRouting cfg st path in
  (exists rest, r.2 = act.2 ++ rest)
  /\ List.forallb guardEffect r.2 = true
  /\ r.1.2 = st1
  /\ (someRejects act.1 = true \/ someRejects lod.1 = true
      \/ someRejects dea.1 = true -> r.1.1 = Blocked)
  /\ (someRejects act.1 = false -> someRejects lod.1 = false ->
      someRejects dea.1 = false -> is_Some res.1 ->
      r = (Redirect (RouterNg.handleRedirect target ps), st1,
           act.2 ++ lod.2 ++ dea.2 ++ res.2)).
Proof.
  intros Ht r.
  assert (Hr : r.1.1 <> Settled).
  { subst r. rewrite ng_handleRouting_matched, Ht.
    repeat (match goal with
            | |- context [if ?b then _ else _] => destruct b; [done|]
            end).
    by destruct res.1. }
  destruct (ng_unsettled Hr) as [Hst Hg]. fold r in Hst, Hg.
  split; [|split; [done|split; [done|]]].
  - subst r. rewrite ng_handleRouting_matched, Ht.
    destruct (someRejects act.1); [by exists []; rewrite app_nil_r|].
    destruct (someRejects lod.1); [by eexists|].
    destruct (someRejects dea.1); [by eexists|].
    destruct res.1; by eexists.
  - subst r. rewrite ng_handleRouting_matched, Ht. split.
    + intros [H|[H|H]]; rewrite H;
        repeat (match goal with
                | |- context [if ?b then _ else _] => destruct b; [done|]
                end); done.
    + intros -> -> -> [d ->]. done.
Qed.

(** Deactivation guards are called with the snapshot of the attempt. *)
Lemma ng_deactivation (c : Component) (gs : list CanDeactivate) :
  RouterNg.currentComponentRef st = Some c ->
  RouterNg.r_canDeactivate route = Some gs ->
  someRejects act.1 = false -> someRejects lod.1 = false ->
  let r := RouterNg.handleRouting cfg st path in
  let calls := List.map (fun g => CallCanDeactivate (cd_name g) ar) gs in
  (exists rest, r.2 = act.2 ++ lod.2 ++ calls ++ rest)
  /\ (someRejects (List.map (fun g => canDeactivate g ar) gs) = true ->
      r = (Blocked, st1, act.2 ++ lod.2 ++ calls)).
Proof.
  intros Hc Hgs Ha Hl r calls. subst r.
  rewrite ng_handleRouting_matched, Ha, Hl.
  assert (Hd : dea = (List.map (fun g => canDeactivate g ar) gs, calls)).
  { subst dea. unfold RouterNg.deactivationStep. subst st1. simpl.
    by rewrite Hc, Hgs. }
  rewrite Hd. simpl. split.
  - destruct (someRejects (List.map (fun g => canDeactivate g ar) gs));
      [by exists []; rewrite app_nil_r|].
    destruct res.1; [|by eexists].
    destruct (RouterNg.redirectTarget route); by eexists.
  - by intros ->.
Qed.

(** An attempt that runs to the end dispatches exactly one event; when the
    loader fails, the error component, if any, is what is mounted. *)
Lemma ng_settled :
  (RouterNg.handleRouting cfg st path).1.1 = Settled ->
  List.filter isDispatch (RouterNg.handleRouting cfg st path).2
  = [DispatchRouteChange path ps query].
Proof.
  pose proof ng_guards_only as G. rewrite !List.forallb_app in G.
  apply andb_true_iff in G as [G1 G].
  apply andb_true_iff in G as [G2 G].
  apply andb_true_iff in G as [G3 G4].
  apply guardEffect_no_dispatch in G1, G2, G3, G4.
  rewrite ng_handleRouting_matched.
  repeat (match goal with
          | |- context [if ?b then _ else _] => destruct b; [done|]
          end).
  destruct res.1 as [d|]; [|done].
  destruct (RouterNg.redirectTarget route); [done|].
  intros _. simpl.
  rewrite !List.filter_app, G1, G2, G3, G4, (proj2 (load_location _ _ _ _)).
  done.
Qed.

End NgPipeline.

(** ** The pipeline of [router2.ts], step by step *)

Lemma router2_load_no_dispatch (cfg : Router2.Config) (route : Router2.Route)
    (ar : ActivatedRoute) :
  List.filter isDispatch (Router2.load cfg route ar) = [].
Proof.
  unfold Router2.load, Router2.mount, Router2.setInnerHTML.
  destruct (Router2.loadChildren route) as [[c|]|];
    [| |destruct (Router2.loadComponent route) as [[c|]|]];
    destruct (Router2.rootElement cfg); reflexivity.
Qed.

Section Router2Pipeline.

Variables (cfg : Router2.Config) (st : Router2.State) (path pathname : string).
Variables (ps query cur : gmap string string) (route : Router2.Route).

Hypothesis Hparse : Router2.parsePath st path = Some (pathname, ps, query).
Hypothesis Hfind :
  Router2.findMatchingRoute (Router2.routes cfg) pathname ps = (Some route, cur).

(** The snapshot every guard and resolver of the attempt is called with. *)
Let ar : ActivatedRoute :=
  mkActivatedRoute cur query pathname (Router2.r_data route).

(** The state after the match. *)
Let st1 : Router2.State := Router2.mkState cur pathname query.

Let act := Router2.activationStep route ar.
Let res := Router2.resolveStep route ar.

Lemma r2_handleRouting_matched :
  Router2.handleRouting cfg st path =
  if someRejects act.1 then (Blocked, st1, act.2)
  else
    match res.1 with
    | None => (Rejected, st1, act.2 ++ res.2)
    | Some resolvedData =>
        match Router2.redirectTarget route with
        | Some target => (Redirect target, st1, act.2 ++ res.2)
        | None =>
            (Settled, st1,
             act.2 ++ res.2
             ++ Router2.load cfg route
                  (mkActivatedRoute cur query pathname
                     (Some (mergeData (Router2.r_data route) resolvedData)))
             ++ [DispatchRouteChange path ps query])
        end
    end.
Proof.
  unfold Router2.handleRouting. rewrite Hparse, Hfind.
  subst act res st1 ar.
  destruct (Router2.activationStep _ _) as [a1 t1]; simpl.
  destruct (someRejects a1); [done|].
  destruct (Router2.resolveStep _ _) as [[d|] t4]; simpl; [|done].
  by destruct (Router2.redirectTarget route).
Qed.

Lemma r2_guards_only : List.forallb guardEffect (act.2 ++ res.2) = true.
Proof.
  rewrite List.forallb_app. subst act res.
  unfold Router2.activationStep, Router2.resolveStep.
  apply andb_true_iff; split.
  - destruct (Router2.r_canActivate route); [|done].
    by apply forallb_map_true.
  - destruct (Router2.r_resolve route); [|done].
    rewrite callResolvers_trace. by apply forallb_map_true.
Qed.

(** Whatever the outcome, the state is the one written during the attempt. *)
Lemma r2_state_written : (Router2.handleRouting cfg st path).1.2 = st1.
Proof.
  rewrite r2_handleRouting_matched.
  destruct (someRejects act.1); [done|].
  destruct res.1; [|done].
  by destruct (Router2.redirectTarget route).
Qed.

Lemma r2_unsettled :
  (Router2.handleRouting cfg st path).1.1 <> Settled ->
  List.forallb guardEffect (Router2.handleRouting cfg st path).2 = true.
Proof.
  pose proof r2_guards_only as G. rewrite List.forallb_app in G.
  apply andb_true_iff in G as [G1 G2].
  rewrite r2_handleRouting_matched.
  destruct (someRejects act.1); [by simpl; rewrite G1|].
  destruct res.1; [|by simpl; rewrite List.forallb_app, G1, G2].
  destruct (Router2.redirectTarget route);
    [by simpl; rewrite List.forallb_app, G1, G2|].
  simpl. done.
Qed.

(** A route with [redirectTo]: the guards and resolvers come first, and the
    target is [redirectTo] as it is written. *)
Lemma r2_redirect_after_guards (target : string) :
  Router2.redirectTarget route = Some target ->
  let r := Router2.handleRouting cfg st path in
  (exists rest, r.2 = act.2 ++ rest)
  /\ List.forallb guardEffect r.2 = true
  /\ (someRejects act.1 = true -> r.1.1 = Blocked)
  /\ (someRejects act.1 = false -> is_Some res.1 ->
      r = (Redirect target, st1, act.2 ++ res.2)).
Proof.
  intros Ht r.
  assert (Hr : r.1.1 <> Settled).
  { subst r. rewrite r2_handleRouting_matched, Ht.
    destruct (someRejects act.1); [done|]. by destruct res.1. }
  pose proof (r2_unsettled Hr) as Hg. fold r in Hg.
  split; [|split; [done|]].
  - subst r. rewrite r2_handleRouting_matched, Ht.
    destruct (someRejects act.1); [by exists []; rewrite app_nil_r|].
    destruct res.1; by eexists.
  - subst r. rewrite r2_handleRouting_matched, Ht. split.
    + by intros ->.
    + by intros -> [d ->].
Qed.

Lemma r2_settled :
  (Router2.handleRouting cfg st path).1.1 = Settled ->
  List.filter isDispatch (Router2.handleRouting cfg st path).2
  = [DispatchRouteChange path ps query].
Proof.
  pose proof r2_guards_only as G. rewrite List.forallb_app in G.
  apply andb_true_iff in G as [G1 G2].
  apply guardEffect_no_dispatch in G1, G2.
  rewrite r2_handleRouting_matched.
  destruct (someRejects act.1); [done|].
  destruct res.1 as [d|]; [|done].
  destruct (Router2.redirectTarget route); [done|].
  intros _. simpl.
  rewrite !List.filter_app, G1, G2, router2_load_no_dispatch. done.
Qed.

End Router2Pipeline.

(** ** C1: a route with [redirectTo] *)

(** C1, as amended.  When the matched route has [redirectTo] set, its
    guards and resolvers are evaluated first: the trace of the attempt starts
    with the calls of all its activation guards and consists of guard and
    resolver calls only (no loader is called, nothing is mounted, no event is
    dispatched).  A rejecting guard gives [Blocked]; when no guard rejects and
    every resolver succeeds, the outcome is [Redirect].  The first part is
    [router.ts], the second [router2.ts]. *)
Theorem redirect_after_guards :
  (forall cfg st path pathname ps query route target,
     RouterNg.parsePath cfg path = Some (pathname, ps, query) ->
     RouterNg.findMatchingRoute (RouterNg.routes cfg) pathname = Some route ->
     RouterNg.redirectTarget route = Some target ->
     let ar := mkActivatedRoute ps query pathname (RouterNg.r_data route) in
     let st1 := RouterNg.mkState ps pathname query
                  (RouterNg.currentComponentRef st)
                  (RouterNg.currentModuleRef st) in
     let act := RouterNg.activationStep route ar in
     let lod := RouterNg.loadGuardStep route in
     let dea := RouterNg.deactivationStep st1 route ar in
     let res := RouterNg.resolveStep route ar in
     let r := RouterNg.handleRouting cfg st path in
     (exists rest, r.2 = act.2 ++ rest)
     /\ List.forallb guardEffect r.2 = true
     /\ r.1.2 = st1
     /\ (someRejects act.1 = true \/ someRejects lod.1 = true
         \/ someRejects dea.1 = true -> r.1.1 = Blocked)
     /\ (someRejects act.1 = false -> someRejects lod.1 = false ->
         someRejects dea.1 = false -> is_Some res.1 ->
         r = (Redirect (RouterNg.handleRedirect target ps), st1,
              act.2 ++ lod.2 ++ dea.2 ++ res.2)))
  /\ (forall cfg st path pathname ps query cur route target,
     Router2.parsePath st path = Some (pathname, ps, query) ->
     Router2.findMatchingRoute (Router2.routes cfg) pathname ps
     = (Some route, cur) ->
     Router2.redirectTarget route = Some target ->
     let ar := mkActivatedRoute cur query pathname (Router2.r_data route) in
     let act := Router2.activationStep route ar in
     let res := Router2.resolveStep route ar in
     let r := Router2.handleRouting cfg st path in
     (exists rest, r.2 = act.2 ++ rest)
     /\ List.forallb guardEffect r.2 = true
     /\ (someRejects act.1 = true -> r.1.1 = Blocked)
     /\ (someRejects act.1 = false -> is_Some res.1 ->
         r = (Redirect target, Router2.mkState cur pathname query,
              act.2 ++ res.2))).
Proof.
  split.
  - intros cfg st path pathname ps query route target Hparse Hfind Ht.
    exact (ng_redirect_after_guards cfg st path pathname ps query route
             Hparse Hfind target Ht).
  - intros cfg st path pathname ps query cur route target Hparse Hfind Ht.
    exact (r2_redirect_after_guards cfg st path pathname ps query cur route
             Hparse Hfind target Ht).
Qed.

Lemma redirect_after_guards_witness :
  RouterNg.handleRouting (Samples.oldConfig (Some [Samples.accept "auth"]))
    RouterNg.initialState "/old/7"
  = (Redirect "/new/7",
     RouterNg.mkState (<["id" := "7"]> ∅) "/old/7" ∅ None None,
     [CallCanActivate "auth"
        (mkActivatedRoute (<["id" := "7"]> ∅) ∅ "/old/7" None)]).
Proof.
  destruct (proj1 redirect_after_guards
              (Samples.oldConfig (Some [Samples.accept "auth"]))
              RouterNg.initialState "/old/7" "/old/7" (<["id" := "7"]> ∅) ∅
              (Samples.oldRoute (Some [Samples.accept "auth"])) "/new/:id"
              eq_refl eq_refl eq_refl)
    as (_ & _ & _ & _ & H).
  rewrite H; [reflexivity | reflexivity | reflexivity | reflexivity |].
  by eexists.
Defined.

(** C1 as stated fails: the route [/old/:id] has [redirectTo] set; its
    activation guard is evaluated before the redirect, and when the guard
    rejects the outcome is [Blocked], in both routers. *)
Lemma redirect_does_not_skip_guards :
  List.existsb isCallCanActivate
    (RouterNg.handleRouting (Samples.oldConfig (Some [Samples.accept "auth"]))
       RouterNg.initialState "/old/7").2 = true
  /\ (RouterNg.handleRouting (Samples.oldConfig (Some [Samples.reject "auth"]))
        RouterNg.initialState "/old/7").1.1 = Blocked
  /\ List.existsb isCallCanActivate
       (Router2.handleRouting (Samples.oldConfig2 (Some [Samples.accept "auth"]))
          Router2.initialState "/old/7").2 = true
  /\ (Router2.handleRouting (Samples.oldConfig2 (Some [Samples.reject "auth"]))
        Router2.initialState "/old/7").1.1 = Blocked.
Proof. repeat split; vm_compute; reflexivity. Qed.

(** ** C2: a rejecting guard *)

(** C2, as amended.  When a guard rejects (outcome [Blocked]) the attempt
    has done nothing but call guards: no [routechange] event is dispatched,
    no loader is called, no component or module is destroyed or created and
    nothing is written into the root element, so the mounted view is
    untouched (in [router.ts] the references to the mounted component and
    module are the ones held before).  The pathname and query the
    controller holds are those of the attempted path, written before the
    guards ran; the parameters are those extracted from the attempted path
    in [router.ts] and those the matcher left in [router2.ts]. *)
Theorem blocked_attempt :
  (forall cfg st path,
     (RouterNg.handleRouting cfg st path).1.1 = Blocked ->
     exists pathname ps query,
       RouterNg.parsePath cfg path = Some (pathname, ps, query)
       /\ (RouterNg.handleRouting cfg st path).1.2
          = RouterNg.mkState ps pathname query
              (RouterNg.currentComponentRef st) (RouterNg.currentModuleRef st)
       /\ List.forallb guardEffect (RouterNg.handleRouting cfg st path).2
          = true
       /\ List.filter isDispatch (RouterNg.handleRouting cfg st path).2 = []
       /\ List.filter isLoaderCall (RouterNg.handleRouting cfg st path).2 = [])
  /\ (forall cfg st path,
     (Router2.handleRouting cfg st path).1.1 = Blocked ->
     exists pathname query,
       Router2.parsePath st path
       = Some (pathname, Router2.currentParams st, query)
       /\ (Router2.handleRouting cfg st path).1.2
          = Router2.mkState
              (Router2.findMatchingRoute (Router2.routes cfg) pathname
                 (Router2.currentParams st)).2
              pathname query
       /\ List.forallb guardEffect (Router2.handleRouting cfg st path).2
          = true
       /\ List.filter isDispatch (Router2.handleRouting cfg st path).2 = []
       /\ List.filter isLoaderCall (Router2.handleRouting cfg st path).2 = []).
Proof.
  split; intros cfg st path H.
  - destruct (RouterNg.parsePath cfg path) as [[[pathname ps] query]|] eqn:Hparse;
      [|by unfold RouterNg.handleRouting in H; rewrite Hparse in H].
    destruct (RouterNg.findMatchingRoute (RouterNg.routes cfg) pathname)
      as [route|] eqn:Hfind;
      [|by unfold RouterNg.handleRouting in H; rewrite Hparse, Hfind in H].
    exists pathname, ps, query. split; [done|].
    assert (Hs : (RouterNg.handleRouting cfg st path).1.1 <> Settled)
      by (rewrite H; discriminate).
    destruct (ng_unsettled cfg st path pathname ps query route Hparse Hfind Hs)
      as [Hst Hg].
    split; [exact Hst|]. split; [exact Hg|].
    split; [by apply guardEffect_no_dispatch|by apply guardEffect_no_loader].
  - assert (Hp : exists pathname query,
               Router2.parsePath st path
               = Some (pathname, Router2.currentParams st, query)).
    { unfold Router2.handleRouting in H. unfold Router2.parsePath in *.
      destruct (parseQuery _); [by eauto|done]. }
    destruct Hp as (pathname & query & Hparse).
    destruct (Router2.findMatchingRoute (Router2.routes cfg) pathname
                (Router2.currentParams st)) as [[route|] cur] eqn:Hfind;
      [|by unfold Router2.handleRouting in H; rewrite Hparse, Hfind in H].
    exists pathname, query. split; [done|].
    assert (Hs : (Router2.handleRouting cfg st path).1.1 <> Settled)
      by (rewrite H; discriminate).
    pose proof (r2_unsettled cfg st path pathname _ query cur route
                  Hparse Hfind Hs) as Hg.
    split; [by rewrite Hfind, (r2_state_written cfg st path pathname _ query
                                 cur route Hparse Hfind)|].
    split; [exact Hg|].
    split; [by apply guardEffect_no_dispatch|by apply guardEffect_no_loader].
Qed.

Lemma blocked_attempt_witness :
  exists pathname ps query,
    RouterNg.parsePath (RouterNg.mkConfig [Samples.guardedB] true) "/b?x=1"
    = Some (pathname, ps, query)
    /\ (RouterNg.handleRouting (RouterNg.mkConfig [Samples.guardedB] true)
          Samples.atA "/b?x=1").1.2
       = RouterNg.mkState ps pathname query (Some "AComponent") None
    /\ List.forallb guardEffect
         (RouterNg.handleRouting (RouterNg.mkConfig [Samples.guardedB] true)
            Samples.atA "/b?x=1").2 = true
    /\ List.filter isDispatch
         (RouterNg.handleRouting (RouterNg.mkConfig [Samples.guardedB] true)
            Samples.atA "/b?x=1").2 = []
    /\ List.filter isLoaderCall
         (RouterNg.handleRouting (RouterNg.mkConfig [Samples.guardedB] true)
            Samples.atA "/b?x=1").2 = [].
Proof.
  apply (proj1 blocked_attempt (RouterNg.mkConfig [Samples.guardedB] true)
           Samples.atA "/b?x=1").
  reflexivity.
Defined.

(** C2 as stated fails: the controller is at [/a]; the guard of [/b]
    rejects, and the controller is at [/b], with the query of the rejected
    attempt, in both routers. *)
Lemma blocked_attempt_overwrites_state :
  RouterNg.currentPath Samples.atA = "/a"
  /\ (RouterNg.handleRouting (RouterNg.mkConfig [Samples.guardedB] true)
        Samples.atA "/b?x=1")
     = (Blocked,
        RouterNg.mkState ∅ "/b" (<["x" := "1"]> ∅) (Some "AComponent") None,
        [CallCanActivate "auth"
           (mkActivatedRoute ∅ (<["x" := "1"]> ∅) "/b" None)])
  /\ Router2.currentPath Samples.atA2 = "/a"
  /\ (Router2.handleRouting (Router2.mkConfig [Samples.guardedB2] true)
        Samples.atA2 "/b?x=1")
     = (Blocked,
        Router2.mkState ∅ "/b" (<["x" := "1"]> ∅),
        [CallCanActivate "auth"
           (mkActivatedRoute ∅ (<["x" := "1"]> ∅) "/b" None)]).
Proof. repeat split; vm_compute; reflexivity. Qed.

(** ** C3: a failing loader or resolver *)

(** C3, as amended.  When the route of the attempted path is matched, the
    controller afterwards holds the pathname and query of the attempted
    path, whatever the outcome, so also when the lazy loader or a resolver
    fails: they are written at the start of the attempt and not restored.
    The parameters it holds are those extracted from the attempted path in
    [router.ts], and those the matcher left in [router2.ts].  When no guard
    rejects, every resolver succeeds, the route does not redirect and its
    lazy loader fails, the failure is caught: the attempt runs to its end
    and dispatches exactly one [routechange] event, with the attempted path
    and the parameters and query [_parsePath] returned for it (in
    [router2.ts] these parameters are the ones held before the attempt). *)
Theorem load_failure_state_and_event :
  (forall cfg st path pathname ps query route,
     RouterNg.parsePath cfg path = Some (pathname, ps, query) ->
     RouterNg.findMatchingRoute (RouterNg.routes cfg) pathname = Some route ->
     let ar := mkActivatedRoute ps query pathname (RouterNg.r_data route) in
     let st1 := RouterNg.mkState ps pathname query
                  (RouterNg.currentComponentRef st)
                  (RouterNg.currentModuleRef st) in
     let r := RouterNg.handleRouting cfg st path in
     (RouterNg.currentPath r.1.2 = pathname
      /\ RouterNg.currentParams r.1.2 = ps
      /\ RouterNg.currentQuery r.1.2 = query)
     /\ (someRejects (RouterNg.activationStep route ar).1 = false ->
         someRejects (RouterNg.loadGuardStep route).1 = false ->
         someRejects (RouterNg.deactivationStep st1 route ar).1 = false ->
         is_Some (RouterNg.resolveStep route ar).1 ->
         RouterNg.redirectTarget route = None ->
         RouterNg.loaderFails route = true ->
         r.1.1 = Settled
         /\ List.filter isDispatch r.2 = [DispatchRouteChange path ps query]))
  /\ (forall cfg st path pathname ps query cur route,
     Router2.parsePath st path = Some (pathname, ps, query) ->
     Router2.findMatchingRoute (Router2.routes cfg) pathname ps
     = (Some route, cur) ->
     let ar := mkActivatedRoute cur query pathname (Router2.r_data route) in
     let r := Router2.handleRouting cfg st path in
     ps = Router2.currentParams st
     /\ r.1.2 = Router2.mkState cur pathname query
     /\ (someRejects (Router2.activationStep route ar).1 = false ->
         is_Some (Router2.resolveStep route ar).1 ->
         Router2.redirectTarget route = None ->
         Router2.loaderFails route = true ->
         r.1.1 = Settled
         /\ List.filter isDispatch r.2
            = [DispatchRouteChange path (Router2.currentParams st) query])).
Proof.
  split.
  - intros cfg st path pathname ps query route Hparse Hfind ar st1 r. split.
    + exact (ng_state_written cfg st path pathname ps query route Hparse Hfind).
    + intros Ha Hl Hd [d Hr] Ht _.
      assert (Hs : r.1.1 = Settled).
      { subst r.
        rewrite (ng_handleRouting_matched cfg st path pathname ps query route
                   Hparse Hfind).
        fold ar st1. by rewrite Ha, Hl, Hd, Hr, Ht. }
      split; [exact Hs|].
      exact (ng_settled cfg st path pathname ps query route Hparse Hfind Hs).
  - intros cfg st path pathname ps query cur route Hparse Hfind ar r.
    assert (Hps : ps = Router2.currentParams st).
    { unfold Router2.parsePath in Hparse.
      destruct (parseQuery _); [by injection Hparse as _ <- _|done]. }
    split; [exact Hps|]. split.
    + exact (r2_state_written cfg st path pathname ps query cur route
               Hparse Hfind).
    + intros Ha [d Hr] Ht _.
      assert (Hs : r.1.1 = Settled).
      { subst r.
        rewrite (r2_handleRouting_matched cfg st path pathname ps query cur
                   route Hparse Hfind).
        fold ar. by rewrite Ha, Hr, Ht. }
      split; [exact Hs|]. rewrite <- Hps.
      exact (r2_settled cfg st path pathname ps query cur route Hparse Hfind
               Hs).
Qed.

Lemma load_failure_state_and_event_witness :
  (RouterNg.handleRouting (RouterNg.mkConfig [Samples.failingB] true)
     Samples.atA "/b?x=1").1.1 = Settled
  /\ List.filter isDispatch
       (RouterNg.handleRouting (RouterNg.mkConfig [Samples.failingB] true)
          Samples.atA "/b?x=1").2
     = [DispatchRouteChange "/b?x=1" ∅ (<["x" := "1"]> ∅)].
Proof.
  apply (proj2 (proj1 load_failure_state_and_event
                  (RouterNg.mkConfig [Samples.failingB] true) Samples.atA
                  "/b?x=1" "/b" ∅ (<["x" := "1"]> ∅) Samples.failingB
                  eq_refl eq_refl));
    try reflexivity.
  by eexists.
Defined.

(** C3 as stated fails: the controller is at [/a]; the loader of [/b]
    fails, or its resolver does, and the controller is at [/b], in both
    routers. *)
Lemma load_failure_overwrites_state :
  RouterNg.currentPath Samples.atA = "/a"
  /\ RouterNg.loaderFails Samples.failingB = true
  /\ (RouterNg.handleRouting (RouterNg.mkConfig [Samples.failingB] true)
        Samples.atA "/b").1
     = (Settled, RouterNg.mkState ∅ "/b" ∅ (Some "AComponent") None)
  /\ (RouterNg.handleRouting (RouterNg.mkConfig [Samples.unresolvedB] true)
        Samples.atA "/b").1
     = (Rejected, RouterNg.mkState ∅ "/b" ∅ (Some "AComponent") None)
  /\ Router2.currentPath Samples.atA2 = "/a"
  /\ (Router2.handleRouting (Router2.mkConfig [Samples.failingB2] true)
        Samples.atA2 "/b").1
     = (Settled, Router2.mkState ∅ "/b" ∅).
Proof. repeat split; vm_compute; reflexivity. Qed.

(** ** C9: deactivation guards *)

(** C9, as amended.  When a view is mounted, the matched route declares
    deactivation guards and no activation or load guard rejects, each
    deactivation guard is called with the snapshot of the attempted
    navigation (the pathname, parameters and query of the attempted path and
    the data of the matched route), and a rejection gives [Blocked]. *)
Theorem deactivation_guards_see_candidate
    (cfg : RouterNg.Config) (st : RouterNg.State) (path pathname : string)
    (ps query : gmap string string) (route : RouterNg.Route)
    (c : Component) (gs : list CanDeactivate)
    (Hparse : RouterNg.parsePath cfg path = Some (pathname, ps, query))
    (Hfind : RouterNg.findMatchingRoute (RouterNg.routes cfg) pathname
             = Some route)
    (Hmounted : RouterNg.currentComponentRef st = Some c)
    (Hdeclared : RouterNg.r_canDeactivate route = Some gs)
    (Hactivate :
       someRejects
         (RouterNg.activationStep route
            (mkActivatedRoute ps query pathname (RouterNg.r_data route))).1
       = false)
    (Hload : someRejects (RouterNg.loadGuardStep route).1 = false) :
  let ar := mkActivatedRoute ps query pathname (RouterNg.r_data route) in
  let calls := List.map (fun g => CallCanDeactivate (cd_name g) ar) gs in
  let r := RouterNg.handleRouting cfg st path in
  (exists rest,
     r.2 = (RouterNg.activationStep route ar).2
           ++ (RouterNg.loadGuardStep route).2 ++ calls ++ rest)
  /\ (someRejects (List.map (fun g => canDeactivate g ar) gs) = true ->
      r = (Blocked,
           RouterNg.mkState ps pathname query (Some c)
             (RouterNg.currentModuleRef st),
           (RouterNg.activationStep route ar).2
           ++ (RouterNg.loadGuardStep route).2 ++ calls)).
Proof.
  intros ar calls r.
  pose proof (ng_deactivation cfg st path pathname ps query route
                Hparse Hfind c gs Hmounted Hdeclared Hactivate Hload) as H.
  cbv zeta in H. rewrite Hmounted in H. exact H.
Qed.

Lemma deactivation_guards_see_candidate_witness :
  RouterNg.handleRouting (RouterNg.mkConfig [Samples.leavingB] true)
    Samples.atA "/b"
  = (Blocked,
     RouterNg.mkState ∅ "/b" ∅ (Some "AComponent") None,
     [CallCanDeactivate "leaveA" (mkActivatedRoute ∅ ∅ "/b" None)]).
Proof.
  apply (proj2 (deactivation_guards_see_candidate
                  (RouterNg.mkConfig [Samples.leavingB] true) Samples.atA
                  "/b" "/b" ∅ ∅ Samples.leavingB "AComponent" [Samples.leaveA]
                  eq_refl eq_refl eq_refl eq_refl eq_refl eq_refl)).
  reflexivity.
Defined.

(** C9 as stated fails: the controller is at [/a] with a view mounted; the
    deactivation guard of [/b], which accepts the route [/a], is called with
    the path [/b] and rejects. *)
Lemma deactivation_guard_not_on_previous :
  RouterNg.currentPath Samples.atA = "/a"
  /\ canDeactivate Samples.leaveA
       (mkActivatedRoute (RouterNg.currentParams Samples.atA)
          (RouterNg.currentQuery Samples.atA)
          (RouterNg.currentPath Samples.atA) None) = true
  /\ RouterNg.handleRouting (RouterNg.mkConfig [Samples.leavingB] true)
       Samples.atA "/b"
     = (Blocked,
        RouterNg.mkState ∅ "/b" ∅ (Some "AComponent") None,
        [CallCanDeactivate "leaveA" (mkActivatedRoute ∅ ∅ "/b" None)]).
Proof. repeat split; vm_compute; reflexivity. Qed.

(** ** C6: the target of a redirect *)

Lemma append_cons (c : ascii) (a b : string) :
  String c a +:+ b = String c (a +:+ b).
Proof. reflexivity. Qed.

Lemma append_empty_l (s : string) : "" +:+ s = s.
Proof. reflexivity. Qed.

Lemma append_empty_r (s : string) : s +:+ "" = s.
Proof.
  induction s as [|c s IH]; [done|]. by rewrite append_cons, IH.
Qed.

Lemma append_assoc' (a b c : string) : (a +:+ b) +:+ c = a +:+ (b +:+ c).
Proof.
  induction a as [|x a IH]; [done|]. by rewrite !append_cons, IH.
Qed.

(** Inside a placeholder: the rest of the name is read, then the
    placeholder is replaced. *)
Lemma substitute_name (ps : gmap string string) (name post acc : string) :
  RouterNg.allWord name = true ->
  RouterNg.startsWithWord post = false ->
  RouterNg.substitute ps (Some acc) (name +:+ post)
  = RouterNg.placeholder ps (acc +:+ name) +:+ RouterNg.substitute ps None post.
Proof.
  revert acc. induction name as [|c name IH]; intros acc Hname Hpost.
  - rewrite append_empty_r, append_empty_l.
    destruct post as [|d post]; [by rewrite append_empty_r|].
    simpl in Hpost. cbn [RouterNg.substitute]. by rewrite Hpost.
  - simpl in Hname. apply andb_true_iff in Hname as [Hc Hname].
    rewrite append_cons. cbn [RouterNg.substitute].
    rewrite Hc, (IH _ Hname Hpost), append_assoc'. done.
Qed.

(** A placeholder [:name] after a text without colon. *)
Lemma handleRedirect_placeholder (ps : gmap string string)
    (pre name post : string) :
  RouterNg.noColon pre = true ->
  RouterNg.startsWithWord name = true ->
  RouterNg.allWord name = true ->
  RouterNg.startsWithWord post = false ->
  RouterNg.handleRedirect (pre +:+ ":" +:+ name +:+ post) ps
  = pre +:+ RouterNg.placeholder ps name +:+ RouterNg.handleRedirect post ps.
Proof.
  unfold RouterNg.handleRedirect. intros Hpre Hstart Hname Hpost.
  change (":" +:+ name +:+ post) with (String ":" (name +:+ post)).
  induction pre as [|d pre IH].
  - rewrite !append_empty_l. cbn [RouterNg.substitute].
    assert (Hs : RouterNg.startsWithWord (name +:+ post) = true)
      by (destruct name; [discriminate|exact Hstart]).
    rewrite Hs. rewrite Ascii.eqb_refl. cbn [andb].
    by rewrite substitute_name.
  - simpl in Hpre. apply andb_true_iff in Hpre as [Hd Hpre].
    rewrite !(append_cons d).
    cbn [RouterNg.substitute]. apply negb_true_iff in Hd. rewrite Hd.
    cbn [andb]. by rewrite (IH Hpre).
Qed.

(** A text without colon is left as it is. *)
Lemma handleRedirect_plain (ps : gmap string string) (s : string) :
  RouterNg.noColon s = true -> RouterNg.handleRedirect s ps = s.
Proof.
  unfold RouterNg.handleRedirect. induction s as [|d s IH]; [done|].
  simpl. intros H. apply andb_true_iff in H as [Hd H].
  apply negb_true_iff in Hd. rewrite Hd. simpl. by rewrite IH.
Qed.

(** A character that does not start a placeholder is kept. *)
Lemma handleRedirect_char (ps : gmap string string) (c : ascii) (r : string) :
  Ascii.eqb c ":" && RouterNg.startsWithWord r = false ->
  RouterNg.handleRedirect (String c r) ps
  = String c (RouterNg.handleRedirect r ps).
Proof.
  unfold RouterNg.handleRedirect. cbn [RouterNg.substitute]. by intros ->.
Qed.

(** A text is a run of word characters followed by a text that does not
    start with one. *)
Lemma word_prefix (r : string) :
  exists name post,
    r = name +:+ post
    /\ RouterNg.allWord name = true /\ RouterNg.startsWithWord post = false.
Proof.
  induction r as [|c r (name & post & -> & Hn & Hp)].
  - by exists "", "".
  - destruct (RouterNg.wordChar c) eqn:Hc.
    + exists (String c name), post. rewrite append_cons. simpl.
      by rewrite Hc, Hn.
    + exists "", (String c (name +:+ post)). by rewrite append_empty_l.
Qed.

(** Every target is empty, starts with a character that does not start a
    placeholder, or starts with a placeholder. *)
Lemma target_shape (s : string) :
  s = ""
  \/ (exists c r,
        s = String c r
        /\ Ascii.eqb c ":" && RouterNg.startsWithWord r = false)
  \/ (exists name post,
        s = ":" +:+ name +:+ post
        /\ RouterNg.startsWithWord name = true
        /\ RouterNg.allWord name = true
        /\ RouterNg.startsWithWord post = false).
Proof.
  destruct s as [|c r]; [by left|]. right.
  destruct (Ascii.eqb c ":" && RouterNg.startsWithWord r) eqn:E;
    [|left; by exists c, r].
  right. apply andb_true_iff in E as [Ec Er].
  apply Ascii.eqb_eq in Ec as ->.
  destruct (word_prefix r) as (name & post & -> & Hn & Hp).
  exists name, post. split; [done|]. split; [|done].
  destruct name as [|d name]; [|exact Er].
  rewrite append_empty_l in Er. congruence.
Qed.

(** C6, as amended.  In the Angular router of [router.ts], when the matched
    route has [redirectTo] set, no guard rejects and every resolver
    succeeds, navigation re-enters [navigate] with [replace = true] on the
    target [_handleRedirect] gives.  That target is read off the text of
    [redirectTo] from left to right, and every text is covered: a
    placeholder is a [:] with the longest run of word characters after it;
    it is replaced by the matched parameter of that name when that is a
    non-empty string and left as it is when there is no such parameter and
    the name is not one every object inherits; every other character,
    also a [:] that no word character follows, is kept.  So the route
    [/old/:id] with [redirectTo] [/new/:id], navigated to [/old/7], next
    navigates to [/new/7].  In [router2.ts], under the same conditions,
    navigation re-enters [navigate] with [replace = true] on [redirectTo]
    as it is written. *)
Theorem redirect_substitution :
  (forall cfg st path pathname ps query route target fuel,
     RouterNg.parsePath cfg path = Some (pathname, ps, query) ->
     RouterNg.findMatchingRoute (RouterNg.routes cfg) pathname = Some route ->
     RouterNg.redirectTarget route = Some target ->
     let ar := mkActivatedRoute ps query pathname (RouterNg.r_data route) in
     let st1 := RouterNg.mkState ps pathname query
                  (RouterNg.currentComponentRef st)
                  (RouterNg.currentModuleRef st) in
     let act := RouterNg.activationStep route ar in
     let lod := RouterNg.loadGuardStep route in
     let dea := RouterNg.deactivationStep st1 route ar in
     let res := RouterNg.resolveStep route ar in
     someRejects act.1 = false -> someRejects lod.1 = false ->
     someRejects dea.1 = false -> is_Some res.1 ->
     RouterNg.routing (S fuel) cfg st path =
     match RouterNg.navigate fuel cfg st1
             (RouterNg.handleRedirect target ps) true with
     | Some (out, st', tr) =>
         Some (out, st', act.2 ++ lod.2 ++ dea.2 ++ res.2 ++ tr)
     | None => None
     end)
  /\ (forall cfg st path pathname ps query cur route target fuel,
     Router2.parsePath st path = Some (pathname, ps, query) ->
     Router2.findMatchingRoute (Router2.routes cfg) pathname ps
     = (Some route, cur) ->
     Router2.redirectTarget route = Some target ->
     let ar := mkActivatedRoute cur query pathname (Router2.r_data route) in
     let act := Router2.activationStep route ar in
     let res := Router2.resolveStep route ar in
     someRejects act.1 = false -> is_Some res.1 ->
     Router2.routing (S fuel) cfg st path =
     match Router2.navigate fuel cfg (Router2.mkState cur pathname query)
             target true with
     | Some (out, st', tr) => Some (out, st', act.2 ++ res.2 ++ tr)
     | None => None
     end)
  /\ (forall ps, RouterNg.handleRedirect "" ps = "")
  /\ (forall ps c r,
     Ascii.eqb c ":" && RouterNg.startsWithWord r = false ->
     RouterNg.handleRedirect (String c r) ps
     = String c (RouterNg.handleRedirect r ps))
  /\ (forall ps name post,
     RouterNg.startsWithWord name = true ->
     RouterNg.allWord name = true ->
     RouterNg.startsWithWord post = false ->
     (ps !! name = None -> Js.inherited name = None) ->
     RouterNg.handleRedirect (":" +:+ name +:+ post) ps
     = match ps !! name with
       | Some v => if Js.truthy v then v else ":" +:+ name
       | None => ":" +:+ name
       end
       +:+ RouterNg.handleRedirect post ps)
  /\ (forall target,
     target = ""
     \/ (exists c r,
           target = String c r
           /\ Ascii.eqb c ":" && RouterNg.startsWithWord r = false)
     \/ (exists name post,
           target = ":" +:+ name +:+ post
           /\ RouterNg.startsWithWord name = true
           /\ RouterNg.allWord name = true
           /\ RouterNg.startsWithWord post = false))
  /\ RouterNg.navigate 2 Samples.oldNewConfig RouterNg.initialState
       "/old/7" false
     = Some (Settled,
             RouterNg.mkState (<["id" := "7"]> ∅) "/new/7" ∅ None None,
             [HistoryState false "/old/7"; HistoryState true "/new/7";
              DispatchRouteChange "/new/7" (<["id" := "7"]> ∅) ∅]).
Proof.
  split; [|split; [|split; [done|split; [exact handleRedirect_char|
           split; [|split; [exact target_shape|]]]]]].
  - intros cfg st path pathname ps query route target fuel Hparse Hfind Ht
      ar st1 act lod dea res Ha Hl Hd Hr.
    destruct (ng_redirect_after_guards cfg st path pathname ps query route
                Hparse Hfind target Ht) as (_ & _ & _ & _ & H).
    specialize (H Ha Hl Hd Hr). cbn [RouterNg.routing]. rewrite H.
    unfold RouterNg.navigate. fold st1 act lod dea res.
    destruct (RouterNg.routing fuel cfg st1 _) as [[[out st'] tr]|]; [|done].
    by rewrite <- !app_assoc.
  - intros cfg st path pathname ps query cur route target fuel Hparse Hfind
      Ht ar act res Ha Hr.
    destruct (r2_redirect_after_guards cfg st path pathname ps query cur
                route Hparse Hfind target Ht) as (_ & _ & _ & H).
    specialize (H Ha Hr). cbn [Router2.routing]. rewrite H.
    unfold Router2.navigate. fold ar act res.
    destruct (Router2.routing fuel cfg _ target) as [[[out st'] tr]|];
      [|done].
    by rewrite <- !app_assoc.
  - intros ps name post Hs Hn Hp Hi.
    pose proof (handleRedirect_placeholder ps "" name post eq_refl Hs Hn Hp)
      as H.
    rewrite !append_empty_l in H. rewrite H. unfold RouterNg.placeholder.
    destruct (ps !! name); [done|]. by rewrite Hi.
  - vm_compute. reflexivity.
Qed.

Lemma redirect_substitution_witness :
  RouterNg.routing 2 (Samples.oldConfig (Some [Samples.accept "auth"]))
    RouterNg.initialState "/old/7"
  = match
      RouterNg.navigate 1 (Samples.oldConfig (Some [Samples.accept "auth"]))
        (RouterNg.mkState (<["id" := "7"]> ∅) "/old/7" ∅ None None)
        "/new/7" true
    with
    | Some (out, st', tr) =>
        Some (out, st',
              [CallCanActivate "auth"
                 (mkActivatedRoute (<["id" := "7"]> ∅) ∅ "/old/7" None)]
              ++ tr)
    | None => None
    end.
Proof.
  apply (proj1 redirect_substitution
           (Samples.oldConfig (Some [Samples.accept "auth"]))
           RouterNg.initialState "/old/7" "/old/7" (<["id" := "7"]> ∅) ∅
           (Samples.oldRoute (Some [Samples.accept "auth"])) "/new/:id" 1
           eq_refl eq_refl eq_refl eq_refl eq_refl eq_refl).
  by eexists.
Defined.

(** C6 as stated fails: in [router.ts] the rejecting guard of [/old/:id]
    blocks the attempt, and nothing navigates to [/new/7]; in [router2.ts]
    the target is [redirectTo] as it is written, [/new/:id]. *)
Lemma redirect_blocked_or_verbatim :
  RouterNg.navigate 2 (Samples.oldConfig (Some [Samples.reject "auth"]))
    RouterNg.initialState "/old/7" false
  = Some (Blocked,
          RouterNg.mkState (<["id" := "7"]> ∅) "/old/7" ∅ None None,
          [HistoryState false "/old/7";
           CallCanActivate "auth"
             (mkActivatedRoute (<["id" := "7"]> ∅) ∅ "/old/7" None)])
  /\ Router2.handleRouting (Samples.oldConfig2 None) Router2.initialState
       "/old/7"
     = (Redirect "/new/:id", Router2.mkState (<["id" := "7"]> ∅) "/old/7" ∅, [])
  /\ Router2.navigate 2 (Samples.oldConfig2 None) Router2.initialState
       "/old/7" false
     = Some (Settled, Router2.mkState (<["id" := "7"]> ∅) "/new/:id" ∅,
             [HistoryState false "/old/7"; HistoryState true "/new/:id";
              SetInnerHTML "<h1>404 - Page Not Found</h1>";
              DispatchRouteChange "/new/:id" (<["id" := "7"]> ∅) ∅]).
Proof. repeat split; vm_compute; reflexivity. Qed.

(** ** [_extractRouteParams] terminates: the depth of the route is enough fuel *)

Lemma height_eq (route : RouterNg.Route) :
  RouterNg.height route =
  match RouterNg.children route with
  | Some cs =>
      S (List.fold_right (fun c acc => Nat.max (RouterNg.height c) acc) 0 cs)
  | None => 0
  end.
Proof. destruct route; reflexivity. Qed.

Lemma height_child (cs : list RouterNg.Route) (c : RouterNg.Route) :
  In c cs ->
  RouterNg.height c
  <= List.fold_right (fun c acc => Nat.max (RouterNg.height c) acc) 0 cs.
Proof.
  induction cs as [|d cs IH]; simpl; [done|].
  intros [->|H]; [lia|]. specialize (IH H). lia.
Qed.

Lemma findMatchingRoute_In (cs : list RouterNg.Route) (p : string)
    (c : RouterNg.Route) :
  RouterNg.findMatchingRoute cs p = Some c -> In c cs.
Proof.
  rewrite findMatchingRoute_first.
  destruct (List.find (RouterNg.matches p) cs) as [r|] eqn:E.
  - intros [= <-]. by apply List.find_some in E as [? _].
  - intros H. by apply List.find_some in H as [? _].
Qed.

Lemma extractRouteParamsFuel_eq (fuel : nat) (route : RouterNg.Route)
    (pathname : string) (ps : gmap string string) :
  RouterNg.extractRouteParamsFuel fuel route pathname ps =
  let routeSegments := RouterNg.segments (RouterNg.r_path route) in
  let pathSegments := RouterNg.segments pathname in
  let ps1 := RouterNg.bindSegments routeSegments pathSegments ps in
  match RouterNg.children route with
  | Some cs =>
      let remainingPath :=
        Js.join (List.skipn (List.length routeSegments) pathSegments) in
      match RouterNg.findMatchingRoute cs remainingPath with
      | Some childRoute =>
          match fuel with
          | S fuel' =>
              RouterNg.extractRouteParamsFuel fuel' childRoute remainingPath ps1
          | O => ps1
          end
      | None => ps1
      end
  | None => ps1
  end.
Proof. destruct fuel; reflexivity. Qed.

Lemma extractRouteParamsFuel_stable (n : nat) :
  forall (m : nat) (route : RouterNg.Route) (pathname : string)
         (ps : gmap string string),
    RouterNg.height route <= n -> RouterNg.height route <= m ->
    RouterNg.extractRouteParamsFuel n route pathname ps
    = RouterNg.extractRouteParamsFuel m route pathname ps.
Proof.
  induction n as [|n IH]; intros m route pathname ps Hn Hm;
    rewrite (extractRouteParamsFuel_eq _ route),
            (extractRouteParamsFuel_eq m route);
    rewrite height_eq in Hn, Hm; cbv zeta;
    destruct (RouterNg.children route) as [cs|]; try done.
  - lia.
  - destruct (RouterNg.findMatchingRoute cs _) as [c|] eqn:E; [|done].
    apply findMatchingRoute_In, height_child in E.
    destruct m as [|m]; [lia|]. apply IH; lia.
Qed.

(** More fuel than the depth of the route changes nothing. *)
Lemma extractRouteParams_fuel (fuel : nat) (route : RouterNg.Route)
    (pathname : string) (ps : gmap string string) :
  RouterNg.height route <= fuel ->
  RouterNg.extractRouteParamsFuel fuel route pathname ps
  = RouterNg.extractRouteParams route pathname ps.
Proof.
  intros H. unfold RouterNg.extractRouteParams.
  by apply extractRouteParamsFuel_stable.
Qed.

(** * Further properties of the code *)

(** ** Texts without a given character *)

Lemma lacks_split (c sep : ascii) (s : string) :
  Text.lacks c s = true -> Forall (fun t => Text.lacks c t = true) (Js.split sep s).
Proof.
  induction s as [|d r IH]; simpl; intros H.
  - by repeat constructor.
  - apply andb_true_iff in H as [Hd Hr]. specialize (IH Hr).
    destruct (Ascii.eqb d sep).
    + by constructor.
    + destruct (Js.split sep r) as [|h t]; [by repeat constructor; simpl; rewrite Hd|].
      inversion IH; subst. constructor; [|done]. simpl. by rewrite Hd.
Qed.

Lemma lacks_cut (c sep : ascii) (s : string) :
  Text.lacks c s = true ->
  Text.lacks c (Spec.cut sep s).1 = true
  /\ Text.lacks c (default "" (Spec.cut sep s).2) = true.
Proof.
  induction s as [|d r IH]; simpl; intros H; [done|].
  apply andb_true_iff in H as [Hd Hr]. specialize (IH Hr).
  destruct (Ascii.eqb d sep); [done|].
  destruct (Spec.cut sep r) as [a b]. simpl in *. by rewrite Hd.
Qed.

Lemma split_lacks_separator (sep : ascii) (s : string) :
  Forall (fun t => Text.lacks sep t = true) (Js.split sep s).
Proof.
  induction s as [|d r IH]; simpl; [by repeat constructor|].
  destruct (Ascii.eqb d sep) eqn:E; [by constructor|].
  destruct (Js.split sep r) as [|h t]; [by repeat constructor; simpl; rewrite E|].
  inversion IH; subst. constructor; [|done]. simpl. by rewrite E.
Qed.

(** Without [%] there is nothing to decode. *)
Lemma decodeLoop_percent_free (fuel : nat) (s : string) :
  String.length s <= fuel -> Text.lacks "%" s = true ->
  Js.decodeLoop fuel s = Some s.
Proof.
  revert s. induction fuel as [|fuel IH]; intros s Hlen H.
  - destruct s; [done|simpl in Hlen; lia].
  - destruct s as [|c r]; [done|].
    simpl in H, Hlen. apply andb_true_iff in H as [Hc Hr].
    apply negb_true_iff in Hc. cbn [Js.decodeLoop]. rewrite Hc.
    rewrite IH; [done|lia|done].
Qed.

Lemma decodeAll_percent_free (es : list (string * string)) :
  Forall (fun kv => Text.lacks "%" kv.2 = true) es -> Spec.decodeAll es = Some es.
Proof.
  induction 1 as [|[k v] es Hv _ IH]; [done|].
  simpl in *. unfold Js.decodeURIComponent.
  rewrite decodeLoop_percent_free; [|lia|done]. by rewrite IH.
Qed.

Lemma entries_percent_free (tokens : list string) :
  Forall (fun t => Text.lacks "%" t = true) tokens ->
  Forall (fun kv => Text.lacks "%" kv.2 = true)
    (Spec.entries (Spec.upTo "=") tokens).
Proof.
  induction 1 as [|t ts Ht _ IH]; [by constructor|].
  simpl. unfold Spec.keyValue.
  destruct (lacks_cut "%" "=" t Ht) as [_ Hrest].
  destruct (Spec.cut "=" t) as [key rest]. simpl in Hrest.
  destruct (Js.truthy key); [|done].
  constructor; [|done]. simpl. unfold Spec.upTo.
  by apply lacks_cut.
Qed.

(** ** The query parser on paths without escapes *)

(** A raw path without [%], none of whose query keys is [__proto__], never
    makes [_parsePath] throw, in [router2.ts] and in the Angular router of
    [router.ts] (there for a route table whose paths are in the fragment of
    patterns modelled here), and every value of the query is the text as
    written: the text between the first and the second [=] of its token. *)
Theorem parsePath_percent_free
    (st : Router2.State) (cfg : RouterNg.Config) (path : string)
    (Hfree : Text.lacks "%" path = true)
    (Hkeys : Spec.ordinaryKeys path = true)
    (Hplain : RouterNg.plainRoutes (RouterNg.routes cfg) = true) :
  let query :=
    Spec.insertAll (Spec.entries (Spec.upTo "=") (Spec.tokens path)) ∅ in
  Spec.pathnameAndQuery (Router2.parsePath st path)
  = Some (Spec.upTo "?" path, query)
  /\ Spec.pathnameAndQuery (RouterNg.parsePath cfg path)
     = Some (Spec.upTo "?" path, query).
Proof.
  assert (Hd : Spec.decodeAll
                 (Spec.entries (Spec.upTo "=") (Spec.tokens path))
               = Some (Spec.entries (Spec.upTo "=") (Spec.tokens path))).
  { apply decodeAll_percent_free, entries_percent_free, lacks_split.
    unfold Spec.upTo. apply lacks_cut. by apply lacks_cut. }
  unfold Router2.parsePath, RouterNg.parsePath.
  rewrite (parseQuery_truncating _ Hkeys), item0_split, Hd. done.
Qed.

Lemma parsePath_percent_free_witness :
  Spec.pathnameAndQuery (Router2.parsePath Router2.initialState "/p?a=1&b")
  = Some ("/p", <["b" := ""]> (<["a" := "1"]> ∅))
  /\ Spec.pathnameAndQuery
       (RouterNg.parsePath Samples.oldNewConfig "/p?a=1&b")
     = Some ("/p", <["b" := ""]> (<["a" := "1"]> ∅)).
Proof.
  exact (parsePath_percent_free Router2.initialState Samples.oldNewConfig
           "/p?a=1&b" eq_refl eq_refl eq_refl).
Defined.

(** ** The segment matcher: which route is returned *)

(** The matcher of [router2.ts] finds a route exactly when some route of the
    list it is given is equal to the pathname, is [*], or matches it segment
    by segment: the children of a route cannot make it match. *)
Theorem findMatchingRoute_some_iff_hit
    (rs : list Router2.Route) (p : string) (cur : gmap string string) :
  is_Some (Router2.findMatchingRoute rs p cur).1
  <-> List.existsb (Router2.hits p) rs = true.
Proof.
  unfold Router2.findMatchingRoute.
  induction rs as [|r rs IH]; simpl.
  - split; [by intros [? ?]|done].
  - pose proof (tryRoute_hits p r cur) as H.
    destruct (Router2.tryRoute p r cur) as [[[c|] cur']|].
    + rewrite H. simpl. split; [done|by eexists].
    + done.
    + rewrite H. simpl. exact IH.
Qed.

Lemma forRoutes_returnsOnly (p : string) (Q : Router2.Route -> Prop)
    (rs : list Router2.Route) :
  Forall (Text.returnsOnly p Q) rs ->
  forall cur r, (Router2.findMatchingRoute rs p cur).1 = Some r -> Q r.
Proof.
  unfold Router2.findMatchingRoute.
  induction 1 as [|x rs Hx _ IH]; intros cur r; simpl; [done|].
  destruct (Router2.tryRoute p x cur) as [res|] eqn:E; [|by apply IH].
  intros Hr. exact (Hx cur res r E Hr).
Qed.

Lemma tryRoute_returns_hit (p : string) (route : Router2.Route) :
  Text.returnsOnly p (fun r => Router2.hits p r = true) route.
Proof.
  revert route. apply router2_route_ind. intros route IH cur res r.
  rewrite tryRoute_eq.
  destruct (String.eqb (Router2.r_path route) p) eqn:E1.
  { intros [= <-] [= <-]. unfold Router2.hits. by rewrite E1. }
  destruct (String.eqb (Router2.r_path route) "*") eqn:E2.
  { intros [= <-] [= <-]. unfold Router2.hits. by rewrite E1, E2. }
  destruct (Router2.segmentMatch p route) as [ps|] eqn:E3; [|done].
  assert (Hself : Router2.hits p route = true)
    by (unfold Router2.hits; by rewrite E1, E2, E3).
  destruct (Router2.children route) as [cs|].
  - simpl in IH.
    destruct (Router2.findMatchingRoute cs p ps) as [[c|] cur'] eqn:E4.
    + intros [= <-] [= <-].
      apply (forRoutes_returnsOnly p _ cs IH ps). by rewrite E4.
    + by intros [= <-] [= <-].
  - by intros [= <-] [= <-].
Qed.

(** The route the matcher of [router2.ts] returns, at whatever depth, is
    itself equal to the whole pathname, or [*], or matches the whole
    pathname segment by segment: a child route is tried against the same
    pathname as its parent, not against what the parent left over. *)
Theorem findMatchingRoute_returns_hit
    (rs : list Router2.Route) (p : string) (cur : gmap string string)
    (r : Router2.Route)
    (Hr : (Router2.findMatchingRoute rs p cur).1 = Some r) :
  Router2.hits p r = true.
Proof.
  apply (forRoutes_returnsOnly p (fun r => Router2.hits p r = true) rs)
    with (cur := cur); [|exact Hr].
  apply Forall_forall. intros x _. apply tryRoute_returns_hit.
Qed.

Lemma findMatchingRoute_returns_hit_witness :
  Router2.hits "/a/"
    (Samples.r2 "a") = true.
Proof.
  exact (findMatchingRoute_returns_hit
           [Samples.r2Children "/a" [Samples.r2 "a"]] "/a/" ∅
           (Samples.r2 "a") eq_refl).
Defined.

(** So the nesting of the example configuration of the source never
    matches: [/about/team] has two segments, [/about] and [team] one each. *)
Example about_team_not_found :
  (Router2.findMatchingRoute
     [Samples.r2Children "/about" [Samples.r2 "team"]] "/about/team" ∅).1
  = None.
Proof. reflexivity. Qed.

(** A wildcard route answers for every pathname that reaches it: the routes
    declared after it are never returned, and the list never fails to
    match. *)
Theorem findMatchingRoute_wildcard_shadows
    (pre post : list Router2.Route) (w : Router2.Route) (p : string)
    (cur : gmap string string)
    (Hw : Router2.r_path w = "*") :
  Router2.findMatchingRoute (pre ++ w :: post) p cur
  = Router2.findMatchingRoute (pre ++ [w]) p cur
  /\ is_Some (Router2.findMatchingRoute (pre ++ w :: post) p cur).1.
Proof.
  unfold Router2.findMatchingRoute.
  assert (Hwild : forall l,
            Router2.forRoutes (Router2.tryRoute p) (w :: l) cur
            = (Some w, cur)).
  { intros l. simpl. rewrite tryRoute_eq, Hw.
    destruct (String.eqb "*" p); [done|]. by rewrite String.eqb_refl. }
  induction pre as [|r pre IH]; simpl app.
  - rewrite !Hwild. split; [done|by eexists].
  - simpl. pose proof (tryRoute_hits p r cur) as H.
    destruct (Router2.tryRoute p r cur) as [[[c|] cur']|];
      [split; [done|by eexists] | done | exact IH].
Qed.

Lemma findMatchingRoute_wildcard_shadows_witness :
  Router2.findMatchingRoute
    [Samples.r2 "/a"; Samples.r2 "*"; Samples.r2 "/b"] "/b" ∅
  = Router2.findMatchingRoute [Samples.r2 "/a"; Samples.r2 "*"] "/b" ∅
  /\ is_Some
       (Router2.findMatchingRoute
          [Samples.r2 "/a"; Samples.r2 "*"; Samples.r2 "/b"] "/b" ∅).1.
Proof.
  exact (findMatchingRoute_wildcard_shadows [Samples.r2 "/a"]
           [Samples.r2 "/b"] (Samples.r2 "*") "/b" ∅ eq_refl).
Defined.

(** ** The segment matcher: when the segments match and what is bound *)

Lemma matchSegments_some (rs qs : list string) (acc : gmap string string) :
  List.length rs = List.length qs ->
  is_Some (Router2.matchSegments rs qs acc)
  <-> Forall2 (fun r q => Js.startsWithColon r = true \/ r = q) rs qs.
Proof.
  revert qs acc. induction rs as [|r rs IH]; intros [|q qs] acc Hlen;
    try discriminate.
  - split; [by constructor|by eexists].
  - injection Hlen as Hlen. simpl.
    destruct (Js.startsWithColon r) eqn:Ec.
    + rewrite (IH qs _ Hlen). split.
      * intros H. constructor; [by left|done].
      * by inversion 1.
    + destruct (String.eqb r q) eqn:Eq.
      * apply String.eqb_eq in Eq as ->. rewrite (IH qs _ Hlen). split.
        -- intros H. constructor; [by right|done].
        -- by inversion 1.
      * apply String.eqb_neq in Eq. split; [by intros [? ?]|].
        inversion 1 as [|? ? ? ? [H1|H1]]; subst; [congruence|done].
Qed.

(** A route matches a pathname segment by segment exactly when both have
    the same number of non-empty segments and each segment of the route
    either starts with a colon or is equal to the segment of the pathname at
    the same place. *)
Theorem segmentMatch_some_iff (p : string) (route : Router2.Route) :
  is_Some (Router2.segmentMatch p route)
  <-> Forall2 (fun r q => Js.startsWithColon r = true \/ r = q)
        (Router2.segments (Router2.r_path route)) (Router2.segments p).
Proof.
  unfold Router2.segmentMatch.
  destruct (Nat.eqb _ _) eqn:E; simpl.
  - apply Nat.eqb_eq in E. by apply matchSegments_some.
  - apply Nat.eqb_neq in E. split; [by intros [? ?]|].
    intros H. by apply Forall2_length in H.
Qed.

Lemma startsWithColon_slice1 (r : string) :
  Js.startsWithColon r = true -> r = ":" +:+ Js.slice1 r.
Proof.
  destruct r as [|c r]; [done|]. simpl. intros H.
  by apply Ascii.eqb_eq in H as ->.
Qed.

(** What an assignment can add to an object. *)
Lemma setProperty_lookup {V : Type} (k : string) (v : V) (o : gmap string V)
    (j : string) (w : V) :
  Js.setProperty k v o !! j = Some w ->
  (j = k /\ w = v) \/ o !! j = Some w.
Proof.
  unfold Js.setProperty. destruct (String.eqb k "__proto__"); [by right|].
  destruct (decide (k = j)) as [<-|Hne].
  - rewrite lookup_insert_eq. intros [= <-]. by left.
  - rewrite lookup_insert_ne by done. by right.
Qed.

Lemma matchSegments_bindings (rs qs : list string)
    (acc ps : gmap string string) (k v : string) :
  Router2.matchSegments rs qs acc = Some ps -> ps !! k = Some v ->
  acc !! k = Some v \/ In (":" +:+ k, v) (List.combine rs qs).
Proof.
  revert qs acc. induction rs as [|r rs IH]; intros qs acc.
  - simpl. intros [= <-] H. by left.
  - destruct qs as [|q qs]; [done|]. simpl.
    destruct (Js.startsWithColon r) eqn:Ec.
    + intros Hm Hk. destruct (IH _ _ Hm Hk) as [H|H]; [|by right; right].
      apply setProperty_lookup in H as [[-> ->]|H]; [|by left].
      right. left. by rewrite <- startsWithColon_slice1.
    + destruct (String.eqb r q); [|done].
      intros Hm Hk. destruct (IH _ _ Hm Hk) as [H|H]; [by left|by right; right].
Qed.

Lemma segments_truthy (s : string) :
  Forall (fun t => Js.truthy t = true) (Router2.segments s).
Proof.
  unfold Router2.segments, Js.filterBoolean. apply Forall_forall.
  intros t Ht. apply list_elem_of_In, List.filter_In in Ht. tauto.
Qed.

(** What a segment match binds: every parameter [k] with value [v] comes
    from a place where the route has the segment [:k] and the pathname has
    the segment [v]; in particular no parameter is bound to the empty
    string. *)
Theorem segmentMatch_bindings
    (p : string) (route : Router2.Route) (ps : gmap string string)
    (k v : string)
    (Hmatch : Router2.segmentMatch p route = Some ps)
    (Hbound : ps !! k = Some v) :
  In (":" +:+ k, v)
    (List.combine (Router2.segments (Router2.r_path route))
       (Router2.segments p))
  /\ Js.truthy v = true.
Proof.
  unfold Router2.segmentMatch in Hmatch.
  destruct (negb _); [done|].
  destruct (matchSegments_bindings _ _ _ _ k v Hmatch Hbound) as [H|H];
    [by rewrite lookup_empty in H|].
  split; [done|].
  apply List.in_combine_r in H.
  pose proof (segments_truthy p) as Ht.
  rewrite Forall_forall in Ht. apply Ht. by apply list_elem_of_In.
Qed.

Lemma segmentMatch_bindings_witness :
  In (":" +:+ "id", "42")
    (List.combine (Router2.segments "/users/:id") (Router2.segments "/users/42"))
  /\ Js.truthy "42" = true.
Proof.
  exact (segmentMatch_bindings "/users/42" (Samples.r2 "/users/:id")
           (<["id" := "42"]> ∅) "id" "42" eq_refl eq_refl).
Defined.

(** ** [_extractRouteParams]: the remaining path and the values bound *)

Lemma split_lacks (sep : ascii) (x : string) :
  Text.lacks sep x = true -> Js.split sep x = [x].
Proof.
  induction x as [|c x IH]; [done|]. simpl. intros H.
  apply andb_true_iff in H as [Hc Hx]. apply negb_true_iff in Hc.
  by rewrite Hc, (IH Hx).
Qed.

Lemma split_append (sep : ascii) (x rest : string) :
  Text.lacks sep x = true ->
  Js.split sep (x +:+ String sep rest) = x :: Js.split sep rest.
Proof.
  induction x as [|c x IH]; intros H.
  - rewrite append_empty_l. simpl. by rewrite Ascii.eqb_refl.
  - simpl in H. apply andb_true_iff in H as [Hc Hx]. apply negb_true_iff in Hc.
    rewrite append_cons. simpl. by rewrite Hc, (IH Hx).
Qed.

Lemma segments_join (xs : list string) :
  Forall (fun t => Js.truthy t = true /\ Text.lacks "/" t = true) xs ->
  RouterNg.segments (Js.join xs) = xs.
Proof.
  unfold RouterNg.segments, Js.filterBoolean.
  induction 1 as [|x xs [Ht Hl] Hxs IH]; [done|].
  destruct xs as [|y ys].
  - simpl. rewrite (split_lacks _ _ Hl). simpl. by rewrite Ht.
  - change (Js.join (x :: y :: ys)) with (x +:+ "/" +:+ Js.join (y :: ys)).
    change ("/" +:+ Js.join (y :: ys)) with (String "/" (Js.join (y :: ys))).
    rewrite (split_append _ _ _ Hl). cbn [List.filter]. by rewrite Ht, IH.
Qed.

Lemma segments_wellformed (s : string) :
  Forall (fun t => Js.truthy t = true /\ Text.lacks "/" t = true)
    (RouterNg.segments s).
Proof.
  unfold RouterNg.segments, Js.filterBoolean. apply Forall_forall.
  intros t Ht. apply list_elem_of_In, List.filter_In in Ht as [Hin Htr].
  split; [done|].
  pose proof (split_lacks_separator "/" s) as H. rewrite Forall_forall in H.
  apply H. by apply list_elem_of_In.
Qed.

(** The path [_extractRouteParams] hands to the children,
    [pathSegments.slice(n).join('/')], has exactly the segments that were
    cut off: splitting it again gives them back. *)
Theorem remainingPath_segments (pathname : string) (n : nat) :
  RouterNg.segments (Js.join (List.skipn n (RouterNg.segments pathname)))
  = List.skipn n (RouterNg.segments pathname).
Proof.
  apply segments_join.
  pose proof (segments_wellformed pathname) as H.
  rewrite Forall_forall in H |- *. intros t Ht. apply H.
  apply list_elem_of_In in Ht. apply list_elem_of_In.
  revert Ht. generalize (RouterNg.segments pathname). clear.
  induction n as [|n IH]; intros l; [done|].
  destruct l as [|x l]; [done|]. simpl. intros H. right. by apply IH.
Qed.

Lemma bindSegments_truthy (rs qs : list string) (acc : gmap string string) :
  Forall (fun t => Js.truthy t = true) qs -> Shape.allTruthy acc ->
  Shape.allTruthy (RouterNg.bindSegments rs qs acc).
Proof.
  revert qs acc. induction rs as [|r rs IH]; intros qs acc Hq Hacc; [done|].
  destruct qs as [|q qs]; [done|]. simpl.
  inversion Hq as [|? ? Hq1 Hq2]; subst. apply IH; [done|].
  destruct (Js.startsWithColon r); [|done].
  intros k v H. apply setProperty_lookup in H as [[-> ->]|H]; [done|].
  by apply (Hacc k).
Qed.

Lemma extractRouteParamsFuel_truthy (fuel : nat) :
  forall route pathname acc,
    Shape.allTruthy acc ->
    Shape.allTruthy (RouterNg.extractRouteParamsFuel fuel route pathname acc).
Proof.
  induction fuel as [|fuel IH]; intros route pathname acc Hacc;
    rewrite extractRouteParamsFuel_eq; cbv zeta;
    assert (H1 : Shape.allTruthy
                   (RouterNg.bindSegments
                      (RouterNg.segments (RouterNg.r_path route))
                      (RouterNg.segments pathname) acc))
      by (apply bindSegments_truthy; [|done];
          eapply Forall_impl; [apply segments_wellformed|by intros ? [? ?]]);
    destruct (RouterNg.children route) as [cs|]; try done;
    destruct (RouterNg.findMatchingRoute cs _) as [c|]; try done.
  by apply IH.
Qed.

(** The parameters [_parsePath] of the Angular router extracts are never
    empty strings, so [_handleRedirect] never falls back to the placeholder
    for a bound parameter: in a target, the placeholder of a bound parameter
    whose name is made of word characters is replaced by its value. *)
Theorem parsePath_params_substituted
    (cfg : RouterNg.Config) (path pathname : string)
    (ps query : gmap string string) (k v pre post : string)
    (Hparse : RouterNg.parsePath cfg path = Some (pathname, ps, query))
    (Hbound : ps !! k = Some v)
    (Hstart : RouterNg.startsWithWord k = true)
    (Hword : RouterNg.allWord k = true)
    (Hpre : RouterNg.noColon pre = true)
    (Hpost : RouterNg.startsWithWord post = false) :
  Js.truthy v = true
  /\ RouterNg.handleRedirect (pre +:+ ":" +:+ k +:+ post) ps
     = pre +:+ v +:+ RouterNg.handleRedirect post ps.
Proof.
  assert (Hps : Shape.allTruthy ps).
  { unfold RouterNg.parsePath in Hparse.
    destruct (parseQuery _); [|done]. injection Hparse as <- <- <-.
    destruct (RouterNg.findMatchingRoute _ _) as [route|];
      [|by intros ? ?; rewrite lookup_empty].
    apply extractRouteParamsFuel_truthy. by intros ? ?; rewrite lookup_empty. }
  pose proof (Hps k v Hbound) as Hv. split; [done|].
  rewrite (handleRedirect_placeholder ps pre k post Hpre Hstart Hword Hpost).
  unfold RouterNg.placeholder. by rewrite Hbound, Hv.
Qed.

Lemma parsePath_params_substituted_witness :
  Js.truthy "7" = true
  /\ RouterNg.handleRedirect ("/new/" +:+ ":" +:+ "id" +:+ "/edit")
       (<["id" := "7"]> ∅)
     = "/new/" +:+ "7" +:+ RouterNg.handleRedirect "/edit" (<["id" := "7"]> ∅).
Proof.
  exact (parsePath_params_substituted Samples.oldNewConfig "/old/7" "/old/7"
           (<["id" := "7"]> ∅) ∅ "id" "7" "/new/" "/edit"
           eq_refl eq_refl eq_refl eq_refl eq_refl eq_refl).
Defined.

(** ** [_handleRedirect] without usable parameters *)

Lemma length_append (a b : string) :
  String.length (a +:+ b) = String.length a + String.length b.
Proof.
  induction a as [|c a IH]; [done|]. rewrite append_cons. simpl. by rewrite IH.
Qed.

Lemma startsWith_append (a b : string) : Dom.startsWith a (a +:+ b) = true.
Proof.
  induction a as [|c a IH]; [done|]. rewrite append_cons. simpl.
  by rewrite Ascii.eqb_refl, IH.
Qed.

Lemma includes_suffix (sub a b : string) :
  Dom.includes sub (a +:+ b) = false -> Dom.includes sub b = false.
Proof.
  induction a as [|c a IH]; [done|]. rewrite append_cons.
  cbn [Dom.includes]. intros H. apply orb_false_iff in H as [_ H]. by apply IH.
Qed.

Lemma inheritedPlaceholder_suffix (a b : string) :
  Target.inheritedPlaceholder (a +:+ b) = false ->
  Target.inheritedPlaceholder b = false.
Proof.
  unfold Target.inheritedPlaceholder.
  induction Js.objectPrototype as [|n ns IH]; [done|]. simpl.
  intros H. apply orb_false_iff in H as [H1 H2].
  by rewrite (includes_suffix _ _ _ H1), (IH H2).
Qed.

Lemma inheritedPlaceholder_head (name post : string) :
  Target.inheritedPlaceholder (":" +:+ name +:+ post) = false ->
  Js.inherited name = None.
Proof.
  unfold Target.inheritedPlaceholder, Js.inherited.
  induction Js.objectPrototype as [|n ns IH]; [done|]. cbn [List.existsb].
  intros H. apply orb_false_iff in H as [H1 H2].
  destruct (String.eqb name n) eqn:E; [|by apply IH].
  apply String.eqb_eq in E as ->.
  change (":" +:+ n +:+ post) with ((":" +:+ n) +:+ post) in H1.
  assert (H : forall sub t,
            Dom.startsWith sub t = true -> Dom.includes sub t = true)
    by (intros sub [|c t] Hs; cbn [Dom.includes]; by rewrite Hs).
  rewrite (H _ _ (startsWith_append (":" +:+ n) post)) in H1. done.
Qed.

(** When no parameter has a non-empty value (in particular when the route
    bound none) and the target has no placeholder named after a member of
    [Object.prototype], [_handleRedirect] returns the target as it is
    written. *)
Theorem handleRedirect_unbound
    (target : string) (ps : gmap string string)
    (Hps : forall k v, ps !! k = Some v -> v = "")
    (Hnames : Target.inheritedPlaceholder target = false) :
  RouterNg.handleRedirect target ps = target.
Proof.
  assert (H : forall n s,
            String.length s <= n -> Target.inheritedPlaceholder s = false ->
            RouterNg.handleRedirect s ps = s).
  { clear target Hnames. induction n as [|n IH]; intros s Hlen Hs.
    - destruct s; [done|simpl in Hlen; lia].
    - destruct (target_shape s)
        as [->|[(c & r & -> & Hc)|(name & post & -> & Hst & Hw & Hp)]];
        [done| |].
      + rewrite (handleRedirect_char ps c r Hc). f_equal. apply IH.
        * simpl in Hlen. lia.
        * exact (inheritedPlaceholder_suffix (String c "") r Hs).
      + pose proof (handleRedirect_placeholder ps "" name post eq_refl
                      Hst Hw Hp) as E.
        rewrite !append_empty_l in E. rewrite E.
        assert (Hv : RouterNg.placeholder ps name = ":" +:+ name).
        { unfold RouterNg.placeholder.
          destruct (ps !! name) as [v|] eqn:Ev; [by rewrite (Hps _ _ Ev)|].
          by rewrite (inheritedPlaceholder_head name post Hs). }
        rewrite Hv, IH; [by rewrite append_assoc'| |].
        * change (":" +:+ name +:+ post) with (String ":" (name +:+ post))
            in Hlen.
          simpl in Hlen. rewrite length_append in Hlen. lia.
        * change (":" +:+ name +:+ post) with ((":" +:+ name) +:+ post) in Hs.
          exact (inheritedPlaceholder_suffix _ _ Hs). }
  exact (H _ _ (Nat.le_refl _) Hnames).
Qed.

Lemma handleRedirect_unbound_witness :
  RouterNg.handleRedirect "/new/:id?x=:y" ∅ = "/new/:id?x=:y".
Proof.
  apply handleRedirect_unbound; [|reflexivity].
  intros k v H. by rewrite lookup_empty in H.
Defined.

(** ** The regular-expression matcher on literal and parameter routes *)

Lemma replaceParams_step (c : ascii) (r : string) :
  (forall r1, r <> String ":" r1) ->
  RouterNg.replaceParams false (String c r)
  = RouterNg.Chr c :: RouterNg.replaceParams false r.
Proof.
  intros H. cbn [RouterNg.replaceParams]. cbn [andb].
  destruct r as [|c1 [|d r']]; [done|done|].
  destruct (Ascii.eqb c1 ":") eqn:E.
  - apply Ascii.eqb_eq in E as ->. by destruct (H (String d r')).
  - by rewrite andb_false_r.
Qed.

Lemma replaceParams_no_colon (q : string) :
  Text.lacks ":" q = true ->
  RouterNg.replaceParams false q
  = List.map RouterNg.Chr (list_ascii_of_string q).
Proof.
  induction q as [|c r IH]; [done|]. intros H. simpl in H.
  apply andb_true_iff in H as [_ Hr].
  rewrite replaceParams_step.
  - simpl. by rewrite (IH Hr).
  - intros r1 ->. cbn [Text.lacks] in Hr. by rewrite Ascii.eqb_refl in Hr.
Qed.

Lemma replaceStar_no_star (l : list ascii) :
  Text.lacks "*" (string_of_list_ascii l) = true ->
  List.map RouterNg.replaceStar (List.map RouterNg.Chr l)
  = List.map RouterNg.Lit l.
Proof.
  induction l as [|c l IH]; [done|]. simpl. intros H.
  apply andb_true_iff in H as [Hc Hl]. apply negb_true_iff in Hc.
  by rewrite Hc, (IH Hl).
Qed.

Lemma matchesAll_literals (l : list ascii) (ts : list RouterNg.Tok)
    (p : string) :
  RouterNg.matchesAll (List.map RouterNg.Lit l ++ ts) p = true
  <-> exists rest,
        p = string_of_list_ascii l +:+ rest
        /\ RouterNg.matchesAll ts rest = true.
Proof.
  revert p. induction l as [|c l IH]; intros p.
  - simpl. split; [by intros H; exists p|by intros (rest & -> & H)].
  - cbn [List.map app string_of_list_ascii RouterNg.matchesAll].
    destruct p as [|d p].
    + split; [done|]. intros (rest & H & _). by rewrite append_cons in H.
    + rewrite andb_true_iff, IH. split.
      * intros [Hc (rest & -> & H)]. apply Ascii.eqb_eq in Hc as ->.
        by exists rest.
      * intros (rest & Hp & H). rewrite append_cons in Hp.
        injection Hp as -> ->. split; [apply Ascii.eqb_refl|by exists rest].
Qed.

Lemma literal_matches (q p : string) :
  Text.lacks "*" q = true -> Text.lacks ":" q = true ->
  RouterNg.matchesAll (RouterNg.convertPathToRegex q) p = String.eqb q p.
Proof.
  intros Hstar Hcolon. unfold RouterNg.convertPathToRegex.
  rewrite (replaceParams_no_colon _ Hcolon), replaceStar_no_star
    by (by rewrite string_of_list_ascii_of_string).
  apply eq_true_iff_eq.
  rewrite <- (app_nil_r (List.map _ _)), matchesAll_literals,
    string_of_list_ascii_of_string, String.eqb_eq.
  split.
  - intros (rest & -> & H). simpl in H. destruct rest; [|done].
    by rewrite append_empty_r.
  - intros <-. exists "". by rewrite append_empty_r.
Qed.

(** In a table of [router.ts] whose paths are all literal, a pathname
    matches the first route whose path is equal to it, character for
    character, and no route otherwise. *)
Theorem findMatchingRoute_literal_table
    (rs : list RouterNg.Route) (p : string)
    (Hliteral : List.forallb Shape.literal rs = true) :
  RouterNg.findMatchingRoute rs p
  = List.find (fun r => String.eqb (RouterNg.r_path r) p) rs.
Proof.
  rewrite findMatchingRoute_first.
  induction rs as [|r rs IH]; [done|].
  simpl in Hliteral. apply andb_true_iff in Hliteral as [Hr Hrs].
  unfold Shape.literal in Hr.
  apply andb_true_iff in Hr as [Hr _]. apply andb_true_iff in Hr as [Hs Hc].
  cbn [List.find]. unfold RouterNg.matches at 1.
  rewrite (literal_matches _ p Hs Hc).
  destruct (String.eqb (RouterNg.r_path r) p); [done|].
  unfold RouterNg.isWildcard at 1.
  destruct (String.eqb (RouterNg.r_path r) "*") eqn:E.
  - apply String.eqb_eq in E. rewrite E in Hs. discriminate.
  - exact (IH Hrs).
Qed.

Lemma findMatchingRoute_literal_table_witness :
  RouterNg.findMatchingRoute [Samples.ng "/a"; Samples.ng "/a/b"] "/a/b"
  = Some (Samples.ng "/a/b").
Proof.
  exact (findMatchingRoute_literal_table
           [Samples.ng "/a"; Samples.ng "/a/b"] "/a/b" eq_refl).
Defined.

Lemma replaceParams_skip_name (s : string) :
  Text.lacks "/" s = true -> RouterNg.replaceParams true s = [].
Proof.
  induction s as [|c r IH]; [done|]. simpl. intros H.
  apply andb_true_iff in H as [Hc Hr]. by rewrite Hc, (IH Hr).
Qed.

Lemma replaceParams_trailing (lit name : string) :
  Text.lacks ":" lit = true ->
  Js.truthy name = true -> Text.lacks "/" name = true ->
  RouterNg.replaceParams false (lit +:+ String "/" (String ":" name))
  = List.map RouterNg.Chr (list_ascii_of_string lit)
    ++ [RouterNg.Chr "/"; RouterNg.GroupSrc].
Proof.
  intros Hlit Hname Hslash. destruct name as [|d name]; [done|].
  cbn [Text.lacks] in Hslash. apply andb_true_iff in Hslash as [Hd Hrest].
  induction lit as [|c lit IH].
  - rewrite append_empty_l. cbn [RouterNg.replaceParams andb].
    rewrite !Ascii.eqb_refl, Hd. cbn [andb].
    by rewrite (replaceParams_skip_name _ Hrest).
  - cbn [Text.lacks] in Hlit. apply andb_true_iff in Hlit as [_ Hlit].
    rewrite append_cons, replaceParams_step.
    + simpl. by rewrite (IH Hlit).
    + intros r1 E. destruct lit as [|c1 lit].
      * rewrite append_empty_l in E. discriminate.
      * rewrite append_cons in E. injection E as -> _.
        cbn [Text.lacks] in Hlit. by rewrite Ascii.eqb_refl in Hlit.
Qed.

Lemma matchesAll_group (seg : string) :
  RouterNg.matchesAll [RouterNg.Group] seg
  = Js.truthy seg && Text.lacks "/" seg.
Proof.
  destruct seg as [|d s]; [done|]. cbn [RouterNg.matchesAll Js.truthy Text.lacks].
  cbn [andb]. f_equal.
  induction s as [|e u IH]; [done|].
  cbn [Text.lacks Js.truthy negb orb]. by rewrite <- IH.
Qed.

(** A route of [router.ts] that ends in a parameter, such as [/users/:id],
    matches exactly the pathnames made of its literal part, a [/] and one
    non-empty segment: [/users/42], but neither [/users/] nor
    [/users/42/x]. *)
Theorem trailing_parameter_matches
    (r : RouterNg.Route) (lit name p : string)
    (Hpath : RouterNg.r_path r = lit +:+ String "/" (String ":" name))
    (Hplain : RouterNg.plainPath (RouterNg.r_path r) = true)
    (Hcolon : Text.lacks ":" lit = true)
    (Hstar : Text.lacks "*" lit = true)
    (Hname : Js.truthy name = true)
    (Hslash : Text.lacks "/" name = true) :
  RouterNg.matches p r = true
  <-> exists seg,
        p = lit +:+ String "/" seg
        /\ Js.truthy seg = true /\ Text.lacks "/" seg = true.
Proof.
  unfold RouterNg.matches, RouterNg.convertPathToRegex.
  rewrite Hpath, (replaceParams_trailing _ _ Hcolon Hname Hslash).
  rewrite List.map_app, replaceStar_no_star
    by (by rewrite string_of_list_ascii_of_string).
  cbn [List.map RouterNg.replaceStar]. rewrite Ascii.eqb_sym. cbn [Ascii.eqb].
  rewrite matchesAll_literals, string_of_list_ascii_of_string.
  change (if (Ascii.eqb "*" "/")%char then RouterNg.Any else RouterNg.Lit "/")
    with (RouterNg.Lit "/").
  split.
  - intros (rest & -> & H). destruct rest as [|c seg]; [done|].
    cbn [RouterNg.matchesAll] in H. apply andb_true_iff in H as [Hc H].
    apply Ascii.eqb_eq in Hc as <-.
    change (RouterNg.matchesAll [RouterNg.Group] seg = true) in H.
    rewrite matchesAll_group in H. apply andb_true_iff in H as [H1 H2].
    by exists seg.
  - intros (seg & -> & H1 & H2). exists (String "/" seg). split; [done|].
    cbn [RouterNg.matchesAll]. rewrite Ascii.eqb_refl. cbn [andb].
    change (RouterNg.matchesAll [RouterNg.Group] seg = true).
    by rewrite matchesAll_group, H1, H2.
Qed.

Lemma trailing_parameter_matches_witness :
  RouterNg.matches "/users/42" (Samples.ng "/users/:id") = true
  <-> exists seg,
        "/users/42" = "/users" +:+ String "/" seg
        /\ Js.truthy seg = true /\ Text.lacks "/" seg = true.
Proof.
  exact (trailing_parameter_matches (Samples.ng "/users/:id") "/users" "id"
           "/users/42" eq_refl eq_refl eq_refl eq_refl eq_refl eq_refl).
Defined.

Example users_42_x_no_match :
  RouterNg.findMatchingRoute [Samples.ng "/users/:id"] "/users/42/x" = None
  /\ RouterNg.findMatchingRoute [Samples.ng "/users/:id"] "/users/" = None.
Proof. split; reflexivity. Qed.

(** ** The shape of the trace of one attempt in [router.ts] *)

Lemma renderAngularComponent_effects (cfg : RouterNg.Config)
    (st : RouterNg.State) (c : RouterNg.ComponentType) (ar : ActivatedRoute) :
  List.forallb Shape.isLoadEffect
    (RouterNg.renderAngularComponent cfg st c ar).2 = true.
Proof.
  unfold RouterNg.renderAngularComponent, RouterNg.destroyComponent,
    RouterNg.destroyModule, RouterNg.assignRouteData. simpl.
  by destruct (RouterNg.currentComponentRef st),
    (RouterNg.currentModuleRef st), (RouterNg.ct_routeData c),
    (RouterNg.rootElement cfg).
Qed.

Lemma load_effects (cfg : RouterNg.Config) (st : RouterNg.State)
    (route : RouterNg.Route) (ar : ActivatedRoute) :
  List.forallb Shape.isLoadEffect (RouterNg.load cfg st route ar).2 = true.
Proof.
  unfold RouterNg.load, RouterNg.loadFailed.
  destruct (RouterNg.loadChildren route) as [[m|]|].
  - destruct (RouterNg.ngDoBootstrap m) as [c|]; [|done].
    pose proof (renderAngularComponent_effects cfg
      (RouterNg.mkState (RouterNg.currentParams st) (RouterNg.currentPath st)
         (RouterNg.currentQuery st) (RouterNg.currentComponentRef st)
         (Some (RouterNg.m_name m))) c ar) as H.
    by destruct (RouterNg.renderAngularComponent _ _ _ _).
  - destruct (RouterNg.errorComponent route) as [c|].
    + pose proof (renderAngularComponent_effects cfg st c ar) as H.
      by destruct (RouterNg.renderAngularComponent _ _ _ _).
    + by destruct (RouterNg.rootElement cfg).
  - destruct (RouterNg.loadComponent route) as [[c|]|]; [| |done].
    + pose proof (renderAngularComponent_effects cfg st c ar) as H.
      by destruct (RouterNg.renderAngularComponent _ _ _ _).
    + destruct (RouterNg.errorComponent route) as [c|].
      * pose proof (renderAngularComponent_effects cfg st c ar) as H.
        by destruct (RouterNg.renderAngularComponent _ _ _ _).
      * by destruct (RouterNg.rootElement cfg).
Qed.

Lemma loadEffect_facts (tr : list Effect) :
  List.forallb Shape.isLoadEffect tr = true ->
  List.filter isDispatch tr = []
  /\ List.existsb Shape.is404 tr = false
  /\ List.existsb Shape.isHistory tr = false
  /\ List.filter guardEffect tr = [].
Proof.
  induction tr as [|e tr IH]; [done|]. simpl. intros H.
  apply andb_true_iff in H as [He H]. destruct (IH H) as (H1 & H2 & H3 & H4).
  destruct e; try discriminate; simpl; rewrite ?H1, ?H2, ?H3, ?H4; try done.
  repeat split; try done. rewrite orb_false_r.
  apply orb_true_iff in He as [He|He]; apply String.eqb_eq in He as ->; done.
Qed.

Lemma guardEffect_facts (tr : list Effect) :
  List.forallb guardEffect tr = true ->
  List.existsb Shape.is404 tr = false
  /\ List.existsb Shape.isHistory tr = false
  /\ List.filter guardEffect tr = tr.
Proof.
  induction tr as [|e tr IH]; [done|]. simpl. intros H.
  apply andb_true_iff in H as [He H]. destruct (IH H) as (H2 & H3 & H4).
  rewrite He, H4. destruct e; try discriminate; done.
Qed.

Lemma app4_assoc {A : Type} (a b c d t : list A) :
  a ++ b ++ c ++ d ++ t = (a ++ b ++ c ++ d) ++ t.
Proof. by rewrite <- !app_assoc. Qed.

(** One attempt whose route is matched: calls of guards and resolvers,
    then, when the attempt runs to its end, the loading step and the
    event. *)
Lemma ng_trace_shape (cfg : RouterNg.Config) (st : RouterNg.State)
    (path pathname : string) (ps query : gmap string string)
    (route : RouterNg.Route) :
  RouterNg.parsePath cfg path = Some (pathname, ps, query) ->
  RouterNg.findMatchingRoute (RouterNg.routes cfg) pathname = Some route ->
  exists guards tail,
    (RouterNg.handleRouting cfg st path).2 = guards ++ tail
    /\ List.forallb guardEffect guards = true
    /\ ((tail = []
         /\ Shape.isSettled (RouterNg.handleRouting cfg st path).1.1 = false)
        \/ (exists loading,
              tail = loading ++ [DispatchRouteChange path ps query]
              /\ List.forallb Shape.isLoadEffect loading = true
              /\ (RouterNg.handleRouting cfg st path).1.1 = Settled)).
Proof.
  intros Hparse Hfind.
  pose proof (ng_guards_only st pathname ps query route) as G.
  cbv zeta in G. rewrite !List.forallb_app in G.
  apply andb_true_iff in G as [G1 G].
  apply andb_true_iff in G as [G2 G].
  apply andb_true_iff in G as [G3 G4].
  rewrite (ng_handleRouting_matched cfg st path pathname ps query route
             Hparse Hfind). cbv zeta.
  destruct (someRejects (RouterNg.activationStep route _).1).
  { eexists _, []. rewrite app_nil_r. split; [done|]. cbn [fst snd]. split; [done|by left]. }
  destruct (someRejects (RouterNg.loadGuardStep route).1).
  { eexists _, []. rewrite app_nil_r. split; [done|]. cbn [fst snd].
    split; [by rewrite List.forallb_app, G1, G2|by left]. }
  destruct (someRejects (RouterNg.deactivationStep _ route _).1).
  { eexists _, []. rewrite app_nil_r. split; [done|]. cbn [fst snd].
    split; [by rewrite !List.forallb_app, G1, G2, G3|by left]. }
  destruct (RouterNg.resolveStep route _).1 as [d|].
  2:{ eexists _, []. rewrite app_nil_r. split; [done|]. cbn [fst snd].
      split; [by rewrite !List.forallb_app, G1, G2, G3, G4|by left]. }
  destruct (RouterNg.redirectTarget route).
  { eexists _, []. rewrite app_nil_r. split; [done|]. cbn [fst snd].
    split; [by rewrite !List.forallb_app, G1, G2, G3, G4|by left]. }
  simpl.
  eexists _, _.
  split; [apply app4_assoc|]. cbn [fst snd].
  split; [by rewrite !List.forallb_app, G1, G2, G3, G4|].
  right. eexists. split; [done|]. split; [apply load_effects|done].
Qed.

(** What one attempt of [router.ts] does, whatever its input. *)
Lemma ng_attempt (cfg : RouterNg.Config) (st : RouterNg.State) (path : string) :
  let r := RouterNg.handleRouting cfg st path in
  List.existsb Shape.isHistory r.2 = false
  /\ List.length (List.filter isDispatch r.2)
     = (if Shape.isSettled r.1.1 then 1 else 0)
  /\ (List.existsb Shape.is404 r.2 = true ->
      exists pathname ps query,
        RouterNg.parsePath cfg path = Some (pathname, ps, query)
        /\ RouterNg.findMatchingRoute (RouterNg.routes cfg) pathname = None).
Proof.
  intros r. subst r.
  destruct (RouterNg.parsePath cfg path) as [[[pathname ps] query]|] eqn:Hparse;
    [|by unfold RouterNg.handleRouting; rewrite Hparse].
  destruct (RouterNg.findMatchingRoute (RouterNg.routes cfg) pathname)
    as [route|] eqn:Hfind.
  - destruct (ng_trace_shape cfg st path pathname ps query route Hparse Hfind)
      as (guards & tail & -> & Hg & Htail).
    destruct (guardEffect_facts _ Hg) as (G1 & G2 & _).
    pose proof (guardEffect_no_dispatch _ Hg) as G3.
    rewrite !List.existsb_app, List.filter_app, G1, G2, G3.
    destruct Htail as [[-> Hs]|(loading & -> & Hl & Hs)].
    + rewrite Hs. done.
    + destruct (loadEffect_facts _ Hl) as (L1 & L2 & L3 & _).
      rewrite Hs, !List.existsb_app, List.filter_app, L1, L2, L3. done.
  - unfold RouterNg.handleRouting. rewrite Hparse, Hfind.
    destruct (RouterNg.rootElement cfg); simpl;
      (split; [done|split; [done|intros _; by eauto]]).
Qed.

(** ** A wildcard route in [router.ts] *)

(** When the route list of the Angular router has a wildcard route, and
    the paths of the table are in the fragment of patterns modelled here,
    every pathname matches some route, also a pathname with a line break,
    which [.*] does not match, and no attempt writes the page-not-found
    text. *)
Theorem wildcard_never_not_found
    (cfg : RouterNg.Config)
    (Hplain : RouterNg.plainRoutes (RouterNg.routes cfg) = true)
    (Hwild : List.existsb RouterNg.isWildcard (RouterNg.routes cfg) = true) :
  (forall pathname,
     is_Some (RouterNg.findMatchingRoute (RouterNg.routes cfg) pathname))
  /\ (forall st path,
     List.existsb Shape.is404 (RouterNg.handleRouting cfg st path).2 = false).
Proof.
  assert (Hsome : forall pathname,
            is_Some (RouterNg.findMatchingRoute (RouterNg.routes cfg) pathname)).
  { intros pathname. rewrite findMatchingRoute_first.
    destruct (List.find (RouterNg.matches pathname) _); [by eexists|].
    apply List.existsb_exists in Hwild as (w & Hin & Hw).
    destruct (List.find RouterNg.isWildcard (RouterNg.routes cfg)) eqn:E;
      [by eexists|].
    pose proof (List.find_none _ _ E w Hin). congruence. }
  split; [exact Hsome|]. intros st path.
  destruct (List.existsb Shape.is404 _) eqn:E; [|done].
  destruct (ng_attempt cfg st path) as (_ & _ & H).
  destruct (H E) as (pathname & ps & query & _ & Hnone).
  destruct (Hsome pathname) as [r Hr]. congruence.
Qed.

Lemma wildcard_never_not_found_witness :
  (forall pathname,
     is_Some
       (RouterNg.findMatchingRoute [Samples.ng "/a"; Samples.ng "*"] pathname))
  /\ (forall st path,
     List.existsb Shape.is404
       (RouterNg.handleRouting
          (RouterNg.mkConfig [Samples.ng "/a"; Samples.ng "*"] true) st path).2
     = false).
Proof.
  exact (wildcard_never_not_found
           (RouterNg.mkConfig [Samples.ng "/a"; Samples.ng "*"] true)
           eq_refl eq_refl).
Defined.

(** ** A whole navigation of [router.ts]: events and history entries *)

Lemma ng_routing_facts (fuel : nat) :
  forall cfg st path out st' tr,
    RouterNg.routing fuel cfg st path = Some (out, st', tr) ->
    Shape.isRedirect out = false
    /\ List.length (List.filter isDispatch tr)
       = (if Shape.isSettled out then 1 else 0)
    /\ List.existsb Shape.isPush tr = false.
Proof.
  induction fuel as [|fuel IH]; intros cfg st path out st' tr; [done|].
  cbn [RouterNg.routing].
  destruct (ng_attempt cfg st path) as (Hh & Hd & _).
  destruct (RouterNg.handleRouting cfg st path) as [[o s1] t1].
  cbn [fst snd] in Hh, Hd.
  assert (Hp : List.existsb Shape.isPush t1 = false).
  { clear -Hh. induction t1 as [|e t1 IH]; [done|]. simpl in *.
    apply orb_false_iff in Hh as [He Ht]. rewrite (IH Ht).
    by destruct e as [[] ?| | | | | | | | | | | | |]. }
  destruct o; try (intros [= <- <- <-]; done).
  destruct (RouterNg.routing fuel cfg s1 target) as [[[o2 s2] t2]|] eqn:E;
    [|done].
  intros [= <- <- <-]. destruct (IH _ _ _ _ _ _ E) as (H1 & H2 & H3).
  split; [done|].
  rewrite List.filter_app, List.existsb_app, length_app. simpl.
  rewrite Hp, H3. simpl in Hd. rewrite Hd, H2. done.
Qed.

(** A navigation of [router.ts] that comes to an end, with all the
    redirects it follows, does not end in a redirect; it dispatches exactly
    one [routechange] event when it runs to its end and none when a guard
    blocks it or it is rejected. *)
Theorem navigation_dispatches_once
    (fuel : nat) (cfg : RouterNg.Config) (st st' : RouterNg.State)
    (path : string) (replace : bool) (out : Outcome) (tr : list Effect)
    (Hrun : RouterNg.navigate fuel cfg st path replace = Some (out, st', tr)) :
  Shape.isRedirect out = false
  /\ List.length (List.filter isDispatch tr)
     = (if Shape.isSettled out then 1 else 0).
Proof.
  unfold RouterNg.navigate in Hrun.
  destruct (RouterNg.routing fuel cfg st path) as [[[o s] t]|] eqn:E; [|done].
  injection Hrun as <- <- <-.
  destruct (ng_routing_facts _ _ _ _ _ _ _ E) as (H1 & H2 & _). done.
Qed.

Lemma navigation_dispatches_once_witness :
  Shape.isRedirect Settled = false
  /\ List.length
       (List.filter isDispatch
          [HistoryState false "/old/7"; HistoryState true "/new/7";
           DispatchRouteChange "/new/7" (<["id" := "7"]> ∅) ∅])
     = (if Shape.isSettled Settled then 1 else 0).
Proof.
  exact (navigation_dispatches_once 2 Samples.oldNewConfig
           RouterNg.initialState _ "/old/7" false _ _ eq_refl).
Defined.

(** A navigation of [router.ts] calls [pushState] at most once, for the
    path it is given and only when [replace] is false: the redirects it
    follows all call [replaceState], so one navigation adds at most one
    entry to the history. *)
Theorem navigation_pushes_once
    (fuel : nat) (cfg : RouterNg.Config) (st st' : RouterNg.State)
    (path : string) (replace : bool) (out : Outcome) (tr : list Effect)
    (Hrun : RouterNg.navigate fuel cfg st path replace = Some (out, st', tr)) :
  List.filter Shape.isPush tr
  = if replace then [] else [HistoryState false path].
Proof.
  unfold RouterNg.navigate in Hrun.
  destruct (RouterNg.routing fuel cfg st path) as [[[o s] t]|] eqn:E; [|done].
  injection Hrun as <- <- <-.
  destruct (ng_routing_facts _ _ _ _ _ _ _ E) as (_ & _ & H).
  assert (Hf : List.filter Shape.isPush t = []).
  { clear -H. induction t as [|e t IH]; [done|]. simpl in *.
    apply orb_false_iff in H as [-> Ht]. by apply IH. }
  simpl. rewrite Hf. by destruct replace.
Qed.

Lemma navigation_pushes_once_witness :
  List.filter Shape.isPush
    [HistoryState false "/old/7"; HistoryState true "/new/7";
     DispatchRouteChange "/new/7" (<["id" := "7"]> ∅) ∅]
  = [HistoryState false "/old/7"].
Proof.
  exact (navigation_pushes_once 2 Samples.oldNewConfig
           RouterNg.initialState _ "/old/7" false _ _ eq_refl).
Defined.

(** ** Which guards and resolvers one attempt of [router.ts] calls *)

Lemma filter_other {A : Type} (f g : A -> bool) (l : list A) :
  (forall x, g x = true -> f x = false) ->
  List.forallb g l = true -> List.filter f l = [].
Proof.
  intros Hfg. induction l as [|x l IH]; [done|]. simpl. intros H.
  apply andb_true_iff in H as [Hx Hl]. by rewrite (Hfg x Hx), (IH Hl).
Qed.

Lemma activationStep_kind (route : RouterNg.Route) (ar : ActivatedRoute) :
  List.forallb isCallCanActivate (RouterNg.activationStep route ar).2 = true.
Proof.
  unfold RouterNg.activationStep.
  destruct (RouterNg.r_canActivate route); [|done]. by apply forallb_map_true.
Qed.

Lemma loadGuardStep_kind (route : RouterNg.Route) :
  List.forallb isCallCanLoad (RouterNg.loadGuardStep route).2 = true.
Proof.
  unfold RouterNg.loadGuardStep.
  destruct (RouterNg.r_canLoad route); [|done].
  destruct (RouterNg.hasLoader route); [|done]. by apply forallb_map_true.
Qed.

Lemma deactivationStep_kind (st : RouterNg.State) (route : RouterNg.Route)
    (ar : ActivatedRoute) :
  List.forallb isCallCanDeactivate (RouterNg.deactivationStep st route ar).2
  = true.
Proof.
  unfold RouterNg.deactivationStep.
  destruct (RouterNg.currentComponentRef st); [|done].
  destruct (RouterNg.r_canDeactivate route); [|done].
  by apply forallb_map_true.
Qed.

Lemma resolveStep_kind (route : RouterNg.Route) (ar : ActivatedRoute) :
  List.forallb isCallResolve (RouterNg.resolveStep route ar).2 = true.
Proof.
  unfold RouterNg.resolveStep.
  destruct (RouterNg.r_resolve route); [|done].
  rewrite callResolvers_trace. by apply forallb_map_true.
Qed.

(** The guard and resolver calls of one attempt are those of the steps, in
    the order of the steps, up to the step at which the attempt stops. *)
Lemma ng_guard_calls (cfg : RouterNg.Config) (st : RouterNg.State)
    (path pathname : string) (ps query : gmap string string)
    (route : RouterNg.Route) :
  RouterNg.parsePath cfg path = Some (pathname, ps, query) ->
  RouterNg.findMatchingRoute (RouterNg.routes cfg) pathname = Some route ->
  let ar := mkActivatedRoute ps query pathname (RouterNg.r_data route) in
  let st1 := RouterNg.mkState ps pathname query
               (RouterNg.currentComponentRef st)
               (RouterNg.currentModuleRef st) in
  let tr := List.filter guardEffect (RouterNg.handleRouting cfg st path).2 in
  tr = (RouterNg.activationStep route ar).2
  \/ tr = (RouterNg.activationStep route ar).2
          ++ (RouterNg.loadGuardStep route).2
  \/ tr = (RouterNg.activationStep route ar).2
          ++ (RouterNg.loadGuardStep route).2
          ++ (RouterNg.deactivationStep st1 route ar).2
  \/ tr = Shape.guardCalls st1 route ar.
Proof.
  intros Hparse Hfind ar st1 tr. subst tr.
  pose proof (ng_guards_only st pathname ps query route) as G.
  cbv zeta in G. fold ar st1 in G. rewrite !List.forallb_app in G.
  apply andb_true_iff in G as [G1 G].
  apply andb_true_iff in G as [G2 G].
  apply andb_true_iff in G as [G3 G4].
  destruct (guardEffect_facts _ G1) as (_ & _ & F1).
  destruct (guardEffect_facts _ G2) as (_ & _ & F2).
  destruct (guardEffect_facts _ G3) as (_ & _ & F3).
  destruct (guardEffect_facts _ G4) as (_ & _ & F4).
  rewrite (ng_handleRouting_matched cfg st path pathname ps query route
             Hparse Hfind). cbv zeta. fold ar st1. unfold Shape.guardCalls.
  destruct (someRejects (RouterNg.activationStep route ar).1);
    [by left|].
  destruct (someRejects (RouterNg.loadGuardStep route).1);
    [right; left; cbn [snd]; by rewrite List.filter_app, F1, F2|].
  destruct (someRejects (RouterNg.deactivationStep st1 route ar).1);
    [right; right; left; cbn [snd]; by rewrite !List.filter_app, F1, F2, F3|].
  right; right; right.
  destruct (RouterNg.resolveStep route ar).1 as [d|];
    [|cbn [snd]; by rewrite !List.filter_app, F1, F2, F3, F4].
  destruct (RouterNg.redirectTarget route);
    [cbn [snd]; by rewrite !List.filter_app, F1, F2, F3, F4|].
  cbn [snd]. rewrite !List.filter_app, F1, F2, F3, F4.
  destruct (loadEffect_facts _ (load_effects cfg st1 route
              (mkActivatedRoute ps query pathname
                 (Some (mergeData (RouterNg.r_data route) d)))))
    as (_ & _ & _ & L).
  rewrite L. simpl. by rewrite !app_nil_r.
Qed.

(** A route of [router.ts] without a lazy loader is not subject to its load
    guards, and without a mounted view no deactivation guard is consulted:
    in either case no such guard is called during the attempt, whatever
    the guards would answer. *)
Theorem guards_not_consulted
    (cfg : RouterNg.Config) (st : RouterNg.State) (path pathname : string)
    (ps query : gmap string string) (route : RouterNg.Route)
    (Hparse : RouterNg.parsePath cfg path = Some (pathname, ps, query))
    (Hfind : RouterNg.findMatchingRoute (RouterNg.routes cfg) pathname
             = Some route) :
  (RouterNg.hasLoader route = false ->
   List.filter isCallCanLoad (RouterNg.handleRouting cfg st path).2 = [])
  /\ (RouterNg.currentComponentRef st = None ->
      List.filter isCallCanDeactivate (RouterNg.handleRouting cfg st path).2
      = []).
Proof.
  pose proof (ng_guard_calls cfg st path pathname ps query route Hparse Hfind)
    as H. cbv zeta in H.
  set (ar := mkActivatedRoute ps query pathname (RouterNg.r_data route)) in *.
  set (st1 := RouterNg.mkState ps pathname query
                (RouterNg.currentComponentRef st)
                (RouterNg.currentModuleRef st)) in *.
  assert (A1 : List.filter isCallCanLoad (RouterNg.activationStep route ar).2
               = [])
    by (apply (filter_other _ isCallCanActivate);
        [by intros []|apply activationStep_kind]).
  assert (A2 : List.filter isCallCanDeactivate
                 (RouterNg.activationStep route ar).2 = [])
    by (apply (filter_other _ isCallCanActivate);
        [by intros []|apply activationStep_kind]).
  assert (B2 : List.filter isCallCanDeactivate (RouterNg.loadGuardStep route).2
               = [])
    by (apply (filter_other _ isCallCanLoad);
        [by intros []|apply loadGuardStep_kind]).
  assert (C1 : List.filter isCallCanLoad
                 (RouterNg.deactivationStep st1 route ar).2 = [])
    by (apply (filter_other _ isCallCanDeactivate);
        [by intros []|apply deactivationStep_kind]).
  assert (D1 : List.filter isCallCanLoad (RouterNg.resolveStep route ar).2 = [])
    by (apply (filter_other _ isCallResolve);
        [by intros []|apply resolveStep_kind]).
  assert (D2 : List.filter isCallCanDeactivate
                 (RouterNg.resolveStep route ar).2 = [])
    by (apply (filter_other _ isCallResolve);
        [by intros []|apply resolveStep_kind]).
  assert (Hsub1 : forall tr,
            List.filter isCallCanLoad (List.filter guardEffect tr)
            = List.filter isCallCanLoad tr).
  { induction tr as [|e tr IH]; [done|]. destruct e; simpl; by rewrite ?IH. }
  assert (Hsub2 : forall tr,
            List.filter isCallCanDeactivate (List.filter guardEffect tr)
            = List.filter isCallCanDeactivate tr).
  { induction tr as [|e tr IH]; [done|]. destruct e; simpl; by rewrite ?IH. }
  split.
  - intros Hl. rewrite <- Hsub1.
    assert (B1 : (RouterNg.loadGuardStep route).2 = []).
    { unfold RouterNg.loadGuardStep. rewrite Hl.
      by destruct (RouterNg.r_canLoad route). }
    unfold Shape.guardCalls in H. rewrite B1 in H.
    destruct H as [-> |[-> |[-> | ->]]];
      rewrite ?List.filter_app, ?A1, ?C1, ?D1; done.
  - intros Hc. rewrite <- Hsub2.
    assert (C2 : (RouterNg.deactivationStep st1 route ar).2 = []).
    { unfold RouterNg.deactivationStep. subst st1. simpl. by rewrite Hc. }
    unfold Shape.guardCalls in H. rewrite C2 in H.
    destruct H as [-> |[-> |[-> | ->]]];
      rewrite ?List.filter_app, ?A2, ?B2, ?D2; done.
Qed.

Lemma guards_not_consulted_witness :
  (RouterNg.hasLoader Samples2.unloaded = false ->
   List.filter isCallCanLoad
     (RouterNg.handleRouting (RouterNg.mkConfig [Samples2.unloaded] true)
        RouterNg.initialState "/x").2 = [])
  /\ (RouterNg.currentComponentRef RouterNg.initialState = None ->
      List.filter isCallCanDeactivate
        (RouterNg.handleRouting (RouterNg.mkConfig [Samples2.unloaded] true)
           RouterNg.initialState "/x").2 = []).
Proof.
  exact (guards_not_consulted (RouterNg.mkConfig [Samples2.unloaded] true)
           RouterNg.initialState "/x" "/x" ∅ ∅ Samples2.unloaded
           eq_refl eq_refl).
Defined.

(** So the attempt runs to its end although both guards would reject. *)
Example unloaded_route_settles :
  RouterNg.handleRouting (RouterNg.mkConfig [Samples2.unloaded] true)
    RouterNg.initialState "/x"
  = (Settled, RouterNg.mkState ∅ "/x" ∅ None None,
     [DispatchRouteChange "/x" ∅ ∅]).
Proof. reflexivity. Qed.

(** ** All guards of a step are called; a failing resolver *)

Lemma existsb_map_compose {A B : Type} (f : B -> bool) (g : A -> B)
    (l : list A) :
  List.existsb f (List.map g l) = List.existsb (fun x => f (g x)) l.
Proof. induction l as [|x l IH]; simpl; [done|]. by rewrite IH. Qed.

(** When some activation guard of the matched route rejects, the attempt is
    blocked after every activation guard of the route has been called
    once, in the order of declaration, also those declared after the
    rejecting one; nothing else is called. *)
Theorem activation_guards_all_called
    (cfg : RouterNg.Config) (st : RouterNg.State) (path pathname : string)
    (ps query : gmap string string) (route : RouterNg.Route)
    (gs : list CanActivate)
    (Hparse : RouterNg.parsePath cfg path = Some (pathname, ps, query))
    (Hfind : RouterNg.findMatchingRoute (RouterNg.routes cfg) pathname
             = Some route)
    (Hguards : RouterNg.r_canActivate route = Some gs)
    (Hreject :
       List.existsb
         (fun g => negb (canActivate g
            (mkActivatedRoute ps query pathname (RouterNg.r_data route))))
         gs = true) :
  RouterNg.handleRouting cfg st path
  = (Blocked,
     RouterNg.mkState ps pathname query
       (RouterNg.currentComponentRef st) (RouterNg.currentModuleRef st),
     List.map
       (fun g => CallCanActivate (ca_name g)
          (mkActivatedRoute ps query pathname (RouterNg.r_data route)))
       gs).
Proof.
  rewrite (ng_handleRouting_matched cfg st path pathname ps query route
             Hparse Hfind). cbv zeta.
  unfold RouterNg.activationStep. rewrite Hguards. unfold callCanActivate.
  cbn [fst snd]. unfold someRejects. rewrite existsb_map_compose.
  by rewrite Hreject.
Qed.

Lemma activation_guards_all_called_witness :
  RouterNg.handleRouting (RouterNg.mkConfig [Samples2.threeGuards] true)
    RouterNg.initialState "/g"
  = (Blocked, RouterNg.mkState ∅ "/g" ∅ None None,
     [CallCanActivate "first" (mkActivatedRoute ∅ ∅ "/g" None);
      CallCanActivate "second" (mkActivatedRoute ∅ ∅ "/g" None);
      CallCanActivate "third" (mkActivatedRoute ∅ ∅ "/g" None)]).
Proof.
  exact (activation_guards_all_called
           (RouterNg.mkConfig [Samples2.threeGuards] true)
           RouterNg.initialState "/g" "/g" ∅ ∅ Samples2.threeGuards _
           eq_refl eq_refl eq_refl eq_refl).
Defined.

Lemma callResolvers_fails (rs : list (string * Resolve)) (ar : ActivatedRoute) :
  Shape.someFails rs ar = true -> (callResolvers rs ar).1 = None.
Proof.
  unfold Shape.someFails.
  induction rs as [|[k r] rs IH]; [done|]. simpl.
  destruct (callResolvers rs ar) as [m tr]. simpl in *.
  destruct (resolve r ar); [|done]. simpl. intros H. by rewrite (IH H).
Qed.

(** When no guard rejects and some resolver of the matched route fails, the
    call of [_handleRouting] is rejected after every resolver of the route
    has been called: no loader is called, nothing is mounted, the host
    element is left as it is and no event is dispatched. *)
Theorem resolver_failure_rejects
    (cfg : RouterNg.Config) (st : RouterNg.State) (path pathname : string)
    (ps query : gmap string string) (route : RouterNg.Route)
    (rs : list (string * Resolve))
    (Hparse : RouterNg.parsePath cfg path = Some (pathname, ps, query))
    (Hfind : RouterNg.findMatchingRoute (RouterNg.routes cfg) pathname
             = Some route)
    (Hresolve : RouterNg.r_resolve route = Some rs)
    (Hactivate :
       someRejects
         (RouterNg.activationStep route
            (mkActivatedRoute ps query pathname (RouterNg.r_data route))).1
       = false)
    (Hload : someRejects (RouterNg.loadGuardStep route).1 = false)
    (Hdeactivate :
       someRejects
         (RouterNg.deactivationStep
            (RouterNg.mkState ps pathname query
               (RouterNg.currentComponentRef st) (RouterNg.currentModuleRef st))
            route
            (mkActivatedRoute ps query pathname (RouterNg.r_data route))).1
       = false)
    (Hfails :
       Shape.someFails rs
         (mkActivatedRoute ps query pathname (RouterNg.r_data route)) = true) :
  let ar := mkActivatedRoute ps query pathname (RouterNg.r_data route) in
  let st1 := RouterNg.mkState ps pathname query
               (RouterNg.currentComponentRef st)
               (RouterNg.currentModuleRef st) in
  RouterNg.handleRouting cfg st path
  = (Rejected, st1,
     (RouterNg.activationStep route ar).2 ++ (RouterNg.loadGuardStep route).2
     ++ (RouterNg.deactivationStep st1 route ar).2
     ++ List.map (fun kr => CallResolve kr.1 ar) rs).
Proof.
  intros ar st1. subst ar st1.
  rewrite (ng_handleRouting_matched cfg st path pathname ps query route
             Hparse Hfind). cbv zeta.
  rewrite Hactivate, Hload, Hdeactivate.
  unfold RouterNg.resolveStep. rewrite Hresolve.
  rewrite (callResolvers_fails _ _ Hfails), callResolvers_trace. done.
Qed.

Lemma resolver_failure_rejects_witness :
  RouterNg.handleRouting (RouterNg.mkConfig [Samples2.twoResolvers] true)
    RouterNg.initialState "/r"
  = (Rejected, RouterNg.mkState ∅ "/r" ∅ None None,
     [CallResolve "user" (mkActivatedRoute ∅ ∅ "/r" None);
      CallResolve "team" (mkActivatedRoute ∅ ∅ "/r" None)]).
Proof.
  exact (resolver_failure_rejects
           (RouterNg.mkConfig [Samples2.twoResolvers] true)
           RouterNg.initialState "/r" "/r" ∅ ∅ Samples2.twoResolvers _
           eq_refl eq_refl eq_refl eq_refl eq_refl eq_refl eq_refl).
Defined.

(** ** The loading step of [router.ts] *)

Lemma ng_loading (cfg : RouterNg.Config) (st : RouterNg.State)
    (path pathname : string) (ps query : gmap string string)
    (route : RouterNg.Route) (d : gmap string JsVal) :
  RouterNg.parsePath cfg path = Some (pathname, ps, query) ->
  RouterNg.findMatchingRoute (RouterNg.routes cfg) pathname = Some route ->
  let ar := mkActivatedRoute ps query pathname (RouterNg.r_data route) in
  let st1 := RouterNg.mkState ps pathname query
               (RouterNg.currentComponentRef st)
               (RouterNg.currentModuleRef st) in
  Shape.reachesLoading st1 route ar = Some d ->
  let loaded :=
    RouterNg.load cfg st1 route
      (mkActivatedRoute ps query pathname
         (Some (mergeData (RouterNg.r_data route) d))) in
  RouterNg.handleRouting cfg st path
  = (Settled, loaded.1,
     Shape.guardCalls st1 route ar ++ loaded.2
     ++ [DispatchRouteChange path ps query]).
Proof.
  intros Hparse Hfind ar st1 Hreach loaded.
  rewrite (ng_handleRouting_matched cfg st path pathname ps query route
             Hparse Hfind). cbv zeta. fold ar st1.
  unfold Shape.reachesLoading in Hreach.
  destruct (someRejects (RouterNg.activationStep route ar).1); [done|].
  destruct (someRejects (RouterNg.loadGuardStep route).1); [done|].
  destruct (someRejects (RouterNg.deactivationStep st1 route ar).1); [done|].
  simpl in Hreach.
  destruct (RouterNg.redirectTarget route); [done|].
  rewrite Hreach. unfold Shape.guardCalls. subst loaded.
  f_equal. by rewrite <- !app_assoc.
Qed.

(** When the attempt reaches the loading step and [loadComponent] succeeds,
    the previously mounted component and module, if any, are destroyed
    once, before the new component is created; the router then refers to
    the new component and to no module; the instance of the component is
    handed the snapshot of the route exactly when it already has a truthy
    [routeData], and that snapshot has the data of the route overridden, key
    by key, by the resolved data; one event is dispatched, last. *)
Theorem component_load_mounts
    (cfg : RouterNg.Config) (st : RouterNg.State) (path pathname : string)
    (ps query : gmap string string) (route : RouterNg.Route)
    (d : gmap string JsVal) (c : RouterNg.ComponentType)
    (Hparse : RouterNg.parsePath cfg path = Some (pathname, ps, query))
    (Hfind : RouterNg.findMatchingRoute (RouterNg.routes cfg) pathname
             = Some route)
    (Hreach :
       Shape.reachesLoading
         (RouterNg.mkState ps pathname query
            (RouterNg.currentComponentRef st) (RouterNg.currentModuleRef st))
         route (mkActivatedRoute ps query pathname (RouterNg.r_data route))
       = Some d)
    (Hmodule : RouterNg.loadChildren route = None)
    (Hcomponent : RouterNg.loadComponent route = Some (Fulfilled c)) :
  let ar := mkActivatedRoute ps query pathname (RouterNg.r_data route) in
  let st1 := RouterNg.mkState ps pathname query
               (RouterNg.currentComponentRef st)
               (RouterNg.currentModuleRef st) in
  let merged := mergeData (RouterNg.r_data route) d in
  RouterNg.handleRouting cfg st path
  = (Settled,
     RouterNg.mkState ps pathname query (Some (RouterNg.ct_name c)) None,
     Shape.guardCalls st1 route ar
     ++ [CallLoadComponent (RouterNg.r_path route)]
     ++ match RouterNg.currentComponentRef st with
        | Some old => [DestroyComponent old]
        | None => []
        end
     ++ match RouterNg.currentModuleRef st with
        | Some m => [DestroyModule m]
        | None => []
        end
     ++ [CreateComponent (RouterNg.ct_name c)]
     ++ (if RouterNg.ct_routeData c
         then [AssignRouteData (RouterNg.ct_name c)
                 (mkActivatedRoute ps query pathname (Some merged))]
         else [])
     ++ (if RouterNg.rootElement cfg then [SetInnerHTML ""] else [])
     ++ [DispatchRouteChange path ps query])
  /\ forall k,
       merged !! k
       = match d !! k with
         | Some v => Some v
         | None => default ∅ (RouterNg.r_data route) !! k
         end.
Proof.
  intros ar st1 merged. split.
  - rewrite (ng_loading cfg st path pathname ps query route d Hparse Hfind
               Hreach).
    unfold RouterNg.load. rewrite Hmodule, Hcomponent.
    unfold RouterNg.renderAngularComponent, RouterNg.destroyComponent,
      RouterNg.destroyModule, RouterNg.assignRouteData.
    cbn [fst snd RouterNg.currentComponentRef
      RouterNg.currentModuleRef RouterNg.currentParams RouterNg.currentPath
      RouterNg.currentQuery].
    subst ar st1 merged. do 2 f_equal.
    by destruct (RouterNg.currentComponentRef st),
      (RouterNg.currentModuleRef st), (RouterNg.ct_routeData c),
      (RouterNg.rootElement cfg).
  - intros k. subst merged. unfold mergeData.
    destruct (d !! k) as [v|] eqn:E.
    + by apply lookup_union_Some_l.
    + by rewrite lookup_union_r.
Qed.

Lemma component_load_mounts_witness :
  RouterNg.handleRouting (RouterNg.mkConfig [Samples2.withData] true)
    Samples.atA "/d"
  = (Settled,
     RouterNg.mkState ∅ "/d" ∅ (Some "D") None,
     [CallResolve "title"
        (mkActivatedRoute ∅ ∅ "/d"
           (Some (<["title" := VStr "static"]> (<["kind" := VStr "page"]> ∅))));
      CallLoadComponent "/d";
      DestroyComponent "AComponent";
      CreateComponent "D";
      AssignRouteData "D"
        (mkActivatedRoute ∅ ∅ "/d"
           (Some (<["title" := VStr "resolved"]>
                    (<["kind" := VStr "page"]> ∅))));
      SetInnerHTML "";
      DispatchRouteChange "/d" ∅ ∅]).
Proof.
  pose proof (component_load_mounts
                (RouterNg.mkConfig [Samples2.withData] true) Samples.atA
                "/d" "/d" ∅ ∅ Samples2.withData
                (<["title" := VStr "resolved"]> ∅)
                (Samples.routedComponent "D")
                eq_refl eq_refl eq_refl eq_refl eq_refl) as [H _].
  rewrite H. vm_compute. reflexivity.
Defined.

(** When the attempt reaches the loading step and [loadChildren] succeeds,
    the router takes the loaded module as its current module without
    destroying the one it referred to before.  If the module bootstraps a
    component, rendering it destroys the previous component and the module
    just loaded, creates the component (handing the route to its instance
    when that already has a truthy [routeData]), and the router ends with
    the new component and no module; if it bootstraps none, nothing is
    destroyed or created and the router keeps the new module. *)
Theorem module_load_mounts
    (cfg : RouterNg.Config) (st : RouterNg.State) (path pathname : string)
    (ps query : gmap string string) (route : RouterNg.Route)
    (d : gmap string JsVal) (m : RouterNg.NgModule)
    (Hparse : RouterNg.parsePath cfg path = Some (pathname, ps, query))
    (Hfind : RouterNg.findMatchingRoute (RouterNg.routes cfg) pathname
             = Some route)
    (Hreach :
       Shape.reachesLoading
         (RouterNg.mkState ps pathname query
            (RouterNg.currentComponentRef st) (RouterNg.currentModuleRef st))
         route (mkActivatedRoute ps query pathname (RouterNg.r_data route))
       = Some d)
    (Hmodule : RouterNg.loadChildren route = Some (Fulfilled m)) :
  let ar := mkActivatedRoute ps query pathname (RouterNg.r_data route) in
  let st1 := RouterNg.mkState ps pathname query
               (RouterNg.currentComponentRef st)
               (RouterNg.currentModuleRef st) in
  let shown :=
    mkActivatedRoute ps query pathname
      (Some (mergeData (RouterNg.r_data route) d)) in
  RouterNg.handleRouting cfg st path
  = match RouterNg.ngDoBootstrap m with
    | Some c =>
        (Settled,
         RouterNg.mkState ps pathname query (Some (RouterNg.ct_name c)) None,
         Shape.guardCalls st1 route ar
         ++ [CallLoadChildren (RouterNg.r_path route)]
         ++ match RouterNg.currentComponentRef st with
            | Some old => [DestroyComponent old]
            | None => []
            end
         ++ [DestroyModule (RouterNg.m_name m);
             CreateComponent (RouterNg.ct_name c)]
         ++ (if RouterNg.ct_routeData c
             then [AssignRouteData (RouterNg.ct_name c) shown]
             else [])
         ++ (if RouterNg.rootElement cfg then [SetInnerHTML ""] else [])
         ++ [DispatchRouteChange path ps query])
    | None =>
        (Settled,
         RouterNg.mkState ps pathname query (RouterNg.currentComponentRef st)
           (Some (RouterNg.m_name m)),
         Shape.guardCalls st1 route ar
         ++ [CallLoadChildren (RouterNg.r_path route);
             DispatchRouteChange path ps query])
    end.
Proof.
  intros ar st1 shown.
  rewrite (ng_loading cfg st path pathname ps query route d Hparse Hfind
             Hreach).
  unfold RouterNg.load. rewrite Hmodule.
  destruct (RouterNg.ngDoBootstrap m) as [c|]; [|done].
  unfold RouterNg.renderAngularComponent, RouterNg.destroyComponent,
    RouterNg.destroyModule, RouterNg.assignRouteData.
  cbn [fst snd RouterNg.currentComponentRef
    RouterNg.currentModuleRef RouterNg.currentParams RouterNg.currentPath
    RouterNg.currentQuery].
  subst ar st1 shown. do 2 f_equal.
  by destruct (RouterNg.currentComponentRef st), (RouterNg.ct_routeData c),
    (RouterNg.rootElement cfg).
Qed.

Lemma module_load_mounts_witness :
  RouterNg.handleRouting (RouterNg.mkConfig [Samples2.moduleRoute] true)
    (RouterNg.mkState ∅ "/a" ∅ (Some "AComponent") (Some "AModule")) "/m"
  = (Settled,
     RouterNg.mkState ∅ "/m" ∅ (Some "MComponent") None,
     [CallLoadChildren "/m"; DestroyComponent "AComponent";
      DestroyModule "MModule"; CreateComponent "MComponent";
      SetInnerHTML ""; DispatchRouteChange "/m" ∅ ∅]).
Proof.
  exact (module_load_mounts (RouterNg.mkConfig [Samples2.moduleRoute] true)
           (RouterNg.mkState ∅ "/a" ∅ (Some "AComponent") (Some "AModule"))
           "/m" "/m" ∅ ∅ Samples2.moduleRoute ∅
           (RouterNg.mkNgModule "MModule"
              (Some (Samples.component "MComponent")))
           eq_refl eq_refl eq_refl eq_refl).
Defined.

(** When the attempt reaches the loading step and the loader fails, the
    failure is caught: a declared error component is rendered in place of
    the route's own (the previous component is destroyed, the error
    component is created, its instance is handed the route when it already
    has a truthy [routeData], and the router refers to the error component),
    otherwise the failure text is written into the host element and the
    router keeps the component it had; in both cases the event is
    dispatched and the call does not reject. *)
Theorem load_failure_recovers
    (cfg : RouterNg.Config) (st : RouterNg.State) (path pathname : string)
    (ps query : gmap string string) (route : RouterNg.Route)
    (d : gmap string JsVal)
    (Hparse : RouterNg.parsePath cfg path = Some (pathname, ps, query))
    (Hfind : RouterNg.findMatchingRoute (RouterNg.routes cfg) pathname
             = Some route)
    (Hreach :
       Shape.reachesLoading
         (RouterNg.mkState ps pathname query
            (RouterNg.currentComponentRef st) (RouterNg.currentModuleRef st))
         route (mkActivatedRoute ps query pathname (RouterNg.r_data route))
       = Some d)
    (Hfails : RouterNg.loaderFails route = true) :
  let ar := mkActivatedRoute ps query pathname (RouterNg.r_data route) in
  let st1 := RouterNg.mkState ps pathname query
               (RouterNg.currentComponentRef st)
               (RouterNg.currentModuleRef st) in
  let shown :=
    mkActivatedRoute ps query pathname
      (Some (mergeData (RouterNg.r_data route) d)) in
  let call :=
    match RouterNg.loadChildren route with
    | Some _ => CallLoadChildren (RouterNg.r_path route)
    | None => CallLoadComponent (RouterNg.r_path route)
    end in
  RouterNg.handleRouting cfg st path
  = match RouterNg.errorComponent route with
    | Some c =>
        (Settled,
         RouterNg.mkState ps pathname query (Some (RouterNg.ct_name c)) None,
         Shape.guardCalls st1 route ar ++ [call]
         ++ match RouterNg.currentComponentRef st with
            | Some old => [DestroyComponent old]
            | None => []
            end
         ++ match RouterNg.currentModuleRef st with
            | Some old => [DestroyModule old]
            | None => []
            end
         ++ [CreateComponent (RouterNg.ct_name c)]
         ++ (if RouterNg.ct_routeData c
             then [AssignRouteData (RouterNg.ct_name c) shown]
             else [])
         ++ (if RouterNg.rootElement cfg then [SetInnerHTML ""] else [])
         ++ [DispatchRouteChange path ps query])
    | None =>
        (Settled, st1,
         Shape.guardCalls st1 route ar ++ [call]
         ++ (if RouterNg.rootElement cfg
             then [SetInnerHTML "<h1>Failed to load component/module</h1>"]
             else [])
         ++ [DispatchRouteChange path ps query])
    end.
Proof.
  intros ar st1 shown call.
  rewrite (ng_loading cfg st path pathname ps query route d Hparse Hfind
             Hreach).
  unfold RouterNg.loaderFails in Hfails. subst call.
  unfold RouterNg.load, RouterNg.loadFailed.
  destruct (RouterNg.loadChildren route) as [[m|]|]; [done| |];
    [|destruct (RouterNg.loadComponent route) as [[c|]|]; try done];
    (destruct (RouterNg.errorComponent route) as [e|];
     [unfold RouterNg.renderAngularComponent, RouterNg.destroyComponent,
        RouterNg.destroyModule, RouterNg.assignRouteData;
      cbn [fst snd RouterNg.currentComponentRef RouterNg.currentModuleRef
           RouterNg.currentParams RouterNg.currentPath RouterNg.currentQuery];
      subst ar st1 shown; do 2 f_equal;
      by destruct (RouterNg.currentComponentRef st),
        (RouterNg.currentModuleRef st), (RouterNg.ct_routeData e),
        (RouterNg.rootElement cfg)
     |subst ar st1 shown; cbn [fst snd]; do 2 f_equal; simpl;
      by rewrite <- ?app_assoc]).
Qed.

Lemma load_failure_recovers_witness :
  RouterNg.handleRouting (RouterNg.mkConfig [Samples2.failingWithError] true)
    Samples.atA "/f"
  = (Settled,
     RouterNg.mkState ∅ "/f" ∅ (Some "ErrorComponent") None,
     [CallLoadComponent "/f"; DestroyComponent "AComponent";
      CreateComponent "ErrorComponent";
      SetInnerHTML ""; DispatchRouteChange "/f" ∅ ∅]).
Proof.
  exact (load_failure_recovers
           (RouterNg.mkConfig [Samples2.failingWithError] true) Samples.atA
           "/f" "/f" ∅ ∅ Samples2.failingWithError ∅
           eq_refl eq_refl eq_refl eq_refl).
Defined.

(** ** Redirect chains *)

(** A redirect chain is followed without any bound: when the attempt at a
    path redirects to that same path from every state (a route whose
    [redirectTo] leads back to itself), no number of steps brings the
    navigation to an end. *)
Theorem redirect_loop_never_ends
    (cfg : RouterNg.Config) (path : string)
    (Hloop : forall st,
       (RouterNg.handleRouting cfg st path).1.1 = Redirect path) :
  forall fuel st replace, RouterNg.navigate fuel cfg st path replace = None.
Proof.
  assert (H : forall fuel st, RouterNg.routing fuel cfg st path = None).
  { induction fuel as [|fuel IH]; intros st; [done|].
    cbn [RouterNg.routing]. specialize (Hloop st).
    destruct (RouterNg.handleRouting cfg st path) as [[o s] t].
    simpl in Hloop. subst o. by rewrite IH. }
  intros fuel st replace. unfold RouterNg.navigate. by rewrite H.
Qed.

Lemma redirect_loop_never_ends_witness :
  RouterNg.navigate 1000 (RouterNg.mkConfig [Samples2.selfRedirect] true)
    RouterNg.initialState "/loop" false = None.
Proof.
  apply redirect_loop_never_ends. by intros [? ? ? [c|] ?].
Defined.

(** ** A whole navigation of [router2.ts] *)

Lemma router2_load_no_history (cfg : Router2.Config) (route : Router2.Route)
    (ar : ActivatedRoute) :
  List.existsb Shape.isHistory (Router2.load cfg route ar) = false.
Proof.
  unfold Router2.load, Router2.mount, Router2.setInnerHTML.
  destruct (Router2.loadChildren route) as [[c|]|];
    [| |destruct (Router2.loadComponent route) as [[c|]|]];
    destruct (Router2.rootElement cfg); reflexivity.
Qed.

Lemma r2_attempt (cfg : Router2.Config) (st : Router2.State) (path : string) :
  let r := Router2.handleRouting cfg st path in
  List.existsb Shape.isHistory r.2 = false
  /\ List.length (List.filter isDispatch r.2)
     = (if Shape.isSettled r.1.1 then 1 else 0).
Proof.
  intros r. subst r.
  destruct (Router2.parsePath st path) as [[[pathname ps] query]|] eqn:Hparse;
    [|by unfold Router2.handleRouting; rewrite Hparse].
  destruct (Router2.findMatchingRoute (Router2.routes cfg) pathname ps)
    as [[route|] cur] eqn:Hfind.
  - pose proof (r2_guards_only pathname query cur route) as G.
    cbv zeta in G. rewrite List.forallb_app in G.
    apply andb_true_iff in G as [G1 G2].
    destruct (guardEffect_facts _ G1) as (_ & A1 & _).
    destruct (guardEffect_facts _ G2) as (_ & A2 & _).
    pose proof (guardEffect_no_dispatch _ G1) as B1.
    pose proof (guardEffect_no_dispatch _ G2) as B2.
    rewrite (r2_handleRouting_matched cfg st path pathname ps query cur route
               Hparse Hfind). cbv zeta.
    destruct (someRejects (Router2.activationStep route _).1).
    { cbn [fst snd]. by rewrite A1, B1. }
    destruct (Router2.resolveStep route _).1 as [d|].
    2:{ cbn [fst snd]. by rewrite List.existsb_app, List.filter_app, A1, A2, B1, B2. }
    destruct (Router2.redirectTarget route).
    { cbn [fst snd]. by rewrite List.existsb_app, List.filter_app, A1, A2, B1, B2. }
    cbn [fst snd].
    rewrite !List.existsb_app, !List.filter_app, A1, A2, B1, B2,
      router2_load_no_history, router2_load_no_dispatch. done.
  - unfold Router2.handleRouting. rewrite Hparse, Hfind.
    unfold Router2.setInnerHTML. by destruct (Router2.rootElement cfg).
Qed.

Lemma r2_routing_facts (fuel : nat) :
  forall cfg st path out st' tr,
    Router2.routing fuel cfg st path = Some (out, st', tr) ->
    Shape.isRedirect out = false
    /\ List.length (List.filter isDispatch tr)
       = (if Shape.isSettled out then 1 else 0)
    /\ List.filter Shape.isPush tr = [].
Proof.
  induction fuel as [|fuel IH]; intros cfg st path out st' tr; [done|].
  cbn [Router2.routing].
  destruct (r2_attempt cfg st path) as (Hh & Hd).
  destruct (Router2.handleRouting cfg st path) as [[o s1] t1].
  cbn [fst snd] in Hh, Hd.
  assert (Hp : List.filter Shape.isPush t1 = []).
  { clear -Hh. induction t1 as [|e t1 IH]; [done|]. simpl in *.
    apply orb_false_iff in Hh as [He Ht]. rewrite (IH Ht).
    by destruct e as [[] ?| | | | | | | | | | | | |]. }
  destruct o; try (intros [= <- <- <-]; done).
  destruct (Router2.routing fuel cfg s1 target) as [[[o2 s2] t2]|] eqn:E;
    [|done].
  intros [= <- <- <-]. destruct (IH _ _ _ _ _ _ E) as (H1 & H2 & H3).
  split; [done|].
  rewrite !List.filter_app, length_app. simpl.
  rewrite Hp, H3. simpl in Hd. rewrite Hd, H2. done.
Qed.

(** A navigation of [router2.ts] that comes to an end, with all the
    redirects it follows, dispatches exactly one [routechange] event when it
    runs to its end and none when a guard blocks it or it is rejected, and
    it calls [pushState] at most once: for the path it is given, when
    [replace] is false. *)
Theorem router2_navigation_once
    (fuel : nat) (cfg : Router2.Config) (st st' : Router2.State)
    (path : string) (replace : bool) (out : Outcome) (tr : list Effect)
    (Hrun : Router2.navigate fuel cfg st path replace = Some (out, st', tr)) :
  Shape.isRedirect out = false
  /\ List.length (List.filter isDispatch tr)
     = (if Shape.isSettled out then 1 else 0)
  /\ List.filter Shape.isPush tr
     = (if replace then [] else [HistoryState false path]).
Proof.
  unfold Router2.navigate in Hrun.
  destruct (Router2.routing fuel cfg st path) as [[[o s] t]|] eqn:E; [|done].
  injection Hrun as <- <- <-.
  destruct (r2_routing_facts _ _ _ _ _ _ _ E) as (H1 & H2 & H3).
  split; [done|]. split; [by destruct replace|].
  simpl. rewrite H3. by destruct replace.
Qed.

Lemma router2_navigation_once_witness :
  Shape.isRedirect Settled = false
  /\ List.length
       (List.filter isDispatch
          [HistoryState false "/old/7"; HistoryState true "/new/:id";
           SetInnerHTML "<h1>404 - Page Not Found</h1>";
           DispatchRouteChange "/new/:id" (<["id" := "7"]> ∅) ∅])
     = (if Shape.isSettled Settled then 1 else 0)
  /\ List.filter Shape.isPush
       [HistoryState false "/old/7"; HistoryState true "/new/:id";
        SetInnerHTML "<h1>404 - Page Not Found</h1>";
        DispatchRouteChange "/new/:id" (<["id" := "7"]> ∅) ∅]
     = (if false then [] else [HistoryState false "/old/7"]).
Proof.
  exact (router2_navigation_once 2 (Samples.oldConfig2 None)
           Router2.initialState _ "/old/7" false _ _ eq_refl).
Defined.

(** In [router2.ts] the parameters the [routechange] event carries are the
    ones the router held before the attempt, not those the attempt bound:
    [_parsePath] returns [this.currentParams] as it finds it, and the
    matcher replaces that field afterwards. *)
Theorem router2_event_has_previous_params
    (cfg : Router2.Config) (st : Router2.State) (path : string)
    (Hsettled : (Router2.handleRouting cfg st path).1.1 = Settled) :
  exists query,
    List.filter isDispatch (Router2.handleRouting cfg st path).2
    = [DispatchRouteChange path (Router2.currentParams st) query].
Proof.
  assert (Hp : exists pathname query,
             Router2.parsePath st path
             = Some (pathname, Router2.currentParams st, query)).
  { unfold Router2.handleRouting in Hsettled. unfold Router2.parsePath in *.
    destruct (parseQuery _); [by eauto|done]. }
  destruct Hp as (pathname & query & Hparse). exists query.
  destruct (Router2.findMatchingRoute (Router2.routes cfg) pathname
              (Router2.currentParams st)) as [[route|] cur] eqn:Hfind.
  - exact (r2_settled cfg st path pathname _ query cur route Hparse Hfind
             Hsettled).
  - unfold Router2.handleRouting. rewrite Hparse, Hfind.
    unfold Router2.setInnerHTML. by destruct (Router2.rootElement cfg).
Qed.

Lemma router2_event_has_previous_params_witness :
  exists query,
    List.filter isDispatch
      (Router2.handleRouting (Router2.mkConfig [Samples.r2 "/users/:id"] true)
         (Router2.mkState (<["id" := "1"]> ∅) "/users/1" ∅) "/users/2").2
    = [DispatchRouteChange "/users/2" (<["id" := "1"]> ∅) query].
Proof.
  exact (router2_event_has_previous_params
           (Router2.mkConfig [Samples.r2 "/users/:id"] true)
           (Router2.mkState (<["id" := "1"]> ∅) "/users/1" ∅) "/users/2"
           eq_refl).
Defined.

(** ** Parameters left over from the previous navigation *)

(** In the segment matcher only a segment match touches the parameters: when
    the first route that answers for the pathname is equal to it, or is
    [*], that route is returned and the parameters are left as they were,
    so the router keeps those of the previous navigation; when no route
    answers, they are left as they were too. *)
Theorem findMatchingRoute_keeps_params
    (rs : list Router2.Route) (p : string) (cur : gmap string string) :
  (forall r,
     List.find (Router2.hits p) rs = Some r ->
     Router2.r_path r = p \/ Router2.r_path r = "*" ->
     Router2.findMatchingRoute rs p cur = (Some r, cur))
  /\ (List.find (Router2.hits p) rs = None ->
      Router2.findMatchingRoute rs p cur = (None, cur)).
Proof.
  unfold Router2.findMatchingRoute.
  induction rs as [|x rs [IH1 IH2]]; [done|]. cbn [List.find Router2.forRoutes].
  pose proof (tryRoute_hits p x cur) as H.
  destruct (Router2.hits p x) eqn:Ex.
  - split; [|done]. intros r [= <-] Hr. rewrite tryRoute_eq.
    destruct Hr as [Hr|Hr]; rewrite Hr.
    + by rewrite String.eqb_refl.
    + destruct (String.eqb "*" p); [done|]. by rewrite String.eqb_refl.
  - destruct (Router2.tryRoute p x cur) as [[[c|] cur']|]; [done|done|].
    split; [exact IH1|exact IH2].
Qed.

Example params_of_previous_navigation :
  Router2.findMatchingRoute [Samples.r2 "/users/:id"; Samples.r2 "/about"]
    "/about" (<["id" := "1"]> ∅)
  = (Some (Samples.r2 "/about"), <["id" := "1"]> ∅).
Proof. reflexivity. Qed.

(** ** The first router of [router.ts] *)

Section Router1Induction.

Variable P : Router1.Route -> Prop.

Definition allChildren1 (ch : option (list Router1.Route)) : Prop :=
  match ch with Some l => Forall P l | None => True end.

Hypothesis step : forall route,
  allChildren1 (Router1.children route) -> P route.

Fixpoint router1_route_ind (route : Router1.Route) : P route :=
  step route
    (match route as r return allChildren1 (Router1.children r) with
     | Router1.mkRoute _ _ _ _ _ ch =>
         match ch as c return allChildren1 c with
         | Some l =>
             (fix all (l : list Router1.Route) : Forall P l :=
                match l with
                | [] => @List.Forall_nil _ P
                | c :: l' =>
                    @List.Forall_cons _ P c l' (router1_route_ind c) (all l')
                end) l
         | None => I
         end
     end).

End Router1Induction.

Lemma router1_tryRoute_eq (p : string) (route : Router1.Route)
    (cur : gmap string string) :
  Router1.tryRoute p route cur =
  if String.eqb (Router1.r_path route) p then Some (Some route, cur)
  else if String.eqb (Router1.r_path route) "*" then Some (Some route, cur)
  else
    match Router2.segmentMatch p (Router1.toRouter2 route) with
    | None => None
    | Some ps =>
        match Router1.children route with
        | Some cs =>
            match Router1.findMatchingRoute cs p ps with
            | (Some childRoute, cur') => Some (Some childRoute, cur')
            | (None, cur') => Some (Some route, cur')
            end
        | None => Some (Some route, ps)
        end
    end.
Proof.
  destruct route. unfold Router2.segmentMatch. simpl.
  repeat (destruct (String.eqb _ _); [reflexivity|]).
  destruct (negb _); reflexivity.
Qed.

Lemma router1_forRoutes_agree (p : string) (rs : list Router1.Route) :
  Forall (fun route => forall cur,
            Router1.embedResult (Router1.tryRoute p route cur)
            = Router2.tryRoute p (Router1.toRouter2 route) cur) rs ->
  forall cur,
    (Router1.toRouter2 <$> (Router1.findMatchingRoute rs p cur).1,
     (Router1.findMatchingRoute rs p cur).2)
    = Router2.findMatchingRoute (List.map Router1.toRouter2 rs) p cur.
Proof.
  unfold Router1.findMatchingRoute, Router2.findMatchingRoute.
  induction 1 as [|x rs Hx _ IH]; intros cur; [done|].
  simpl. rewrite <- (Hx cur).
  destruct (Router1.tryRoute p x cur) as [[found cur']|]; [done|]. apply IH.
Qed.

Lemma router1_tryRoute_agree (p : string) (route : Router1.Route) :
  forall cur,
    Router1.embedResult (Router1.tryRoute p route cur)
    = Router2.tryRoute p (Router1.toRouter2 route) cur.
Proof.
  revert route.
  apply (router1_route_ind
           (fun route => forall cur,
              Router1.embedResult (Router1.tryRoute p route cur)
              = Router2.tryRoute p (Router1.toRouter2 route) cur)).
  intros route IH cur.
  rewrite router1_tryRoute_eq, tryRoute_eq.
  assert (Hpath : Router2.r_path (Router1.toRouter2 route)
                  = Router1.r_path route) by (by destruct route).
  assert (Hch : Router2.children (Router1.toRouter2 route)
                = List.map Router1.toRouter2 <$> Router1.children route)
    by (by destruct route as [? ? ? ? ? [cs|]]).
  rewrite Hpath, Hch.
  destruct (String.eqb (Router1.r_path route) p); [done|].
  destruct (String.eqb (Router1.r_path route) "*"); [done|].
  destruct (Router2.segmentMatch p (Router1.toRouter2 route)) as [ps|]; [|done].
  destruct (Router1.children route) as [cs|]; [|done].
  simpl in IH |- *.
  rewrite <- (router1_forRoutes_agree p cs IH ps).
  by destruct (Router1.findMatchingRoute cs p ps) as [[c|] cur'].
Qed.

(** The matcher of the first router of [router.ts] and the matcher of
    [router2.ts] are the same function: on the same route tree (seen in the
    interface of [router2.ts], without guards and resolvers) they return the
    same route and leave the same parameters. *)
Theorem router1_matcher_is_router2_matcher
    (rs : list Router1.Route) (p : string) (cur : gmap string string) :
  (Router1.toRouter2 <$> (Router1.findMatchingRoute rs p cur).1,
   (Router1.findMatchingRoute rs p cur).2)
  = Router2.findMatchingRoute (List.map Router1.toRouter2 rs) p cur.
Proof.
  apply router1_forRoutes_agree. apply Forall_forall. intros route _.
  apply router1_tryRoute_agree.
Qed.

Lemma router1_load_facts (cfg : Router1.Config) (route : Router1.Route)
    (ar : ActivatedRoute) :
  List.existsb Shape.isHistory (Router1.load cfg route ar) = false
  /\ List.filter isDispatch (Router1.load cfg route ar) = [].
Proof.
  unfold Router1.load, Router1.mount, Router1.setInnerHTML.
  destruct (Router1.loadChildren route) as [[c|]|];
    [| |destruct (Router1.loadComponent route) as [[c|]|]];
    destruct (Router1.rootElement cfg); split; reflexivity.
Qed.

Lemma router1_attempt (cfg : Router1.Config) (st : Router1.State)
    (path : string) :
  let r := Router1.handleRouting cfg st path in
  List.existsb Shape.isHistory r.2 = false
  /\ List.length (List.filter isDispatch r.2)
     = (if Shape.isSettled r.1.1 then 1 else 0)
  /\ (Shape.isRedirect r.1.1 = true -> r.2 = []).
Proof.
  intros r. subst r. unfold Router1.handleRouting.
  destruct (Router1.parsePath st path) as [[[pathname ps] query]|]; [|done].
  destruct (Router1.findMatchingRoute _ _ _) as [[route|] cur].
  - destruct (Router1.redirectTarget route); [done|]. cbn [fst snd].
    destruct (router1_load_facts cfg route
                (mkActivatedRoute cur query pathname (Router1.r_data route)))
      as [H1 H2].
    rewrite List.existsb_app, List.filter_app, H1, H2. done.
  - unfold Router1.setInnerHTML. by destruct (Router1.rootElement cfg).
Qed.

Lemma router1_routing_facts (fuel : nat) :
  forall cfg st path out st' tr,
    Router1.routing fuel cfg st path = Some (out, st', tr) ->
    Shape.isRedirect out = false
    /\ List.length (List.filter isDispatch tr)
       = (if Shape.isSettled out then 1 else 0)
    /\ List.filter Shape.isPush tr = [].
Proof.
  induction fuel as [|fuel IH]; intros cfg st path out st' tr; [done|].
  cbn [Router1.routing].
  destruct (router1_attempt cfg st path) as (Hh & Hd & _).
  destruct (Router1.handleRouting cfg st path) as [[o s1] t1].
  cbn [fst snd] in Hh, Hd.
  assert (Hp : List.filter Shape.isPush t1 = []).
  { clear -Hh. induction t1 as [|e t1 IH]; [done|]. simpl in *.
    apply orb_false_iff in Hh as [He Ht]. rewrite (IH Ht).
    by destruct e as [[] ?| | | | | | | | | | | | |]. }
  destruct o; try (intros [= <- <- <-]; done).
  destruct (Router1.routing fuel cfg s1 target) as [[[o2 s2] t2]|] eqn:E;
    [|done].
  intros [= <- <- <-]. destruct (IH _ _ _ _ _ _ E) as (H1 & H2 & H3).
  split; [done|].
  rewrite !List.filter_app, length_app. simpl.
  rewrite Hp, H3. simpl in Hd. rewrite Hd, H2. done.
Qed.

(** In the first router of [router.ts] a matched route with [redirectTo]
    redirects at once: the attempt has no effect of its own (no loader is
    called, the host element is untouched, no event is dispatched), and the
    navigation goes on with [navigate(redirectTo, true)], the target as it
    is written. *)
Theorem router1_redirects_at_once
    (fuel : nat) (cfg : Router1.Config) (st : Router1.State)
    (path pathname target : string) (ps query cur : gmap string string)
    (route : Router1.Route)
    (Hparse : Router1.parsePath st path = Some (pathname, ps, query))
    (Hfind : Router1.findMatchingRoute (Router1.routes cfg) pathname ps
             = (Some route, cur))
    (Hredirect : Router1.redirectTarget route = Some target) :
  Router1.handleRouting cfg st path
  = (Redirect target, Router1.mkState cur pathname query, [])
  /\ Router1.routing (S fuel) cfg st path
     = Router1.navigate fuel cfg (Router1.mkState cur pathname query)
         target true.
Proof.
  assert (H : Router1.handleRouting cfg st path
              = (Redirect target, Router1.mkState cur pathname query, [])).
  { unfold Router1.handleRouting. by rewrite Hparse, Hfind, Hredirect. }
  split; [exact H|].
  cbn [Router1.routing]. rewrite H. unfold Router1.navigate.
  by destruct (Router1.routing fuel cfg _ target) as [[[o s] t]|].
Qed.

Lemma router1_redirects_at_once_witness :
  Router1.handleRouting
    (Router1.mkConfig
       [Router1.mkRoute "/old" (Some (Fulfilled "Old")) None (Some "/new")
          None None] true)
    (Router1.mkState ∅ "" ∅) "/old"
  = (Redirect "/new", Router1.mkState ∅ "/old" ∅, [])
  /\ Router1.routing 2
       (Router1.mkConfig
          [Router1.mkRoute "/old" (Some (Fulfilled "Old")) None (Some "/new")
             None None] true)
       (Router1.mkState ∅ "" ∅) "/old"
     = Router1.navigate 1
         (Router1.mkConfig
            [Router1.mkRoute "/old" (Some (Fulfilled "Old")) None
               (Some "/new") None None] true)
         (Router1.mkState ∅ "/old" ∅) "/new" true.
Proof.
  exact (router1_redirects_at_once 1
           (Router1.mkConfig
              [Router1.mkRoute "/old" (Some (Fulfilled "Old")) None
                 (Some "/new") None None] true)
           (Router1.mkState ∅ "" ∅) "/old" "/old" "/new" ∅ ∅ ∅
           (Router1.mkRoute "/old" (Some (Fulfilled "Old")) None
              (Some "/new") None None)
           eq_refl eq_refl eq_refl).
Defined.

(** A navigation of the first router of [router.ts] that comes to an end
    dispatches exactly one [routechange] event (nothing blocks it; it is
    rejected only by a malformed escape in the query) and calls [pushState]
    at most once: for the path it is given, when [replace] is false. *)
Theorem router1_navigation_once
    (fuel : nat) (cfg : Router1.Config) (st st' : Router1.State)
    (path : string) (replace : bool) (out : Outcome) (tr : list Effect)
    (Hrun : Router1.navigate fuel cfg st path replace = Some (out, st', tr)) :
  (out = Settled \/ out = Rejected)
  /\ List.length (List.filter isDispatch tr)
     = (if Shape.isSettled out then 1 else 0)
  /\ List.filter Shape.isPush tr
     = (if replace then [] else [HistoryState false path]).
Proof.
  assert (Hout : forall n c s p o s' t,
            Router1.routing n c s p = Some (o, s', t) ->
            o = Settled \/ o = Rejected).
  { induction n as [|n IH]; intros c s p o s' t; [done|].
    cbn [Router1.routing]. unfold Router1.handleRouting at 1.
    destruct (Router1.parsePath s p) as [[[pn ps] q]|];
      [|intros [= <- <- <-]; by right].
    destruct (Router1.findMatchingRoute _ _ _) as [[route|] cur];
      [|intros [= <- <- <-]; by left].
    destruct (Router1.redirectTarget route) as [target|];
      [|intros [= <- <- <-]; by left].
    destruct (Router1.routing n c _ target) as [[[o2 s2] t2]|] eqn:E; [|done].
    intros [= <- <- <-]. exact (IH _ _ _ _ _ _ E). }
  unfold Router1.navigate in Hrun.
  destruct (Router1.routing fuel cfg st path) as [[[o s] t]|] eqn:E; [|done].
  injection Hrun as <- <- <-.
  destruct (router1_routing_facts _ _ _ _ _ _ _ E) as (H1 & H2 & H3).
  split; [exact (Hout _ _ _ _ _ _ _ E)|]. split; [by destruct replace|].
  simpl. rewrite H3. by destruct replace.
Qed.

Lemma router1_navigation_once_witness :
  (Settled = Settled \/ Settled = Rejected)
  /\ List.length
       (List.filter isDispatch
          [HistoryState false "/old"; HistoryState true "/new";
           SetInnerHTML "<h1>404 - Page Not Found</h1>";
           DispatchRouteChange "/new" ∅ ∅])
     = (if Shape.isSettled Settled then 1 else 0)
  /\ List.filter Shape.isPush
       [HistoryState false "/old"; HistoryState true "/new";
        SetInnerHTML "<h1>404 - Page Not Found</h1>";
        DispatchRouteChange "/new" ∅ ∅]
     = (if false then [] else [HistoryState false "/old"]).
Proof.
  exact (router1_navigation_once 2
           (Router1.mkConfig
              [Router1.mkRoute "/old" (Some (Fulfilled "Old")) None
                 (Some "/new") None None] true)
           (Router1.mkState ∅ "" ∅) _ "/old" false _ _ eq_refl).
Defined.

(** ** Clicks on links *)

Lemma includes_append (sub a b : string) :
  Dom.includes sub a = true -> Dom.includes sub (a +:+ b) = true.
Proof.
  assert (Hs : forall p s t,
            Dom.startsWith p s = true -> Dom.startsWith p (s +:+ t) = true).
  { induction p as [|x p IH]; intros s t; [done|].
    destruct s as [|y s]; [done|]. rewrite append_cons. simpl.
    intros H. apply andb_true_iff in H as [-> H]. by rewrite (IH _ _ H). }
  induction a as [|c a IH].
  - simpl. rewrite orb_false_r. intros H. destruct sub; [|done].
    destruct b; done.
  - rewrite append_cons. cbn [Dom.includes]. intros H.
    apply orb_true_iff in H as [H|H].
    + rewrite <- append_cons, (Hs _ _ _ H). done.
    + by rewrite (IH H), orb_true_r.
Qed.

(** [_handleClick] tests the resolved URL of the link, [link.href], for
    [://]: whenever that URL begins with an origin that contains [://], the
    click is left to the browser, whatever the [href] attribute, the button
    and the keys are. *)
Theorem handleClick_resolved_url
    (e : Dom.MouseEvent) (link : Dom.Anchor) (origin rest : string)
    (Hlink : Dom.closestAnchor e = Some link)
    (Hresolved : Dom.href link = origin +:+ rest)
    (Hscheme : Dom.includes "://" origin = true) :
  Dom.handleClick e = None.
Proof.
  unfold Dom.handleClick. rewrite Hlink, Hresolved.
  rewrite (includes_append _ _ _ Hscheme).
  by rewrite !orb_true_r.
Qed.

Lemma handleClick_resolved_url_witness :
  Dom.handleClick
    (Dom.mkMouseEvent
       (Some (Dom.mkAnchor "" false "http://localhost/about" (Some "/about")))
       0 false false false false)
  = None.
Proof.
  exact (handleClick_resolved_url
           (Dom.mkMouseEvent
              (Some (Dom.mkAnchor "" false "http://localhost/about"
                       (Some "/about")))
              0 false false false false)
           (Dom.mkAnchor "" false "http://localhost/about" (Some "/about"))
           "http://localhost" "/about" eq_refl eq_refl eq_refl).
Defined.

(** When [_handleClick] does intercept a click, it navigates to the text of
    the [href] attribute, which starts with [/]; the click is a plain
    primary-button click on a link that does not open a new tab and is not a
    download; and a click with a modifier key or another button is
    intercepted neither by [_handleClick] nor by the listener of
    [createLink]. *)
Theorem clicks_intercepted (e : Dom.MouseEvent) :
  (forall h,
     Dom.handleClick e = Some h ->
     exists link,
       Dom.closestAnchor e = Some link
       /\ Dom.hrefAttribute link = Some h
       /\ Dom.startsWith "/" h = true
       /\ Dom.target link <> "_blank" /\ Dom.download link = false
       /\ Dom.includes "://" (Dom.href link) = false
       /\ forall to, Dom.createdLinkClick to e = Some to)
  /\ (Dom.ctrlKey e || Dom.metaKey e || Dom.shiftKey e || Dom.altKey e
      || negb (Z.eqb (Dom.button e) 0) = true ->
      Dom.handleClick e = None
      /\ forall to, Dom.createdLinkClick to e = None).
Proof.
  unfold Dom.handleClick, Dom.createdLinkClick. split.
  - intros h. destruct (Dom.closestAnchor e) as [link|]; [|done].
    destruct (String.eqb (Dom.target link) "_blank") eqn:Et; [done|].
    destruct (Dom.download link) eqn:Ed; [done|].
    destruct (Dom.startsWith "mailto:" _); [done|].
    destruct (Dom.startsWith "tel:" _); [done|].
    destruct (Dom.includes "://" _) eqn:Ei; [done|].
    destruct (Dom.metaKey e); [done|]. destruct (Dom.ctrlKey e); [done|].
    destruct (Dom.shiftKey e); [done|]. destruct (Dom.altKey e); [done|].
    destruct (Z.eqb (Dom.button e) 0); [|done]. cbn [orb negb andb].
    destruct (Dom.hrefAttribute link) as [a|] eqn:Ea; [|done].
    destruct (Js.truthy a); [|done]. cbn [andb].
    destruct (Dom.startsWith "/" a) eqn:Es; [|done].
    intros [= <-]. exists link. apply String.eqb_neq in Et.
    repeat split; done.
  - intros H. destruct (Dom.closestAnchor e) as [link|].
    + destruct (Dom.ctrlKey e), (Dom.metaKey e), (Dom.shiftKey e),
        (Dom.altKey e), (Z.eqb (Dom.button e) 0);
        simpl in H; try discriminate; rewrite ?orb_true_r; done.
    + destruct (Dom.ctrlKey e), (Dom.metaKey e), (Dom.shiftKey e),
        (Dom.altKey e), (Z.eqb (Dom.button e) 0);
        simpl in H; try discriminate; rewrite ?andb_false_r; done.
Qed.
